(** * pact-go: the daemon control plane and the consumer session (dsl.Pact)

    A shallow embedding of [daemon.Daemon] (the RPC server side) and of
    [dsl.Pact] (the client-side session), together with the properties of
    the orchestration that the specification states.

    Conventions of the embedding.
    - A Go [error] is represented by its [Error()] text; the nil error is
      [None].
    - A Go [[]byte] and a Go [string] are both byte sequences: [string].
    - A Go [int] is a [Z]; no arithmetic is done on them here.
    - A Go pointer that may be nil is an [option]; dereferencing nil
      panics.
    - Everything the code does to the outside (logging, the service
      managers, the operating system, HTTP calls to the mock service) is
      recorded as an event, in program order; the answers of the outside
      are parameters: an interface (a class) or section variables.

    The file has the definitions first (the Go runtime, the packages used,
    package daemon, package dsl with the bridge of [VerifyProducer], and a
    concrete instance of each), then the properties. *)

From stdpp Require Import gmap strings list pretty.

Open Scope Z_scope.

(** ** Go runtime: errors, panics, calls with effects *)

Definition error := string.

(** The result of a call: it returns, the goroutine panics, or the
    goroutine parks on a channel operation that cannot proceed. *)
Inductive outcome (A : Type) : Type :=
| Returned (a : A)
| Panicked (msg : string)
| Blocked.
Arguments Returned {A} a.
Arguments Panicked {A} msg.
Arguments Blocked {A}.

(** A call that runs over a state [S] and emits events [Ev] in order. *)
Definition Go (Ev S A : Type) : Type := S → outcome A * S * list Ev.

Definition go_ret {Ev S A} (a : A) : Go Ev S A :=
  λ s, (Returned a, s, []).

Definition go_bind {Ev S A B} (k : A → Go Ev S B) (m : Go Ev S A) : Go Ev S B :=
  λ s, match m s with
       | (Returned a, s1, e1) =>
           match k a s1 with (r, s2, e2) => (r, s2, e1 ++ e2) end
       | (Panicked msg, s1, e1) => (Panicked msg, s1, e1)
       | (Blocked, s1, e1) => (Blocked, s1, e1)
       end.

#[global] Instance Go_ret {Ev S} : MRet (Go Ev S) := @go_ret Ev S.
#[global] Instance Go_bind {Ev S} : MBind (Go Ev S) := @go_bind Ev S.

Definition emit {Ev S} (e : Ev) : Go Ev S unit := λ s, (Returned tt, s, [e]).
Definition panic {Ev S A} (msg : string) : Go Ev S A := λ s, (Panicked msg, s, []).

(** Dereference of a pointer: nil panics. *)
Definition deref {Ev S A} (p : option A) : Go Ev S A :=
  match p with
  | Some a => mret a
  | None => panic "invalid memory address or nil pointer dereference"
  end.

(** The line feed of a Go string literal. *)
Definition LF : string := String (Ascii.ascii_of_nat 10) "".

(** [strings.HasPrefix] and [strings.Contains]. *)
Fixpoint strings_HasPrefix (s prefix : string) {struct prefix} : bool :=
  match prefix, s with
  | EmptyString, _ => true
  | String c p', String d s' => if Ascii.eqb c d then strings_HasPrefix s' p' else false
  | String _ _, EmptyString => false
  end.

Fixpoint strings_Contains (s substr : string) : bool :=
  strings_HasPrefix s substr ||
  match s with
  | EmptyString => false
  | String _ s' => strings_Contains s' substr
  end.

(** ** Packages the daemon and the session import *)

Module os.
(** [os.Signal]: the two the daemon subscribes to. *)
Inductive Signal := Interrupt | Kill.

Definition Signal_String (s : Signal) : string :=
  match s with Interrupt => "interrupt" | Kill => "killed" end.

(** [os.Process]. *)
Record Process := { Pid : Z }.
End os.

Module exec.
(** [exec.Cmd]: [Process] is nil until the command has been started. *)
Record Cmd := { Path : string; Args : list string; Process : option os.Process }.

(** What the operating system answers when a command is run with both
    output streams piped: the error of each call, and what [ioutil.ReadAll]
    gets from each pipe. *)
Record Run := {
  StdoutPipe_err : option error;
  StderrPipe_err : option error;
  Start_err : option error;
  Stdout_ReadAll : string * option error;
  Stderr_ReadAll : string * option error;
  Wait_err : option error
}.
End exec.

Module types.
(** [types.MockServer], as the daemon and the session use it. *)
Record MockServer := { Pid : Z; Port : Z; Status : Z; Args : list string }.

Definition set_Status (v : Z) (s : MockServer) : MockServer :=
  {| Pid := Pid s; Port := Port s; Status := v; Args := Args s |}.

(** [types.VerifyRequest]: the fields the callers fill and [Args], which
    [Validate] derives from them. *)
Record VerifyRequest := {
  ProviderBaseURL : string;
  PactURLs : list string;
  BrokerURL : string;
  ProviderStatesSetupURL : string;
  BrokerUsername : string;
  BrokerPassword : string;
  VerifyRequest_Args : list string
}.

(** [types.ProviderVerifierResponse] and its examples. *)
Record Exception := { Exception_Message : string }.
Record Example := {
  Description : string;
  FullDescription : string;
  Example_Status : string;
  Example_Exception : Exception
}.
Record ProviderVerifierResponse := { Examples : list Example }.

(** [types.Message]: the envelope of a message pact. The session reads
    its description only; [Rest] stands for its other fields. *)
Record Message (Rest : Type) := {
  Message_Description : string;
  Message_rest : Rest
}.
Arguments Message_Description {Rest} m.
Arguments Message_rest {Rest} m.
End types.

(** ** Package daemon *)

Module daemon.

(** The three managers a daemon holds. *)
Inductive Manager := MockSvc | VerificationSvc | MessageSvc.

Inductive Stream := Stdout | Stderr.

(** What a daemon call does to the outside, in program order. *)
Inductive Event :=
| EvLog (msg : string)
| EvNewService (m : Manager) (args : list string)
| EvCommand (m : Manager)
| EvList (m : Manager)
| EvStop (m : Manager) (pid : Z)
| EvStdoutPipe
| EvStderrPipe
| EvStart
| EvReadAll (s : Stream)
| EvWait
| EvDecode
| EvListen (network addr : string)
| EvServe
| EvNotify
| EvSend (s : os.Signal)
| EvRecv (s : os.Signal).

#[global] Instance Manager_eq_dec : EqDecision Manager.
Proof. solve_decision. Defined.
#[global] Instance Stream_eq_dec : EqDecision Stream.
Proof. solve_decision. Defined.
#[global] Instance Signal_eq_dec : EqDecision os.Signal.
Proof. solve_decision. Defined.
#[global] Instance Event_eq_dec : EqDecision Event.
Proof. solve_decision. Defined.

(** The [Service] interface: a manager with state [M] hands out service
    handles [Svc]. Only the methods the daemon calls in the functions
    below are listed. *)
Class Service (M Svc : Type) := {
  Setup : M → M;
  NewService : list string → M → Svc * M;
  List : M → gmap Z (option exec.Cmd);
  Stop : Z → M → (bool * option error) * M;
  Command : Svc → exec.Cmd
}.

Section Daemon.
Context {M Svc : Type} `{!Service M Svc}.

(** [types.VerifyRequest.Validate], a pointer-receiver method: it returns
    the request as it leaves it, and its error. *)
Variable Validate : types.VerifyRequest → types.VerifyRequest * option error.

(** [json.NewDecoder(bytes.NewReader(data)).Decode(&reply)]: the reply as
    the decoder leaves it, and its error. *)
Variable json_Decode :
  string → types.ProviderVerifierResponse → types.ProviderVerifierResponse * option error.

(** The operating system running a command. *)
Variable os_run : exec.Cmd → exec.Run.

(** [net.Listen]. *)
Variable net_Listen : string → string → option error.

(** The order in which [range] visits a map: unspecified, but each entry
    once. *)
Variable range_order : gmap Z (option exec.Cmd) → list (Z * option exec.Cmd).

(** [Daemon]: the managers are distinct objects, each with a registry of
    its own; [signalChan] is the buffer of a channel of capacity 1. *)
Record Daemon := {
  pactMockSvcManager : M;
  verificationSvcManager : M;
  messageSvcManager : M;
  signalChan : list os.Signal
}.

Definition manager (m : Manager) (d : Daemon) : M :=
  match m with
  | MockSvc => pactMockSvcManager d
  | VerificationSvc => verificationSvcManager d
  | MessageSvc => messageSvcManager d
  end.

Definition set_manager (m : Manager) (v : M) (d : Daemon) : Daemon :=
  match m with
  | MockSvc =>
      {| pactMockSvcManager := v; verificationSvcManager := verificationSvcManager d;
         messageSvcManager := messageSvcManager d; signalChan := signalChan d |}
  | VerificationSvc =>
      {| pactMockSvcManager := pactMockSvcManager d; verificationSvcManager := v;
         messageSvcManager := messageSvcManager d; signalChan := signalChan d |}
  | MessageSvc =>
      {| pactMockSvcManager := pactMockSvcManager d;
         verificationSvcManager := verificationSvcManager d;
         messageSvcManager := v; signalChan := signalChan d |}
  end.

Definition set_signalChan (c : list os.Signal) (d : Daemon) : Daemon :=
  {| pactMockSvcManager := pactMockSvcManager d;
     verificationSvcManager := verificationSvcManager d;
     messageSvcManager := messageSvcManager d; signalChan := c |}.

Definition G := Go Event Daemon.

(** Method calls on a manager of the daemon. *)
Definition call_NewService (m : Manager) (args : list string) : G Svc :=
  λ d, let '(svc, v) := NewService args (manager m d) in
       (Returned svc, set_manager m v d, [EvNewService m args]).

Definition call_Command (m : Manager) (svc : Svc) : G exec.Cmd :=
  λ d, (Returned (Command svc), d, [EvCommand m]).

Definition call_List (m : Manager) : G (gmap Z (option exec.Cmd)) :=
  λ d, (Returned (List (manager m d)), d, [EvList m]).

Definition call_Stop (m : Manager) (pid : Z) : G (bool * option error) :=
  λ d, let '(r, v) := Stop pid (manager m d) in
       (Returned r, set_manager m v d, [EvStop m pid]).

Definition log_Println (msg : string) : G unit := emit (EvLog msg).

(** [StopServer] (part_000, lines 208-219). The pair is what is left in
    [*reply] and the error of the RPC. *)
Definition StopServer (request reply : types.MockServer)
  : G (types.MockServer * option error) :=
  log_Println "[DEBUG] daemon - stopping mock server";;
  '(success, err) ← call_Stop MockSvc (types.Pid request);
  let request :=
    if success && bool_decide (err = None)
    then types.set_Status 0 request
    else types.set_Status 1 request in
  let reply := request in
  mret (reply, None).

(** [VerifyProvider] (part_000, lines 116-171). The pair is what is left
    in [*reply] and the error of the RPC. *)
Definition VerifyProvider (request : types.VerifyRequest)
    (reply : types.ProviderVerifierResponse)
  : G (types.ProviderVerifierResponse * option error) :=
  log_Println "[DEBUG] daemon - verifying provider";;
  let '(request, err) := Validate request in
  match err with Some e => mret (reply, Some e) | None =>
  svc ← call_NewService VerificationSvc (types.VerifyRequest_Args request);
  cmd ← call_Command VerificationSvc svc;
  let run := os_run cmd in
  emit EvStdoutPipe;;
  match exec.StdoutPipe_err run with Some e => mret (reply, Some e) | None =>
  emit EvStderrPipe;;
  match exec.StderrPipe_err run with Some e => mret (reply, Some e) | None =>
  emit EvStart;;
  match exec.Start_err run with Some e => mret (reply, Some e) | None =>
  emit (EvReadAll Stdout);;
  let '(stdOut, err) := exec.Stdout_ReadAll run in
  match err with Some e => mret (reply, Some e) | None =>
  emit (EvReadAll Stderr);;
  let '(stdErr, err) := exec.Stderr_ReadAll run in
  match err with Some e => mret (reply, Some e) | None =>
  emit EvWait;;
  let err := exec.Wait_err run in
  emit EvDecode;;
  let '(reply, dErr) := json_Decode stdOut reply in
  match dErr with
  | None => mret (reply, None)
  | Some dErr =>
      let err := match err with None => dErr | Some e => e end in
      mret (reply,
            Some ("error verifying provider: " +:+ err +:+
                  LF +:+ LF +:+ "STDERR:" +:+ LF +:+ stdErr +:+
                  LF +:+ LF +:+ "STDOUT:" +:+ LF +:+ stdOut))
  end
  end end end end end end.

(** The loop of [Shutdown] over the entries of the map, in the order
    [range] visits them. *)
Fixpoint Shutdown_range (entries : list (Z * option exec.Cmd)) : G unit :=
  match entries with
  | [] => mret tt
  | (_, s) :: entries =>
      match s with
      | Some s =>
          p ← deref (exec.Process s);
          call_Stop MockSvc (os.Pid p);;
          Shutdown_range entries
      | None => Shutdown_range entries
      end
  end.

(** [Shutdown] (part_000, lines 93-100). *)
Definition Shutdown : G unit :=
  log_Println "[DEBUG] daemon - shutdown";;
  procs ← call_List VerificationSvc;
  Shutdown_range (range_order procs).

(** A send on [signalChan]: it parks the sender while the buffer (of
    capacity 1) is full. *)
Definition signalChan_send (s : os.Signal) : G unit :=
  λ d, match signalChan d with
       | [] => (Returned tt, set_signalChan [s] d, [EvSend s])
       | _ :: _ => (Blocked, d, [])
       end.

(** A receive from [signalChan]: it parks the receiver while the buffer
    is empty. *)
Definition signalChan_recv : G os.Signal :=
  λ d, match signalChan d with
       | [] => (Blocked, d, [])
       | s :: rest => (Returned s, set_signalChan rest d, [EvRecv s])
       end.

(** [StopDaemon] (part_000, lines 86-90). *)
Definition StopDaemon (request : string) (reply : string) : G (string * option error) :=
  log_Println "[DEBUG] daemon - stop daemon";;
  signalChan_send os.Interrupt;;
  mret (reply, None).

(** [StartDaemon] (part_000, lines 54-82). Registering the RPC server on
    a private mux touches no state of the daemon; the goroutine serving
    HTTP is recorded as started. [signal.Notify] makes the runtime put
    the interrupt and kill signals of the process into [signalChan]. *)
Definition StartDaemon (port : Z) (network address : string) : G unit :=
  log_Println ("[INFO] daemon - starting daemon on network: " +:+ network +:+
               " address: " +:+ address +:+ " port: " +:+ pretty port);;
  let addr := address +:+ ":" +:+ pretty port in
  emit (EvListen network addr);;
  match net_Listen network addr with
  | Some err => panic err
  | None =>
      emit EvServe;;
      emit EvNotify;;
      s ← signalChan_recv;
      log_Println ("[INFO] daemon - received signal: " +:+ os.Signal_String s +:+
                   " , shutting down all services");;
      Shutdown
  end.

(** [NewDaemon] (part_000, lines 40-51). *)
Definition NewDaemon (MockServiceManager verificationServiceManager
    messageServiceManager : M) : Daemon :=
  {| pactMockSvcManager := Setup MockServiceManager;
     verificationSvcManager := Setup verificationServiceManager;
     messageSvcManager := Setup messageServiceManager;
     signalChan := [] |}.

(** *** Notions the properties of the daemon are stated with *)

(** The command [VerifyProvider] runs for a validated request, and what
    the operating system answers for it. *)
Definition verifier_run (request' : types.VerifyRequest) (d : Daemon) : exec.Run :=
  os_run (Command (NewService (types.VerifyRequest_Args request')
                     (verificationSvcManager d)).1).

(** The text of the composite error. *)
Definition composite_error (err stdErr stdOut : string) : string :=
  "error verifying provider: " +:+ err +:+ LF +:+ LF +:+ "STDERR:" +:+ LF +:+ stdErr +:+
  LF +:+ LF +:+ "STDOUT:" +:+ LF +:+ stdOut.

(** The calls of a [VerifyProvider] that runs to its end, in order. *)
Definition verifier_sequence (args : list string) : list Event :=
  [EvLog "[DEBUG] daemon - verifying provider";
   EvNewService VerificationSvc args;
   EvCommand VerificationSvc;
   EvStdoutPipe; EvStderrPipe; EvStart;
   EvReadAll Stdout; EvReadAll Stderr; EvWait; EvDecode].

(** The process ids of the entries of a listing that hold a command, in
    the order of the listing. *)
Definition listed_pids (entries : list (Z * option exec.Cmd)) : list Z :=
  omap (λ e, s ← e.2; p ← exec.Process s; Some (os.Pid p)) entries.

(** An entry of a listing that holds a command holds a started one. *)
Definition started (s : option exec.Cmd) : bool :=
  match s with
  | Some c => bool_decide (is_Some (exec.Process c))
  | None => true
  end.

End Daemon.
End daemon.

(** ** Package dsl *)

Module logutils.
(** [logutils.LevelFilter]; its writer is always [os.Stderr] here. *)
Record LevelFilter := { Levels : list string; MinLevel : string }.
End logutils.

Module dsl.

(** [PactClient]: the RPC client of the daemon. *)
Record PactClient := {
  PactClient_Port : Z;
  PactClient_Network : string;
  PactClient_Address : string
}.

(** [MockService]: the HTTP client of a running mock service. *)
Record MockService := {
  BaseURL : string;
  MockService_Consumer : string;
  MockService_Provider : string;
  MockService_PactFileWriteMode : string
}.

Section Pact.
(** [Interaction] is opaque to the session. *)
Context {Interaction : Type}.

(** [Pact] (pact.go, lines 24-82). *)
Record Pact := {
  Server : option types.MockServer;
  Port : Z;
  pactClient : option PactClient;
  Consumer : string;
  Provider : string;
  Interactions : list Interaction;
  LogLevel : string;
  logFilter : option logutils.LevelFilter;
  LogDir : string;
  PactDir : string;
  PactFileWriteMode : string;
  SpecificationVersion : Z;
  Host : string;
  Network : string;
  AllowedMockServerPorts : string
}.

Definition set_Server (v : option types.MockServer) (p : Pact) : Pact :=
  {| Server := v;
     Port := Port p;
     pactClient := pactClient p;
     Consumer := Consumer p;
     Provider := Provider p;
     Interactions := Interactions p;
     LogLevel := LogLevel p;
     logFilter := logFilter p;
     LogDir := LogDir p;
     PactDir := PactDir p;
     PactFileWriteMode := PactFileWriteMode p;
     SpecificationVersion := SpecificationVersion p;
     Host := Host p;
     Network := Network p;
     AllowedMockServerPorts := AllowedMockServerPorts p |}.

Definition set_pactClient (v : option PactClient) (p : Pact) : Pact :=
  {| Server := Server p;
     Port := Port p;
     pactClient := v;
     Consumer := Consumer p;
     Provider := Provider p;
     Interactions := Interactions p;
     LogLevel := LogLevel p;
     logFilter := logFilter p;
     LogDir := LogDir p;
     PactDir := PactDir p;
     PactFileWriteMode := PactFileWriteMode p;
     SpecificationVersion := SpecificationVersion p;
     Host := Host p;
     Network := Network p;
     AllowedMockServerPorts := AllowedMockServerPorts p |}.

Definition set_Interactions (v : list Interaction) (p : Pact) : Pact :=
  {| Server := Server p;
     Port := Port p;
     pactClient := pactClient p;
     Consumer := Consumer p;
     Provider := Provider p;
     Interactions := v;
     LogLevel := LogLevel p;
     logFilter := logFilter p;
     LogDir := LogDir p;
     PactDir := PactDir p;
     PactFileWriteMode := PactFileWriteMode p;
     SpecificationVersion := SpecificationVersion p;
     Host := Host p;
     Network := Network p;
     AllowedMockServerPorts := AllowedMockServerPorts p |}.

Definition set_LogLevel (v : string) (p : Pact) : Pact :=
  {| Server := Server p;
     Port := Port p;
     pactClient := pactClient p;
     Consumer := Consumer p;
     Provider := Provider p;
     Interactions := Interactions p;
     LogLevel := v;
     logFilter := logFilter p;
     LogDir := LogDir p;
     PactDir := PactDir p;
     PactFileWriteMode := PactFileWriteMode p;
     SpecificationVersion := SpecificationVersion p;
     Host := Host p;
     Network := Network p;
     AllowedMockServerPorts := AllowedMockServerPorts p |}.

Definition set_logFilter (v : option logutils.LevelFilter) (p : Pact) : Pact :=
  {| Server := Server p;
     Port := Port p;
     pactClient := pactClient p;
     Consumer := Consumer p;
     Provider := Provider p;
     Interactions := Interactions p;
     LogLevel := LogLevel p;
     logFilter := v;
     LogDir := LogDir p;
     PactDir := PactDir p;
     PactFileWriteMode := PactFileWriteMode p;
     SpecificationVersion := SpecificationVersion p;
     Host := Host p;
     Network := Network p;
     AllowedMockServerPorts := AllowedMockServerPorts p |}.

Definition set_LogDir (v : string) (p : Pact) : Pact :=
  {| Server := Server p;
     Port := Port p;
     pactClient := pactClient p;
     Consumer := Consumer p;
     Provider := Provider p;
     Interactions := Interactions p;
     LogLevel := LogLevel p;
     logFilter := logFilter p;
     LogDir := v;
     PactDir := PactDir p;
     PactFileWriteMode := PactFileWriteMode p;
     SpecificationVersion := SpecificationVersion p;
     Host := Host p;
     Network := Network p;
     AllowedMockServerPorts := AllowedMockServerPorts p |}.

Definition set_PactDir (v : string) (p : Pact) : Pact :=
  {| Server := Server p;
     Port := Port p;
     pactClient := pactClient p;
     Consumer := Consumer p;
     Provider := Provider p;
     Interactions := Interactions p;
     LogLevel := LogLevel p;
     logFilter := logFilter p;
     LogDir := LogDir p;
     PactDir := v;
     PactFileWriteMode := PactFileWriteMode p;
     SpecificationVersion := SpecificationVersion p;
     Host := Host p;
     Network := Network p;
     AllowedMockServerPorts := AllowedMockServerPorts p |}.

Definition set_SpecificationVersion (v : Z) (p : Pact) : Pact :=
  {| Server := Server p;
     Port := Port p;
     pactClient := pactClient p;
     Consumer := Consumer p;
     Provider := Provider p;
     Interactions := Interactions p;
     LogLevel := LogLevel p;
     logFilter := logFilter p;
     LogDir := LogDir p;
     PactDir := PactDir p;
     PactFileWriteMode := PactFileWriteMode p;
     SpecificationVersion := v;
     Host := Host p;
     Network := Network p;
     AllowedMockServerPorts := AllowedMockServerPorts p |}.

Definition set_Host (v : string) (p : Pact) : Pact :=
  {| Server := Server p;
     Port := Port p;
     pactClient := pactClient p;
     Consumer := Consumer p;
     Provider := Provider p;
     Interactions := Interactions p;
     LogLevel := LogLevel p;
     logFilter := logFilter p;
     LogDir := LogDir p;
     PactDir := PactDir p;
     PactFileWriteMode := PactFileWriteMode p;
     SpecificationVersion := SpecificationVersion p;
     Host := v;
     Network := Network p;
     AllowedMockServerPorts := AllowedMockServerPorts p |}.

Definition set_Network (v : string) (p : Pact) : Pact :=
  {| Server := Server p;
     Port := Port p;
     pactClient := pactClient p;
     Consumer := Consumer p;
     Provider := Provider p;
     Interactions := Interactions p;
     LogLevel := LogLevel p;
     logFilter := logFilter p;
     LogDir := LogDir p;
     PactDir := PactDir p;
     PactFileWriteMode := PactFileWriteMode p;
     SpecificationVersion := SpecificationVersion p;
     Host := Host p;
     Network := v;
     AllowedMockServerPorts := AllowedMockServerPorts p |}.

(** Everything outside the session that its methods call: the operating
    system, package [utils], the daemon behind the RPC client, and the
    mock service behind its HTTP client. [E] is the state of that
    outside. *)
Class World (E : Type) := {
  os_Getwd : E → string;
  filepath_Join : string → string → string;
  filepath_FromSlash : string → string;
  fmt_Sprintf : string → string;
  utils_FindPortInRange : string → E → (Z * option error) * E;
  utils_GetFreePort : E → (Z * option error) * E;
  PactClient_StartServer :
    PactClient → list string → Z → E → option types.MockServer * E;
  MockService_AddInteraction : MockService → Interaction → E → option error * E;
  MockService_Verify : MockService → E → option error * E;
  MockService_DeleteInteractions : MockService → E → option error * E
}.

Context {E : Type} `{!World E}.

(** What a method of the session does to the outside, in program order,
    with the answer it got. *)
Inductive Event :=
| EvLog (msg : string)
| EvSetOutput (f : logutils.LevelFilter)
| EvGetwd
| EvFindPortInRange (ports : string) (port : Z) (perr : option error)
| EvGetFreePort (port : Z) (perr : option error)
| EvStartServer (client : PactClient) (args : list string) (port : Z)
| EvAddInteraction (m : MockService) (i : Interaction) (err : option error)
| EvTestFn (err : option error)
| EvVerify (m : MockService) (err : option error)
| EvDeleteInteractions (m : MockService) (err : option error).

(** The session behind the pointer [p], and the outside. *)
Record Session := { pact : Pact; world : E }.

Definition G := Go Event Session.

Definition get_pact : G Pact := λ s, (Returned (pact s), s, []).

Definition modify_pact (f : Pact → Pact) : G unit :=
  λ s, (Returned tt, {| pact := f (pact s); world := world s |}, []).

Definition call_world {A} (f : E → A * E) (ev : A → Event) : G A :=
  λ s, let '(a, e) := f (world s) in
       (Returned a, {| pact := pact s; world := e |}, [ev a]).

Definition log_Println (msg : string) : G unit := emit (EvLog msg).

(** [setupLogging] (pact.go, lines 163-177). *)
Definition setupLogging : G unit :=
  p ← get_pact;
  log_Println ("[DEBUG] LogLevel" +:+ LogLevel p);;
  match logFilter p with
  | None =>
      (if decide (LogLevel p = "") then modify_pact (set_LogLevel "INFO") else mret tt);;
      p ← get_pact;
      let f := {| logutils.Levels := ["DEBUG"; "WARN"; "ERROR"];
                  logutils.MinLevel := LogLevel p |} in
      modify_pact (set_logFilter (Some f));;
      emit (EvSetOutput f)
  | Some _ => mret tt
  end;;
  log_Println "[DEBUG] pact setup logging".

(** [Setup] (pact.go, lines 97-160). It returns the receiver [p]: here,
    the session as the call leaves it. *)
Definition Setup (startMockServer : bool) : G Pact :=
  log_Println "[DEBUG] pact setup1";;
  setupLogging;;
  log_Println "[DEBUG] pact setup2";;
  dir ← call_world (λ e, (os_Getwd e, e)) (λ _, EvGetwd);
  p ← get_pact;
  (if decide (Network p = "") then modify_pact (set_Network "tcp") else mret tt);;
  p ← get_pact;
  (if decide (Host p = "") then modify_pact (set_Host "localhost") else mret tt);;
  p ← get_pact;
  (if decide (LogDir p = "")
   then modify_pact (set_LogDir (fmt_Sprintf (filepath_Join dir "logs")))
   else mret tt);;
  p ← get_pact;
  (if decide (PactDir p = "")
   then modify_pact (set_PactDir (fmt_Sprintf (filepath_Join dir "pacts")))
   else mret tt);;
  p ← get_pact;
  (if decide (SpecificationVersion p = 0)
   then modify_pact (set_SpecificationVersion 2)
   else mret tt);;
  p ← get_pact;
  match pactClient p with
  | None =>
      let client := {| PactClient_Port := Port p; PactClient_Network := Network p;
                       PactClient_Address := Host p |} in
      modify_pact (set_pactClient (Some client))
  | Some _ => mret tt
  end;;
  p ← get_pact;
  '(port, perr) ←
    (if decide (AllowedMockServerPorts p ≠ "")
     then call_world (utils_FindPortInRange (AllowedMockServerPorts p))
            (λ r, EvFindPortInRange (AllowedMockServerPorts p) r.1 r.2)
     else call_world utils_GetFreePort (λ r, EvGetFreePort r.1 r.2));
  match perr with
  | Some _ =>
      log_Println "[ERROR] unable to find free port, mockserver will fail to start"
  | None => mret tt
  end;;
  p ← get_pact;
  match Server p, startMockServer with
  | None, true =>
      log_Println ("[DEBUG] starting mock service on port: " +:+ pretty port);;
      let args := [
        "--pact-specification-version";
        pretty (SpecificationVersion p);
        "--pact-dir";
        filepath_FromSlash (PactDir p);
        "--log";
        filepath_FromSlash (LogDir p +:+ "/" +:+ "pact.log");
        "--consumer";
        Consumer p;
        "--provider";
        Provider p
      ] in
      client ← deref (pactClient p);
      server ← call_world (PactClient_StartServer client args port)
                 (λ _, EvStartServer client args port);
      modify_pact (set_Server server)
  | _, _ => mret tt
  end;;
  get_pact.

(** The loop of [Verify] over the interactions; [Some err] is the early
    return from inside the loop. *)
Fixpoint Verify_range (mockServer : MockService) (interactions : list Interaction)
  : G (option error) :=
  match interactions with
  | [] => mret None
  | interaction :: interactions =>
      err ← call_world (MockService_AddInteraction mockServer interaction)
              (EvAddInteraction mockServer interaction);
      match err with
      | Some e => mret (Some e)
      | None => Verify_range mockServer interactions
      end
  end.

(** A test function is a closure over the session pointer and the
    outside. *)
Definition TestFn := Pact → E → option error * Pact * E.

Definition call_test (integrationTest : TestFn) : G (option error) :=
  λ s, let '(err, p, e) := integrationTest (pact s) (world s) in
       (Returned err, {| pact := p; world := e |}, [EvTestFn err]).

(** [Verify] (pact.go, lines 191-223). *)
Definition Verify (integrationTest : TestFn) : G (option error) :=
  Setup true;;
  log_Println "[DEBUG] pact verify";;
  p ← get_pact;
  server ← deref (Server p);
  let mockServer :=
    {| BaseURL := "http://" +:+ Host p +:+ ":" +:+ pretty (types.Port server);
       MockService_Consumer := Consumer p;
       MockService_Provider := Provider p;
       MockService_PactFileWriteMode := "" |} in
  err ← Verify_range mockServer (Interactions p);
  match err with Some e => mret (Some e) | None =>
  err ← call_test integrationTest;
  match err with Some e => mret (Some e) | None =>
  err ← call_world (MockService_Verify mockServer) (EvVerify mockServer);
  match err with Some e => mret (Some e) | None =>
  modify_pact (set_Interactions []);;
  call_world (MockService_DeleteInteractions mockServer)
    (EvDeleteInteractions mockServer)
  end end end.

(** *** Notions the properties of the session are stated with *)

(** The session once [setupLogging] has run. *)
Definition after_logging (p : Pact) : Pact :=
  match logFilter p with
  | None =>
      let p := if decide (LogLevel p = "") then set_LogLevel "INFO" p else p in
      set_logFilter
        (Some {| logutils.Levels := ["DEBUG"; "WARN"; "ERROR"];
                 logutils.MinLevel := LogLevel p |}) p
  | Some _ => p
  end.

Definition logging_events (p : Pact) : list Event :=
  EvLog ("[DEBUG] LogLevel" +:+ LogLevel p) ::
  match logFilter p with
  | None =>
      [EvSetOutput {| logutils.Levels := ["DEBUG"; "WARN"; "ERROR"];
                      logutils.MinLevel := LogLevel (after_logging p) |}]
  | Some _ => []
  end ++ [EvLog "[DEBUG] pact setup logging"].

(** The defaults of [Setup], one step each; [dir] is the working
    directory. *)
Definition default_Network (p : Pact) : Pact :=
  if decide (Network p = "") then set_Network "tcp" p else p.

Definition default_Host (p : Pact) : Pact :=
  if decide (Host p = "") then set_Host "localhost" p else p.

Definition default_LogDir (dir : string) (p : Pact) : Pact :=
  if decide (LogDir p = "")
  then set_LogDir (fmt_Sprintf (filepath_Join dir "logs")) p else p.

Definition default_PactDir (dir : string) (p : Pact) : Pact :=
  if decide (PactDir p = "")
  then set_PactDir (fmt_Sprintf (filepath_Join dir "pacts")) p else p.

Definition default_SpecificationVersion (p : Pact) : Pact :=
  if decide (SpecificationVersion p = 0) then set_SpecificationVersion 2 p else p.

Definition default_pactClient (p : Pact) : Pact :=
  match pactClient p with
  | None =>
      set_pactClient
        (Some {| PactClient_Port := Port p; PactClient_Network := Network p;
                 PactClient_Address := Host p |}) p
  | Some _ => p
  end.

(** The session once [Setup] has filled in the defaults. *)
Definition with_defaults (dir : string) (p : Pact) : Pact :=
  default_pactClient
    (default_SpecificationVersion
       (default_PactDir dir (default_LogDir dir (default_Host (default_Network p))))).

(** The port probe of [Setup], and its event. *)
Definition probe (p : Pact) (e : E) : (Z * option error) * E :=
  if decide (AllowedMockServerPorts p ≠ "")
  then utils_FindPortInRange (AllowedMockServerPorts p) e
  else utils_GetFreePort e.

Definition probe_event (p : Pact) (r : Z * option error) : Event :=
  if decide (AllowedMockServerPorts p ≠ "")
  then EvFindPortInRange (AllowedMockServerPorts p) r.1 r.2
  else EvGetFreePort r.1 r.2.

(** The arguments [Setup] launches the mock service with. *)
Definition launch_args (p : Pact) : list string :=
  ["--pact-specification-version"; pretty (SpecificationVersion p);
   "--pact-dir"; filepath_FromSlash (PactDir p);
   "--log"; filepath_FromSlash (LogDir p +:+ "/" +:+ "pact.log");
   "--consumer"; Consumer p;
   "--provider"; Provider p].

(** Whether [Setup] launches a mock service. *)
Definition launches (startMockServer : bool) (p : Pact) : bool :=
  match Server p, startMockServer with
  | None, true => true
  | _, _ => false
  end.

(** The events of [Setup] up to the launch. *)
Definition probing_events (p p1 : Pact) (r : Z * option error) : list Event :=
  EvLog "[DEBUG] pact setup1" :: logging_events p ++
  [EvLog "[DEBUG] pact setup2"; EvGetwd; probe_event p1 r] ++
  match r.2 with
  | Some _ => [EvLog "[ERROR] unable to find free port, mockserver will fail to start"]
  | None => []
  end.

(** Events put in front of the result of a call. *)
Definition prepend {A} (evs : list Event) (x : outcome A * Session * list Event)
  : outcome A * Session * list Event :=
  (x.1, evs ++ x.2).

(** What [Setup] leaves alone before the launch: the server reference, the
    interactions and the allowed ports. *)
Definition kept (p : Pact) : option types.MockServer * list Interaction * string :=
  (Server p, Interactions p, AllowedMockServerPorts p).

(** The events [Setup] can emit. *)
Definition from_Setup (ev : Event) : bool :=
  match ev with
  | EvLog _ | EvSetOutput _ | EvGetwd | EvFindPortInRange _ _ _ | EvGetFreePort _ _
  | EvStartServer _ _ _ => true
  | _ => false
  end.

Definition is_StartServer (ev : Event) : bool :=
  match ev with EvStartServer _ _ _ => true | _ => false end.

Definition is_probe (ev : Event) : bool :=
  match ev with EvFindPortInRange _ _ _ | EvGetFreePort _ _ => true | _ => false end.

(** How many events of a list pass a test. *)
Definition count (test : Event → bool) (evs : list Event) : nat :=
  length (List.filter test evs).

Definition is_AddInteraction (ev : Event) : bool :=
  match ev with EvAddInteraction _ _ _ => true | _ => false end.

(** The interactions a list of events registered with success. *)
Definition registered (evs : list Event) : list Interaction :=
  omap (λ ev, match ev with EvAddInteraction _ i None => Some i | _ => None end) evs.

(** What the mock service answers when interactions are registered with it
    one after the other, up to the first it refuses: the interactions it
    accepted, its refusal if there is one, and the outside after its last
    answer. *)
Fixpoint registration (mockServer : MockService) (interactions : list Interaction)
    (e : E) : list Interaction * option error * E :=
  match interactions with
  | [] => ([], None, e)
  | interaction :: interactions =>
      let answer := MockService_AddInteraction mockServer interaction e in
      match answer.1 with
      | Some err => ([], Some err, answer.2)
      | None =>
          let rest := registration mockServer interactions answer.2 in
          (interaction :: rest.1.1, rest.1.2, rest.2)
      end
  end.

End Pact.

(** ** The message-verification bridge of [VerifyProducer] *)

Module http.
Definition StatusOK : Z := 200.
Definition StatusBadRequest : Z := 400.
Definition StatusNotFound : Z := 404.
Definition StatusServiceUnavailable : Z := 503.

(** An [http.ResponseWriter] as the handler sees it: the header map, the
    status line once written, and the body written so far. *)
Record ResponseWriter := {
  Header : gmap string (list string);
  Status : option Z;
  Body : string
}.

Definition NewRecorder : ResponseWriter :=
  {| Header := ∅; Status := None; Body := "" |}.

(** [w.Header().Set(key, value)]. *)
Definition Header_Set (key value : string) (w : ResponseWriter) : ResponseWriter :=
  {| Header := <[key := [value]]> (Header w); Status := Status w; Body := Body w |}.

(** [w.WriteHeader(code)]: only the first call writes the status line. *)
Definition WriteHeader (code : Z) (w : ResponseWriter) : ResponseWriter :=
  match Status w with
  | Some _ => w
  | None => {| Header := Header w; Status := Some code; Body := Body w |}
  end.

(** [w.Write(data)]: writes the status line [StatusOK] first when none has
    been written. *)
Definition Write (data : string) (w : ResponseWriter) : ResponseWriter :=
  let w := WriteHeader StatusOK w in
  {| Header := Header w; Status := Status w; Body := Body w +:+ data |}.

(** An [*http.Request] as the bridge uses it: what reading its body to
    the end gives. *)
Record Request := { Body_ReadAll : string * option error }.
End http.

Section Bridge.
(** [Obj] is the result of a message handler
    ([map[string]interface{}]); [Rest] the fields of [types.Message]
    other than its description. *)
Context {Obj Rest : Type}.

(** The zero value of the fields of [types.Message] other than its
    description. *)
Variable Rest_zero : Rest.

(** [json.Unmarshal(data, &message)]: the message as it leaves it, and
    its error. *)
Variable json_Unmarshal :
  string → types.Message Rest → types.Message Rest * option error.

(** [json.Marshal(res)]. *)
Variable json_Marshal : Obj → string * option error.

(** The [%v] verb, on a handler result and on a byte slice. *)
Variable fmt_v_Obj : Obj → string.
Variable fmt_v_bytes : string → string.

(** A message handler, [func(...interface{}) (map[string]interface{}, error)],
    as the bridge calls it: with no argument. *)
Definition Handler := unit → Obj * option error.

(** The handler writes to [w] and prints to the standard output. *)
Inductive Print := Stdout (text : string).

Definition H := Go Print http.ResponseWriter.

Definition on_w (f : http.ResponseWriter → http.ResponseWriter) : H unit :=
  λ w, (Returned tt, f w, []).

Definition fmt_Print (text : string) : H unit := emit (Stdout text).

Definition Message_zero : types.Message Rest :=
  {| types.Message_Description := ""; types.Message_rest := Rest_zero |}.

(** The handler registered on ["/"] by [VerifyProducer] (pact.go, lines
    300-348). Closing the body of the request, once read, changes nothing
    the handler does afterwards. *)
Definition bridge (handlers : gmap string Handler) (r : http.Request) : H unit :=
  on_w (http.Header_Set "Content-Type" "application/json; charset=utf-8");;
  let message := Message_zero in
  let '(body, err) := http.Body_ReadAll r in
  match err with
  | Some _ => on_w (http.WriteHeader http.StatusBadRequest)
  | None =>
      let '(message, _) := json_Unmarshal body message in
      match handlers !! types.Message_Description message with
      | None => on_w (http.WriteHeader http.StatusNotFound)
      | Some f =>
          let '(res, handlerErr) := f tt in
          fmt_Print ("[DEBUG] f() returned: " +:+ fmt_v_Obj res);;
          match handlerErr with
          | Some handlerErr =>
              fmt_Print ("[ERROR] error handling function: " +:+ handlerErr +:+ LF);;
              on_w (http.WriteHeader http.StatusServiceUnavailable)
          | None =>
              let '(resBody, errM) := json_Marshal res in
              match errM with
              | Some errM =>
                  on_w (http.WriteHeader http.StatusServiceUnavailable);;
                  fmt_Print ("[ERROR] error marshalling objcet: " +:+ errM +:+ LF)
              | None =>
                  fmt_Print ("[DEBUG] sending response body back to verifier " +:+
                             fmt_v_bytes resBody);;
                  on_w (http.WriteHeader http.StatusOK);;
                  on_w (http.Write resBody)
              end
          end
      end
  end.

(** The response to a request: the bridge run on a fresh writer. *)
Definition respond (handlers : gmap string Handler) (r : http.Request)
  : http.ResponseWriter :=
  (bridge handlers r http.NewRecorder).1.2.

(** *** Notions the properties of the bridge are stated with *)

(** The description the bridge looks up for a body it could read. *)
Definition parsed_description (body : string) : string :=
  types.Message_Description (json_Unmarshal body Message_zero).1.

(** The writer the bridge leaves with a status and a body. *)
Definition written (status : Z) (body : string) : http.ResponseWriter :=
  {| http.Header := {[ "Content-Type" := ["application/json; charset=utf-8"] ]};
     http.Status := Some status;
     http.Body := body |}.

End Bridge.
End dsl.

(** ** A concrete daemon, on which the properties are instantiated *)

Module daemon_example.
Import daemon.

(** Modelled from the spec: a service manager (section 4.1); the managers
    of the repository implement [Service] in files of their own. This one
    keeps a registry of commands keyed by process id, [Stop] succeeds on a
    tracked id, which it forgets, and reports failure on an unknown one; a
    service handle is the argument list it was made with. *)
Definition registry_Service : Service (gmap Z (option exec.Cmd)) (list string) :=
  {| Setup m := m;
     NewService args m := (args, m);
     List m := m;
     Stop pid m :=
       match m !! pid with
       | Some _ => ((true, None), delete pid m)
       | None => ((false, Some "process not found"), m)
       end;
     Command args :=
       {| exec.Path := "pact-provider-verifier"; exec.Args := args;
          exec.Process := None |} |}.

(** Modelled from the spec: [types.VerifyRequest.Validate], which package
    types defines; the spec says of it that a request with zero contract
    locations and no broker URL fails validation. The arguments are left as
    the request has them. *)
Definition Validate (request : types.VerifyRequest)
  : types.VerifyRequest * option error :=
  if decide (types.PactURLs request = [] ∧ types.BrokerURL request = "")
  then (request, Some "PactURLs is mandatory")
  else (request, None).

(** A decoder that accepts the empty JSON object only, which leaves the
    reply as it is. *)
Definition json_Decode (data : string) (reply : types.ProviderVerifierResponse)
  : types.ProviderVerifierResponse * option error :=
  if decide (data = "{}")
  then (reply, None)
  else (reply, Some "invalid character").

(** A verifier that prints no JSON and exits with status 1. *)
Definition os_run (cmd : exec.Cmd) : exec.Run :=
  {| exec.StdoutPipe_err := None;
     exec.StderrPipe_err := None;
     exec.Start_err := None;
     exec.Stdout_ReadAll := ("Verifying a pact", None);
     exec.Stderr_ReadAll := ("connection refused", None);
     exec.Wait_err := Some "exit status 1" |}.

Definition net_Listen (network addr : string) : option error := None.

Definition cmd7 : exec.Cmd :=
  {| exec.Path := "pact-mock-service"; exec.Args := [];
     exec.Process := Some {| os.Pid := 7 |} |}.

Definition d0 : @Daemon (gmap Z (option exec.Cmd)) :=
  {| pactMockSvcManager := {[ 7 := Some cmd7 ]};
     verificationSvcManager := <[ 8080 := Some cmd7 ]> {[ 9090 := None ]};
     messageSvcManager := ∅;
     signalChan := [] |}.

Definition request_ok : types.VerifyRequest :=
  {| types.ProviderBaseURL := "http://localhost:9393";
     types.PactURLs := ["billy-bobby.json"];
     types.BrokerURL := "";
     types.ProviderStatesSetupURL := "http://localhost:9393/setup";
     types.BrokerUsername := "";
     types.BrokerPassword := "";
     types.VerifyRequest_Args := ["billy-bobby.json"] |}.

Definition request_empty : types.VerifyRequest :=
  {| types.ProviderBaseURL := "http://localhost:9393";
     types.PactURLs := [];
     types.BrokerURL := "";
     types.ProviderStatesSetupURL := "";
     types.BrokerUsername := "";
     types.BrokerPassword := "";
     types.VerifyRequest_Args := [] |}.

Definition reply0 : types.ProviderVerifierResponse := {| types.Examples := [] |}.

End daemon_example.

(** ** A concrete session and bridge, on which the properties are
    instantiated *)

Module dsl_example.
Import dsl.

(** An outside for the session: interactions are named by strings, the
    state of the outside is the number of ports handed out so far. A port
    range is always exhausted, a free port is always found, the daemon
    starts a mock service on the port it is given, and the mock service
    accepts every interaction but the one named [bad]. *)
Definition world_example : World (Interaction := string) nat :=
  {| os_Getwd _ := "/home/billy";
     filepath_Join dir name := dir +:+ "/" +:+ name;
     filepath_FromSlash path := path;
     fmt_Sprintf format := format;
     utils_FindPortInRange _ e := ((0, Some "all allowed ports are in use"), e);
     utils_GetFreePort e := ((6000 + Z.of_nat e, None), S e);
     PactClient_StartServer _ args port e :=
       (Some {| types.Pid := 4242; types.Port := port; types.Status := -1;
                types.Args := args |}, e);
     MockService_AddInteraction _ i e :=
       (if decide (i = "bad") then Some "500 Internal Server Error" else None, e);
     MockService_Verify _ e := (None, e);
     MockService_DeleteInteractions _ e := (None, e) |}.

(** The session of the consumer example: [createPact] of
    user_service_test.go. *)
Definition createPact : @Pact string :=
  {| Server := None; Port := 6666; pactClient := None;
     Consumer := "billy"; Provider := "bobby";
     Interactions := ["A request to login with user 'billy'"];
     LogLevel := ""; logFilter := None;
     LogDir := "/home/billy/log"; PactDir := "/home/billy/../../pacts";
     PactFileWriteMode := ""; SpecificationVersion := 0;
     Host := ""; Network := ""; AllowedMockServerPorts := "" |}.

Definition s0 : @Session string nat := {| pact := createPact; world := 0%nat |}.

(** The same session once a mock service runs for it. *)
Definition running : types.MockServer :=
  {| types.Pid := 4242; types.Port := 6000; types.Status := -1; types.Args := [] |}.

Definition s_running : @Session string nat :=
  {| pact := set_Server (Some running) createPact; world := 1%nat |}.

(** The same session restricted to a port range. *)
Definition s_range : @Session string nat :=
  {| pact :=
       {| Server := None; Port := 6666; pactClient := None;
          Consumer := "billy"; Provider := "bobby"; Interactions := [];
          LogLevel := ""; logFilter := None; LogDir := ""; PactDir := "";
          PactFileWriteMode := ""; SpecificationVersion := 0;
          Host := ""; Network := ""; AllowedMockServerPorts := "6000-6001" |};
     world := 0%nat |}.

(** A test function that passes and leaves the session alone. *)
Definition passing_test : @TestFn string nat := λ p e, (None, p, e).

(** A test function that fails, and leaves the session alone. *)
Definition failing_test : @TestFn string nat :=
  λ p e, (Some "expected 200, got 500", p, e).

(** The same session with an interaction the mock service refuses. *)
Definition s_refused : @Session string nat :=
  {| pact := set_Interactions ["bad"] createPact; world := 0%nat |}.

(** A JSON package for the bridge: data is taken for valid when it opens a
    brace, and then unmarshals to the message of the provider example;
    handler results are strings and marshal to themselves. *)
Definition json_Valid (data : string) : bool := strings_HasPrefix data "{".

Definition json_Unmarshal (data : string) (m : types.Message unit)
  : types.Message unit * option error :=
  if json_Valid data
  then ({| types.Message_Description := "a test message";
           types.Message_rest := types.Message_rest m |}, None)
  else (m, Some "invalid character looking for beginning of value").

Definition json_Marshal (res : string) : string * option error := (res, None).

(** [functionMappings] of the provider example (part_001). *)
Definition functionMappings : gmap string (@Handler string) :=
  {[ "a test message" := λ _, ("{content: {text: Hello world!!}}", None) ]}.

Definition request_message : http.Request :=
  {| http.Body_ReadAll := ("{description: a test message}", None) |}.

Definition request_garbage : http.Request :=
  {| http.Body_ReadAll := ("<html>", None) |}.

End dsl_example.

(** ** The other remote operations of the daemon *)

(** Events of one kind carried into a larger kind. *)
Definition go_lift {Ev Ev' S A} (f : Ev → Ev') (m : Go Ev S A) : Go Ev' S A :=
  λ s, match m s with (r, s', evs) => (r, s', f <$> evs) end.

(** [strings.Join]. *)
Fixpoint strings_Join (elems : list string) (sep : string) : string :=
  match elems with
  | [] => ""
  | [e] => e
  | e :: rest => e +:+ sep +:+ strings_Join rest sep
  end.

(** A [[]string] as the [log] and [fmt] packages print it. *)
Definition fmt_strings (elems : list string) : string :=
  "[" +:+ strings_Join elems " " +:+ "]".

Module types_rpc.
(** [types.CommandResponse]. *)
Record CommandResponse := { Error : string }.

(** [types.PactMessageRequest], with the fields the session fills. *)
Record PactMessageRequest (Rest : Type) := {
  Message : types.Message Rest;
  Consumer : string;
  Provider : string;
  PactWriteMode : string;
  PactDir : string
}.
Arguments Message {Rest} p.
Arguments Consumer {Rest} p.
Arguments Provider {Rest} p.
Arguments PactWriteMode {Rest} p.
Arguments PactDir {Rest} p.

(** [types.PactListResponse]. *)
Record PactListResponse := { Servers : list types.MockServer }.
End types_rpc.

Module daemon_more.
Import daemon.

(** The methods of [Service] that start a service: [Start], which gives
    the command it started (a pointer), and [Run], of which the daemon
    keeps the error only. *)
Class ServiceRun (M Svc : Type) := {
  Start : Svc → M → option exec.Cmd * M;
  Run : Svc → M → option error * M
}.

(** The events of [StartServer] and [CreateMessage]: those of the other
    operations, and the two calls above. *)
Inductive Event' :=
| Ev (e : Event)
| EvSvcStart (m : Manager)
| EvSvcRun (m : Manager).

Section Daemon.
Context {M Svc : Type} `{!Service M Svc} `{!ServiceRun M Svc}.

Variable range_order : gmap Z (option exec.Cmd) → list (Z * option exec.Cmd).

Abbreviation Daemon := (@Daemon M).
Abbreviation G := (@G M).

Definition G' := Go Event' Daemon.

Definition call_Start (m : Manager) (svc : Svc) : G' (option exec.Cmd) :=
  λ d, let '(cmd, v) := Start svc (manager m d) in
       (Returned cmd, set_manager m v d, [EvSvcStart m]).

Definition call_Run (m : Manager) (svc : Svc) : G' (option error) :=
  λ d, let '(err, v) := Run svc (manager m d) in
       (Returned err, set_manager m v d, [EvSvcRun m]).

(** [StartServer] (part_000, lines 104-113). The pair is what is left in
    [*reply] and the error of the RPC. *)
Definition StartServer (request reply : types.MockServer)
  : G' (types.MockServer * option error) :=
  go_lift Ev (log_Println ("[DEBUG] daemon - starting mock server with args: " +:+
                            fmt_strings (types.Args request)));;
  let server := {| types.Pid := 0; types.Port := 0; types.Status := 0;
                   types.Args := [] |} in
  svc ← go_lift Ev (call_NewService MockSvc (types.Args request));
  let server := types.set_Status (-1) server in
  cmd ← call_Start MockSvc svc;
  cmd ← deref cmd;
  process ← deref (exec.Process cmd);
  let server := {| types.Pid := os.Pid process; types.Port := types.Port server;
                   types.Status := types.Status server;
                   types.Args := types.Args server |} in
  let reply := server in
  mret (reply, None).

(** [CreateMessage] (part_000, lines 174-186). *)
Definition CreateMessage {Rest} (request : types_rpc.PactMessageRequest Rest)
    (reply : types_rpc.CommandResponse)
  : G' (types_rpc.CommandResponse * option error) :=
  go_lift Ev (log_Println "[DEBUG] daemon - adding a message");;
  let res := {| types_rpc.Error := "" |} in
  svc ← go_lift Ev (call_NewService MessageSvc []);
  err ← call_Run MessageSvc svc;
  let res := match err with
             | Some e => {| types_rpc.Error := e |}
             | None => res
             end in
  let reply := res in
  mret (reply, err).

(** The loop of [ListServers] over the entries of the map, in the order
    [range] visits them. *)
Fixpoint ListServers_range (entries : list (Z * option exec.Cmd))
    (servers : list types.MockServer) : G (list types.MockServer) :=
  match entries with
  | [] => mret servers
  | (port, s) :: entries =>
      s ← deref s;
      process ← deref (exec.Process s);
      ListServers_range entries
        (servers ++ [{| types.Pid := os.Pid process; types.Port := port;
                        types.Status := 0; types.Args := [] |}])
  end.

(** [ListServers] (part_000, lines 189-205). *)
Definition ListServers (request : types.MockServer) (reply : types_rpc.PactListResponse)
  : G (types_rpc.PactListResponse * option error) :=
  log_Println "[DEBUG] daemon - listing mock servers";;
  let servers := [] in
  procs ← call_List MockSvc;
  servers ← ListServers_range (range_order procs) servers;
  let reply := {| types_rpc.Servers := servers |} in
  mret (reply, None).

(** *** Notions the properties of these operations are stated with *)

(** The server [ListServers] reports for an entry of the listing. *)
Definition listed_server (entry : Z * option exec.Cmd) : option types.MockServer :=
  s ← entry.2; process ← exec.Process s;
  Some {| types.Pid := os.Pid process; types.Port := entry.1;
          types.Status := 0; types.Args := [] |}.

(** The entries of a listing up to the first that holds a command that was
    not started. *)
Fixpoint until_unstarted (entries : list (Z * option exec.Cmd))
  : list (Z * option exec.Cmd) :=
  match entries with
  | [] => []
  | entry :: entries =>
      if started entry.2 then entry :: until_unstarted entries else []
  end.

(** An entry of a listing holds a started command. *)
Definition running (s : option exec.Cmd) : bool :=
  match s with
  | Some c => bool_decide (is_Some (exec.Process c))
  | None => false
  end.

(** What a daemon call leaves alone when it only deals with manager [m]. *)
Definition others_kept (m : Manager) (d d' : Daemon) : Prop :=
  (∀ m', m' ≠ m → manager m' d' = manager m' d) ∧ signalChan d' = signalChan d.

End Daemon.
End daemon_more.

(** ** The other methods of the session *)

(** A call with a deferred call: the deferred call runs when the function
    returns and when it panics. *)
Definition go_defer {Ev S A} (deferred : Ev) (m : Go Ev S A) : Go Ev S A :=
  λ s, match m s with
       | (Blocked, s', evs) => (Blocked, s', evs)
       | (r, s', evs) => (r, s', evs ++ [deferred])
       end.

(** The horizontal tab of a Go string literal. *)
Definition TAB : string := String (Ascii.ascii_of_nat 9) "".

Module dsl_more.
Import dsl.

(** [dsl.Message]: the builder around a [types.Message]. *)
Record Message (Rest : Type) := { message : types.Message Rest }.
Arguments message {Rest} m.

(** How a function that is given a [*testing.T] ends: it returns, or
    [t.Fatal] ends the goroutine of the test, or [log.Fatal] ends the
    process. *)
Inductive ended (A : Type) : Type :=
| Return (a : A)
| FailNow
| Exit (code : Z).
Arguments Return {A} a.
Arguments FailNow {A}.
Arguments Exit {A} code.

Section Pact.
Context {Interaction E Rest : Type} `{!World (Interaction := Interaction) E}.

Abbreviation Pact := (@Pact Interaction).
Abbreviation Session := (@Session Interaction E).
Abbreviation Event := (@Event Interaction).

(** What these methods call outside the session, besides [World]: the
    allocation of an [Interaction], the other methods of the RPC client
    (given their receiver, a pointer), of the mock service, the broker
    lookup, and the listener of the bridge, of which [net.Listen] gives the
    address. *)
Class Outside := {
  new_Interaction : E → Interaction * E;
  PactClient_StopServer :
    option PactClient → types.MockServer → E → option types.MockServer * E;
  PactClient_VerifyProvider :
    option PactClient → types.VerifyRequest → E →
    (types.ProviderVerifierResponse * option error) * E;
  PactClient_UpdateMessagePact :
    option PactClient → types_rpc.PactMessageRequest Rest → E →
    (types_rpc.CommandResponse * option error) * E;
  MockService_WritePact : MockService → E → option error * E;
  findConsumers :
    string → types.VerifyRequest → E → (types.VerifyRequest * option error) * E;
  waitForPort : Z → string → string → string → E → option error * E;
  net_Listen : string → string → E → (string * option error) * E
}.

Context {Outside0 : Outside}.

(** The events of these methods: those of [Setup], and their own calls,
    with the answer they got. *)
Inductive Event2 :=
| Base (ev : Event)
| EvNew (i : Interaction)
| EvStopServer (client : option PactClient) (server : types.MockServer)
    (res : option types.MockServer)
| EvWritePact (m : MockService) (err : option error)
| EvFindConsumers (provider : string) (request : types.VerifyRequest)
    (err : option error)
| EvClientVerifyProvider (client : option PactClient) (request : types.VerifyRequest)
    (err : option error)
| EvHandler (err : option error)
| EvUpdateMessagePact (client : option PactClient)
    (request : types_rpc.PactMessageRequest Rest) (err : option error)
| EvFatal (text : string)
| EvSubtest (name log : string) (failure : option string)
| EvLogFatal (text : string)
| EvListen (network address : string) (err : option error)
| EvServe
| EvWaitForPort (port : Z) (err : option error)
| EvClose.

Definition G2 := Go Event2 Session.

Definition get_pact2 : G2 Pact := go_lift Base get_pact.

Definition modify_pact2 (f : Pact → Pact) : G2 unit := go_lift Base (modify_pact f).

Definition log2 (msg : string) : G2 unit := go_lift Base (log_Println msg).

Definition call_outside {A} (f : E → A * E) (ev : A → Event2) : G2 A :=
  λ s, let '(a, e) := f (world s) in
       (Returned a, {| pact := pact s; world := e |}, [ev a]).

(** [AddInteraction] (pact.go, lines 86-92). The interaction returned is the
    pointer stored in the list. *)
Definition AddInteraction : G2 Interaction :=
  go_lift Base (Setup true);;
  log2 "[DEBUG] pact add interaction";;
  i ← call_outside new_Interaction EvNew;
  modify_pact2 (λ p, set_Interactions (Interactions p ++ [i]) p);;
  mret i.

(** [Teardown] (pact.go, lines 181-187). *)
Definition Teardown : G2 Pact :=
  log2 "[DEBUG] teardown";;
  p ← get_pact2;
  match Server p with
  | Some server =>
      res ← call_outside (PactClient_StopServer (pactClient p) server)
              (EvStopServer (pactClient p) server);
      modify_pact2 (set_Server res)
  | None => mret tt
  end;;
  get_pact2.


(** The zero value of [types.ProviderVerifierResponse]. *)
Definition ProviderVerifierResponse_zero : types.ProviderVerifierResponse :=
  {| types.Examples := [] |}.

(** [VerifyProviderRaw] (pact.go, lines 247-262). *)
Definition VerifyProviderRaw (request : types.VerifyRequest)
  : G2 (types.ProviderVerifierResponse * option error) :=
  go_lift Base (Setup false);;
  let verify (request : types.VerifyRequest) :=
    log2 "[DEBUG] pact provider verification";;
    p ← get_pact2;
    call_outside (PactClient_VerifyProvider (pactClient p) request)
      (λ r, EvClientVerifyProvider (pactClient p) request r.2) in
  if decide (types.BrokerURL request ≠ "") then
    log2 ("[DEBUG] pact provider verification - finding all consumers from broker: " +:+
          types.BrokerURL request);;
    p ← get_pact2;
    '(request, err) ← call_outside (findConsumers (Provider p) request)
                        (λ r, EvFindConsumers (Provider p) request r.2);
    match err with
    | Some e => mret (ProviderVerifierResponse_zero, Some e)
    | None => verify request
    end
  else verify request.

(** The sub-tests of the examples of a response: [t.Run] for each, in
    order; the sub-test logs the full description and fails, with the
    message of the exception, when the status is not [passed]. *)
Fixpoint run_examples (examples : list types.Example) : G2 unit :=
  match examples with
  | [] => mret tt
  | example :: examples =>
      emit (EvSubtest (types.Description example)
              (types.FullDescription example +:+ LF)
              (if decide (types.Example_Status example ≠ "passed")
               then Some (types.Exception_Message (types.Example_Exception example) +:+ LF)
               else None));;
      run_examples examples
  end.

(** [VerifyProvider] (pact.go, lines 267-285). [t.Fatal] does not return:
    the [return] after it is never reached. *)
Definition VerifyProvider (request : types.VerifyRequest)
  : G2 (ended (types.ProviderVerifierResponse * option error)) :=
  '(res, err) ← VerifyProviderRaw request;
  match err with
  | Some e =>
      emit (EvFatal ("Error: " +:+ e +:+ LF));;
      mret FailNow
  | None =>
      run_examples (types.Examples res);;
      mret (Return (res, err))
  end.

(** [VerifyProducer] (pact.go, lines 290-384). The handlers enter the
    handler of the mux only, which is [bridge] and runs in the goroutine
    that serves the listener. The listen error is nil where the wait for
    the port has failed, and is what [t.Fatal] is given there. *)
Definition VerifyProducer (request : types.VerifyRequest)
  : G2 (ended (types.ProviderVerifierResponse * option error)) :=
  let port := 9393 in
  '(addr, err) ← call_outside (net_Listen "tcp" (":" +:+ pretty port))
                   (λ r, EvListen "tcp" (":" +:+ pretty port) r.2);
  match err with
  | Some e =>
      emit (EvLogFatal e);;
      mret (Exit 1)
  | None =>
      go_defer EvClose (
        log2 ("[DEBUG] API handler starting: port " +:+ pretty port +:+
              " (" +:+ addr +:+ ")");;
        emit EvServe;;
        portErr ← call_outside
                    (waitForPort port "tcp" "localhost"
                       ("Timed out waiting for Daemon on port " +:+ pretty port +:+
                        " - are you" +:+ LF +:+ TAB +:+ TAB +:+ "sure it's running?"))
                    (EvWaitForPort port);
        match portErr with
        | Some _ =>
            emit (EvFatal ("Error: " +:+ "<nil>" +:+ LF));;
            mret FailNow
        | None =>
            '(res, err) ← VerifyProviderRaw request;
            match err with
            | Some e =>
                emit (EvFatal ("Error: " +:+ e +:+ LF));;
                mret FailNow
            | None =>
                run_examples (types.Examples res);;
                mret (Return (res, err))
            end
        end)
  end.

(** A message handler is a closure over the session pointer and the
    outside. *)
Definition MessageHandler := types.Message Rest → Pact → E → option error * Pact * E.

Definition call_handler (handler : MessageHandler) (m : types.Message Rest)
  : G2 (option error) :=
  λ s, let '(err, p, e) := handler m (pact s) (world s) in
       (Returned err, {| pact := p; world := e |}, [EvHandler err]).

(** [VerifyMessage] (pact.go, lines 388-409). *)
Definition VerifyMessage (message : Message Rest) (handler : MessageHandler)
  : G2 (types_rpc.CommandResponse * option error) :=
  log2 "[DEBUG] pact add message";;
  go_lift Base (Setup false);;
  err ← call_handler handler (dsl_more.message message);
  match err with
  | Some e => mret ({| types_rpc.Error := "" |}, Some e)
  | None =>
      p ← get_pact2;
      let request :=
        {| types_rpc.Message := dsl_more.message message;
           types_rpc.Consumer := Consumer p;
           types_rpc.Provider := Provider p;
           types_rpc.PactWriteMode := PactFileWriteMode p;
           types_rpc.PactDir := PactDir p |} in
      call_outside (PactClient_UpdateMessagePact (pactClient p) request)
        (λ r, EvUpdateMessagePact (pactClient p) request r.2)
  end.

(** *** Notions the properties of these methods are stated with *)

Definition is_launch (ev : Event2) : bool :=
  match ev with Base (EvStartServer _ _ _) => true | _ => false end.

Definition is_Subtest (ev : Event2) : bool :=
  match ev with EvSubtest _ _ _ => true | _ => false end.

Definition is_daemon_call (ev : Event2) : bool :=
  match ev with
  | EvClientVerifyProvider _ _ _ | EvUpdateMessagePact _ _ _ => true
  | _ => false
  end.

(** How many events of a list pass a test. *)
Definition count2 (test : Event2 → bool) (evs : list Event2) : nat :=
  length (List.filter test evs).

Definition is_WritePact (ev : Event2) : bool :=
  match ev with EvWritePact _ _ => true | _ => false end.

(** What [Setup] leaves alone altogether: the names, the write mode and
    the daemon port. *)
Definition names (p : Pact) : string * string * string * Z :=
  (Consumer p, Provider p, PactFileWriteMode p, Port p).

(** The events of [VerifyProviderRaw]: those of [Setup], the lookup of the
    consumers and the call of the daemon. *)
Definition from_VerifyProviderRaw (ev : Event2) : bool :=
  match ev with
  | Base ev => from_Setup ev
  | EvFindConsumers _ _ _ | EvClientVerifyProvider _ _ _ => true
  | _ => false
  end.

Definition is_Handler (ev : Event2) : bool :=
  match ev with EvHandler _ => true | _ => false end.

(** The sub-test of an example. *)
Definition subtest_of (example : types.Example) : Event2 :=
  EvSubtest (types.Description example) (types.FullDescription example +:+ LF)
    (if decide (types.Example_Status example ≠ "passed")
     then Some (types.Exception_Message (types.Example_Exception example) +:+ LF)
     else None).

End Pact.
End dsl_more.

(** ** The other operations on a concrete daemon and session *)

Module daemon_more_example.
Import daemon daemon_more daemon_example.

(** Modelled from the spec: the manager of [daemon_example] starting
    services (sections 4.1 and 4.2). [Start] launches a command under the
    process id after the ones it tracks, and tracks it under that id;
    [Run] runs a one-shot command to its end, with success. *)
Definition registry_ServiceRun : ServiceRun (gmap Z (option exec.Cmd)) (list string) :=
  {| Start args m :=
       let cmd := {| exec.Path := "pact-mock-service"; exec.Args := args;
                     exec.Process := Some {| os.Pid := 100 + Z.of_nat (size m) |} |} in
       (Some cmd, <[ 100 + Z.of_nat (size m) := Some cmd ]> m);
     Run args m := (None, m) |}.

Definition request_start : types.MockServer :=
  {| types.Pid := 0; types.Port := 8080; types.Status := 0;
     types.Args := ["--port"; "8080"] |}.

Definition reply_zero : types.MockServer :=
  {| types.Pid := 0; types.Port := 0; types.Status := 0; types.Args := [] |}.

(** A daemon whose mock-service manager lists a command that was not
    started beside one that was. *)
Definition d_unstarted : @Daemon (gmap Z (option exec.Cmd)) :=
  {| pactMockSvcManager :=
       <[ 8080 := Some cmd7 ]>
         {[ 9090 := Some {| exec.Path := "pact-mock-service"; exec.Args := [];
                            exec.Process := None |} ]};
     verificationSvcManager := ∅;
     messageSvcManager := ∅;
     signalChan := [] |}.

(** A verifier whose stdout cannot be attached. *)
Definition os_run_no_pipe (cmd : exec.Cmd) : exec.Run :=
  {| exec.StdoutPipe_err := Some "exec: Stdout already set";
     exec.StderrPipe_err := None;
     exec.Start_err := None;
     exec.Stdout_ReadAll := ("", None);
     exec.Stderr_ReadAll := ("", None);
     exec.Wait_err := None |}.

(** A verifier that prints a result that decodes, and whose stderr cannot
    be read to its end. *)
Definition os_run_unread (cmd : exec.Cmd) : exec.Run :=
  {| exec.StdoutPipe_err := None;
     exec.StderrPipe_err := None;
     exec.Start_err := None;
     exec.Stdout_ReadAll := ("{}", None);
     exec.Stderr_ReadAll := ("", Some "read |0: file already closed");
     exec.Wait_err := None |}.

End daemon_more_example.

Module dsl_more_example.
Import dsl dsl_more dsl_example.

(** The rest of the outside of [world_example]: the daemon stops the
    server it is given and answers with it, status 0; it verifies every
    request with one passed and one failed example, and updates every
    message pact; the mock service writes its pact file; the broker
    cannot be reached; the port of the bridge is free and comes up. *)
Definition outside_example
  : Outside (Interaction := string) (E := nat) (Rest := unit) :=
  {| new_Interaction e := ("A request to logout", e);
     PactClient_StopServer _ server e := (Some (types.set_Status 0 server), e);
     PactClient_VerifyProvider _ _ e :=
       (({| types.Examples :=
              [{| types.Description := "has status code 200";
                  types.FullDescription := "A request to login has status code 200";
                  types.Example_Status := "passed";
                  types.Example_Exception := {| types.Exception_Message := "" |} |};
               {| types.Description := "has a matching body";
                  types.FullDescription := "A request to login has a matching body";
                  types.Example_Status := "failed";
                  types.Example_Exception :=
                    {| types.Exception_Message := "expected billy, got bobby" |} |}] |},
         None), e);
     PactClient_UpdateMessagePact _ _ e := (({| types_rpc.Error := "" |}, None), e);
     MockService_WritePact _ e := (None, e);
     findConsumers _ request e := ((request, Some "dial tcp: connection refused"), e);
     waitForPort _ _ _ _ e := (None, e);
     net_Listen _ _ e := (("[::]:9393", None), e) |}.

End dsl_more_example.

(** * Properties *)

(** ** Strings *)

Lemma strings_HasPrefix_app (p rest : string) : strings_HasPrefix (p +:+ rest) p = true.
Proof.
  induction p as [|c p IH]; simpl; [done|].
  by rewrite Ascii.eqb_refl.
Qed.

Lemma strings_Contains_HasPrefix (s substr : string) :
  strings_HasPrefix s substr = true → strings_Contains s substr = true.
Proof. intros H. destruct s; cbn [strings_Contains]; by rewrite H. Qed.

Lemma strings_Contains_app (pre mid post : string) :
  strings_Contains (pre +:+ mid +:+ post) mid = true.
Proof.
  induction pre as [|c pre IH].
  - apply strings_Contains_HasPrefix, (strings_HasPrefix_app mid post).
  - change (String c pre +:+ mid +:+ post) with (String c (pre +:+ mid +:+ post)).
    cbn [strings_Contains]. rewrite IH. apply orb_true_r.
Qed.

Lemma append_cons (c : Ascii.ascii) (s t : string) : String c s +:+ t = String c (s +:+ t).
Proof. reflexivity. Qed.

Lemma append_empty_r (s : string) : s +:+ "" = s.
Proof. induction s as [|c s IH]; [done|]. by rewrite append_cons, IH. Qed.

Lemma append_assoc (a b c : string) : (a +:+ b) +:+ c = a +:+ b +:+ c.
Proof. induction a as [|x a IH]; [done|]. by rewrite !append_cons, IH. Qed.

Lemma strings_Contains_suffix (pre s : string) : strings_Contains (pre +:+ s) s = true.
Proof.
  pose proof (strings_Contains_app pre s "") as H.
  by rewrite append_empty_r in H.
Qed.

(** ** The daemon *)

Module daemon_spec.
Import daemon.

Section Properties.
Set Default Proof Using "Type".
Context {M Svc : Type} `{!Service M Svc}.
Variable Validate : types.VerifyRequest → types.VerifyRequest * option error.
Variable json_Decode :
  string → types.ProviderVerifierResponse → types.ProviderVerifierResponse * option error.
Variable os_run : exec.Cmd → exec.Run.
Variable net_Listen : string → string → option error.
Variable range_order : gmap Z (option exec.Cmd) → list (Z * option exec.Cmd).

Abbreviation Daemon := (@Daemon M).
Abbreviation VerifyProvider := (VerifyProvider Validate json_Decode os_run).
Abbreviation Shutdown := (Shutdown range_order).
Abbreviation StartDaemon := (StartDaemon net_Listen range_order).
Abbreviation verifier_run := (verifier_run os_run).

Ltac run_go :=
  unfold log_Println, call_NewService, call_Command, call_List, call_Stop,
    signalChan_send, signalChan_recv, emit, panic, deref,
    mbind, Go_bind, go_bind, mret, Go_ret, go_ret; simpl.

(** Closes a goal [e ∈ evs → _] when [e] is no element of the explicit
    list [evs]. *)
Ltac absent :=
  let H := fresh in
  intros H;
  repeat (apply elem_of_cons in H as [H|H]; [discriminate H|]);
  by apply elem_of_nil in H.

(** What [StopServer] does, as one equation. *)
Lemma StopServer_run (request reply : types.MockServer) (d : Daemon) :
  StopServer request reply d =
    let r := Stop (types.Pid request) (pactMockSvcManager d) in
    (Returned (types.set_Status
                 (if r.1.1 && bool_decide (r.1.2 = None) then 0 else 1) request,
               None),
     set_manager MockSvc r.2 d,
     [EvLog "[DEBUG] daemon - stopping mock server";
      EvStop MockSvc (types.Pid request)]).
Proof.
  unfold StopServer, log_Println, call_Stop, emit, mbind, Go_bind, go_bind, mret, Go_ret,
    go_ret. simpl.
  destruct (Stop (types.Pid request) (pactMockSvcManager d)) as [[success err] v]. simpl.
  by destruct (success && bool_decide (err = None)).
Qed.

(** C4. Every [StopServer] call returns no error to the RPC layer, whatever
    the mock-service manager's [Stop] answers (an unknown process id, or
    one stopped before, are answers of [Stop] like any other); the reply
    is the request with [Status] 0 exactly when [Stop] reported success
    with a nil error, and 1 otherwise; and a second call with the same
    request, on the daemon the first one left, behaves the same way. *)
Theorem StopServer_status (request reply : types.MockServer) (d : Daemon) :
  ∃ reply1 d1 evs1 reply2 d2 evs2,
    StopServer request reply d = (Returned (reply1, None), d1, evs1) ∧
    StopServer request reply1 d1 = (Returned (reply2, None), d2, evs2) ∧
    reply1 =
      types.set_Status
        (if decide ((Stop (types.Pid request) (pactMockSvcManager d)).1 = (true, None))
         then 0 else 1) request ∧
    reply2 =
      types.set_Status
        (if decide ((Stop (types.Pid request) (pactMockSvcManager d1)).1 = (true, None))
         then 0 else 1) request.
Proof.
  assert (Hst : ∀ (r : bool * option error),
    (if r.1 && bool_decide (r.2 = None) then 0 else 1) =
    (if decide (r = (true, None)) then 0 else 1)).
  { intros [[] [e|]]; simpl; by repeat case_decide. }
  do 6 eexists. rewrite !StopServer_run. cbn zeta.
  split; [reflexivity|]. split; [reflexivity|].
  split; by rewrite Hst.
Qed.

(** C2. A request that fails validation makes [VerifyProvider] return the
    validation error at once: the daemon is left as it was, [*reply] is
    untouched, and the only thing done is the debug log line: no service
    handle is asked of any manager and no process call is made. *)
Theorem VerifyProvider_validation_error
    (request request' : types.VerifyRequest) (e : error)
    (reply : types.ProviderVerifierResponse) (d : Daemon) :
  Validate request = (request', Some e) →
  VerifyProvider request reply d =
    (Returned (reply, Some e), d, [EvLog "[DEBUG] daemon - verifying provider"]).
Proof.
  intros HV. unfold daemon.VerifyProvider. rewrite HV. by run_go.
Qed.

Lemma composite_error_contains (err stdErr stdOut : string) :
  strings_Contains (composite_error err stdErr stdOut) err = true ∧
  strings_Contains (composite_error err stdErr stdOut) stdErr = true ∧
  strings_Contains (composite_error err stdErr stdOut) stdOut = true.
Proof.
  unfold composite_error. split; [|split].
  - apply strings_Contains_app.
  - rewrite <- !(append_assoc _ _ (stdErr +:+ _)). apply strings_Contains_app.
  - rewrite <- !(append_assoc _ _ stdOut). apply strings_Contains_suffix.
Qed.

(** What [VerifyProvider] does once the process runs and both streams
    have been read. *)
Lemma VerifyProvider_run (request request' : types.VerifyRequest)
    (reply : types.ProviderVerifierResponse) (d : Daemon) (stdOut stdErr : string) :
  Validate request = (request', None) →
  exec.StdoutPipe_err (verifier_run request' d) = None →
  exec.StderrPipe_err (verifier_run request' d) = None →
  exec.Start_err (verifier_run request' d) = None →
  exec.Stdout_ReadAll (verifier_run request' d) = (stdOut, None) →
  exec.Stderr_ReadAll (verifier_run request' d) = (stdErr, None) →
  VerifyProvider request reply d =
    ((Returned
        match json_Decode stdOut reply with
        | (reply', None) => (reply', None)
        | (reply', Some dErr) =>
            (reply',
             Some (composite_error
                     (default dErr (exec.Wait_err (verifier_run request' d)))
                     stdErr stdOut))
        end),
     set_manager VerificationSvc
       (NewService (types.VerifyRequest_Args request') (verificationSvcManager d)).2 d,
     [EvLog "[DEBUG] daemon - verifying provider";
      EvNewService VerificationSvc (types.VerifyRequest_Args request');
      EvCommand VerificationSvc;
      EvStdoutPipe; EvStderrPipe; EvStart;
      EvReadAll Stdout; EvReadAll Stderr; EvWait; EvDecode]).
Proof.
  unfold verifier_run, daemon.VerifyProvider. intros -> .
  run_go.
  destruct (NewService _ _) as [svc v]. simpl.
  intros -> -> -> -> ->.
  destruct (json_Decode stdOut reply) as [reply' [dErr|]]; simpl; [|done].
  by destruct (exec.Wait_err _).
Qed.

(** C1. Once the request is validated, the process runs and both streams
    have been read: if the bytes of stdout decode, [VerifyProvider] returns
    the decoded reply and a nil error, whatever [cmd.Wait] returned; if they
    do not decode, it returns an error whose text contains the error of
    [cmd.Wait] when there is one and the decode error otherwise, all of
    stderr, and all of stdout. *)
Theorem VerifyProvider_decoding (request request' : types.VerifyRequest)
    (reply : types.ProviderVerifierResponse) (d : Daemon) (stdOut stdErr : string) :
  Validate request = (request', None) →
  exec.StdoutPipe_err (verifier_run request' d) = None →
  exec.StderrPipe_err (verifier_run request' d) = None →
  exec.Start_err (verifier_run request' d) = None →
  exec.Stdout_ReadAll (verifier_run request' d) = (stdOut, None) →
  exec.Stderr_ReadAll (verifier_run request' d) = (stdErr, None) →
  (∀ reply', json_Decode stdOut reply = (reply', None) →
     ∃ d' evs, VerifyProvider request reply d = (Returned (reply', None), d', evs)) ∧
  (∀ reply' dErr, json_Decode stdOut reply = (reply', Some dErr) →
     ∃ text d' evs,
       VerifyProvider request reply d = (Returned (reply', Some text), d', evs) ∧
       strings_Contains text
         (match exec.Wait_err (verifier_run request' d) with
          | Some waitErr => waitErr
          | None => dErr
          end) = true ∧
       strings_Contains text stdErr = true ∧
       strings_Contains text stdOut = true).
Proof.
  intros HV H1 H2 H3 H4 H5.
  rewrite (VerifyProvider_run _ _ _ _ _ _ HV H1 H2 H3 H4 H5).
  split.
  - intros reply' ->. by do 2 eexists.
  - intros reply' dErr ->. do 3 eexists. split; [reflexivity|].
    destruct (composite_error_contains
                (default dErr (exec.Wait_err (verifier_run request' d))) stdErr stdOut)
      as (Ha & Hb & Hc).
    split; [|done]. by destruct (exec.Wait_err _).
Qed.

(** C3. The calls of every [VerifyProvider] are an initial part of: new
    service, command, the two pipes, start, read stdout to its end, read
    stderr to its end, wait, decode. The process is waited on only in a run
    that made all of them, so with both reads before the wait and the decode
    after it; and a run whose process started and whose two reads succeeded
    makes all of them. *)
Theorem VerifyProvider_order (request : types.VerifyRequest)
    (reply : types.ProviderVerifierResponse) (d : Daemon) :
  let evs := (VerifyProvider request reply d).2 in
  let request' := (Validate request).1 in
  let run := verifier_run request' d in
  evs `prefix_of` verifier_sequence (types.VerifyRequest_Args request') ∧
  (EvWait ∈ evs ↔ evs = verifier_sequence (types.VerifyRequest_Args request')) ∧
  (EvStart ∈ evs → exec.Start_err run = None →
   (exec.Stdout_ReadAll run).2 = None → (exec.Stderr_ReadAll run).2 = None →
   evs = verifier_sequence (types.VerifyRequest_Args request')).
Proof.
  clear net_Listen range_order.
  unfold verifier_run, verifier_sequence, daemon.VerifyProvider.
  destruct (Validate request) as [request' [e|]]; run_go.
  { split; [by eexists|]. split; [|absent]. split; [absent|done]. }
  destruct (NewService _ _) as [svc v]. simpl.
  destruct (exec.StdoutPipe_err _); simpl.
  { split; [by eexists|]. split; [|absent]. split; [absent|done]. }
  destruct (exec.StderrPipe_err _); simpl.
  { split; [by eexists|]. split; [|absent]. split; [absent|done]. }
  destruct (exec.Start_err _); simpl.
  { split; [by eexists|]. split; [|done]. split; [absent|done]. }
  destruct (exec.Stdout_ReadAll _) as [stdOut [e|]]; simpl.
  { split; [by eexists|]. split; [|done]. split; [absent|done]. }
  destruct (exec.Stderr_ReadAll _) as [stdErr [e|]]; simpl.
  { split; [by eexists|]. split; [|done]. split; [absent|done]. }
  destruct (json_Decode stdOut reply) as [reply' [dErr|]]; simpl.
  all: split; [by eexists|]; split; [|done]; split; [done|].
all: intros _; rewrite !elem_of_cons; naive_solver.
Qed.


Hypothesis range_order_perm : ∀ m, range_order m ≡ₚ map_to_list m.



End Properties.
End daemon_spec.


Module dsl_spec.
Import dsl.

Section Properties.
Set Default Proof Using "Type".
Context {Interaction E : Type} `{!World (Interaction := Interaction) E}.

Abbreviation Pact := (@Pact Interaction).
Abbreviation Session := (@Session Interaction E).
Abbreviation Event := (@Event Interaction).

Ltac run_go :=
  unfold log_Println, get_pact, modify_pact, call_world, call_test, emit, panic, deref,
    mbind, Go_bind, go_bind, mret, Go_ret, go_ret; simpl.

Lemma with_defaults_pactClient (dir : string) (p : Pact) :
  is_Some (pactClient (with_defaults dir p)).
Proof.
  unfold with_defaults. generalize (default_SpecificationVersion
    (default_PactDir dir (default_LogDir dir (default_Host (default_Network p))))).
  intros q. unfold default_pactClient. destruct (pactClient q) eqn:Hq; simpl; eauto.
Qed.

Lemma prepend_nil {A} (x : outcome A * Session * list Event) : prepend [] x = x.
Proof. by destruct x. Qed.

Lemma bind_Returned {A B} (m : G A) (k : A → G B) (s s1 : Session) (a : A) evs :
  m s = (Returned a, s1, evs) → (m ≫= k) s = prepend evs (k a s1).
Proof. unfold mbind, Go_bind, go_bind, prepend. intros ->. by destruct (k a s1) as [[r s2] e2]. Qed.

Lemma emit_step {B} (ev : Event) (k : unit → G B) (s : Session) :
  (emit ev ≫= k) s = prepend [ev] (k tt s).
Proof. by apply bind_Returned. Qed.

Lemma get_pact_step {B} (k : Pact → G B) (s : Session) :
  (get_pact ≫= k) s = k (pact s) s.
Proof. rewrite <- prepend_nil. by apply bind_Returned. Qed.

Lemma modify_pact_step {B} (f : Pact → Pact) (k : unit → G B) (s : Session) :
  (modify_pact f ≫= k) s = k tt {| pact := f (pact s); world := world s |}.
Proof. rewrite <- prepend_nil. by apply bind_Returned. Qed.

Lemma call_world_step {A B} (f : E → A * E) (ev : A → Event) (k : A → G B)
    (s : Session) :
  (call_world f ev ≫= k) s =
  prepend [ev (f (world s)).1]
    (k (f (world s)).1 {| pact := pact s; world := (f (world s)).2 |}).
Proof.
  apply bind_Returned. unfold call_world. by destruct (f (world s)).
Qed.

Lemma mret_step {A B} (a : A) (k : A → G B) (s : Session) : (mret a ≫= k) s = k a s.
Proof. rewrite <- prepend_nil. by apply bind_Returned. Qed.

Lemma if_modify_step {B} {P Q : Prop} (c : {P} + {Q}) (f : Pact → Pact)
    (k : unit → G B) (s : Session) :
  ((if c then modify_pact f else mret tt) ≫= k) s =
  k tt {| pact := if c then f (pact s) else pact s; world := world s |}.
Proof. destruct c; [by rewrite modify_pact_step|]. rewrite mret_step. by destruct s. Qed.

Lemma setupLogging_run (s : Session) :
  setupLogging s =
  (Returned tt, {| pact := after_logging (pact s); world := world s |},
   logging_events (pact s)).
Proof.
  destruct s as [p e]. unfold setupLogging, logging_events, after_logging. run_go.
  destruct (logFilter p); simpl; [done|].
  by destruct (decide (LogLevel p = "")).
Qed.

(** The block of [Setup] that fills in the defaults, followed by [K]. *)
Lemma defaults_run {B} (dir : string) (K : G B) (s : Session) :
  (p ← get_pact;
   (if decide (Network p = "") then modify_pact (set_Network "tcp") else mret tt);;
   p ← get_pact;
   (if decide (Host p = "") then modify_pact (set_Host "localhost") else mret tt);;
   p ← get_pact;
   (if decide (LogDir p = "")
    then modify_pact (set_LogDir (fmt_Sprintf (filepath_Join dir "logs")))
    else mret tt);;
   p ← get_pact;
   (if decide (PactDir p = "")
    then modify_pact (set_PactDir (fmt_Sprintf (filepath_Join dir "pacts")))
    else mret tt);;
   p ← get_pact;
   (if decide (SpecificationVersion p = 0)
    then modify_pact (set_SpecificationVersion 2)
    else mret tt);;
   p ← get_pact;
   match pactClient p with
   | None =>
       let client := {| PactClient_Port := Port p; PactClient_Network := Network p;
                        PactClient_Address := Host p |} in
       modify_pact (set_pactClient (Some client))
   | Some _ => mret tt
   end;;
   K) s =
  K {| pact := with_defaults dir (pact s); world := world s |}.
Proof.
  destruct s as [p e]. unfold with_defaults.
  rewrite get_pact_step, if_modify_step. cbn [pact world]. fold (default_Network p).
  generalize (default_Network p). clear p. intros p.
  rewrite get_pact_step, if_modify_step. cbn [pact world]. fold (default_Host p).
  generalize (default_Host p). clear p. intros p.
  rewrite get_pact_step, if_modify_step. cbn [pact world]. fold (default_LogDir dir p).
  generalize (default_LogDir dir p). clear p. intros p.
  rewrite get_pact_step, if_modify_step. cbn [pact world]. fold (default_PactDir dir p).
  generalize (default_PactDir dir p). clear p. intros p.
  rewrite get_pact_step, if_modify_step. cbn [pact world].
  fold (default_SpecificationVersion p).
  generalize (default_SpecificationVersion p). clear p. intros p.
  rewrite get_pact_step. cbn [pact world]. unfold default_pactClient.
  destruct (pactClient p); [by rewrite mret_step|by rewrite modify_pact_step].
Qed.

Lemma bind_assoc {A B C} (m : G A) (k1 : A → G B) (k2 : B → G C) (s : Session) :
  ((m ≫= k1) ≫= k2) s = (m ≫= λ a, k1 a ≫= k2) s.
Proof.
  unfold mbind, Go_bind, go_bind.
  destruct (m s) as [[[a| |] s1] e1]; try done.
  destruct (k1 a s1) as [[[b| |] s2] e2]; try done.
  destruct (k2 b s2) as [[r s3] e3]. by rewrite app_assoc.
Qed.

Ltac step :=
  first [rewrite bind_assoc | rewrite emit_step | rewrite mret_step | rewrite get_pact_step
        | rewrite modify_pact_step | rewrite call_world_step];
  cbn [pact world fst snd deref].

(** What [Setup] does, as one equation. *)
Lemma Setup_run (startMockServer : bool) (s : Session) :
  let p1 := with_defaults (os_Getwd (world s)) (after_logging (pact s)) in
  let r := probe p1 (world s) in
  let evs := probing_events (pact s) p1 r.1 in
  ∃ client, pactClient p1 = Some client ∧
    Setup startMockServer s =
      if launches startMockServer p1 then
        let srv := PactClient_StartServer client (launch_args p1) r.1.1 r.2 in
        (Returned (set_Server srv.1 p1),
         {| pact := set_Server srv.1 p1; world := srv.2 |},
         evs ++ [EvLog ("[DEBUG] starting mock service on port: " +:+ pretty r.1.1);
                 EvStartServer client (launch_args p1) r.1.1])
      else (Returned p1, {| pact := p1; world := r.2 |}, evs).
Proof.
  destruct s as [p e]. cbn [pact world]. cbv zeta.
  destruct (with_defaults_pactClient (os_Getwd e) (after_logging p)) as [client Hc].
  exists client. split; [done|].
  unfold Setup, log_Println.
  rewrite emit_step, (bind_Returned _ _ _ _ _ _ (setupLogging_run _)), emit_step,
    call_world_step.
  cbn [pact world fst snd].
  rewrite defaults_run. cbn [pact world].
  unfold probing_events, probe, probe_event, launches.
  generalize dependent (with_defaults (os_Getwd e) (after_logging p)).
  generalize (logging_events p). clear p. intros evl p Hc.
  rewrite get_pact_step. cbn [pact world].
  destruct (decide (AllowedMockServerPorts p ≠ "")) as [Ha|Ha]; step;
    [destruct (utils_FindPortInRange (AllowedMockServerPorts p) e) as [[port perr] e1]
    |destruct (utils_GetFreePort e) as [[port perr] e1]];
    cbn [fst snd]; destruct perr as [perr|]; do 2 step;
    rewrite ?Hc; destruct (Server p) eqn:HS; try destruct startMockServer;
    repeat step; rewrite ?Hc; repeat step; unfold get_pact, launch_args, prepend;
    cbn [fst snd app pact]; rewrite <- ?app_assoc; reflexivity.
Qed.

Lemma after_logging_kept (p : Pact) : kept (after_logging p) = kept p.
Proof.
  unfold after_logging. destruct (logFilter p); [done|].
  by destruct (decide (LogLevel p = "")).
Qed.

Lemma with_defaults_kept (dir : string) (p : Pact) : kept (with_defaults dir p) = kept p.
Proof.
  unfold with_defaults.
  transitivity (kept (default_Network p));
    [|by unfold default_Network; destruct (decide _)].
  generalize (default_Network p). clear p. intros p.
  transitivity (kept (default_Host p));
    [|by unfold default_Host; destruct (decide _)].
  generalize (default_Host p). clear p. intros p.
  transitivity (kept (default_LogDir dir p));
    [|by unfold default_LogDir; destruct (decide _)].
  generalize (default_LogDir dir p). clear p. intros p.
  transitivity (kept (default_PactDir dir p));
    [|by unfold default_PactDir; destruct (decide _)].
  generalize (default_PactDir dir p). clear p. intros p.
  transitivity (kept (default_SpecificationVersion p));
    [|by unfold default_SpecificationVersion; destruct (decide _)].
  generalize (default_SpecificationVersion p). clear p. intros p.
  unfold default_pactClient. by destruct (pactClient p).
Qed.

Lemma configured_kept (dir : string) (p : Pact) :
  Server (with_defaults dir (after_logging p)) = Server p ∧
  Interactions (with_defaults dir (after_logging p)) = Interactions p ∧
  AllowedMockServerPorts (with_defaults dir (after_logging p)) = AllowedMockServerPorts p.
Proof.
  pose proof (with_defaults_kept dir (after_logging p)) as H.
  rewrite after_logging_kept in H. unfold kept in H. by injection H as -> -> ->.
Qed.

Lemma count_app (test : Event → bool) (l1 l2 : list Event) :
  count test (l1 ++ l2) = (count test l1 + count test l2)%nat.
Proof. unfold count. by rewrite List.filter_app, length_app. Qed.

Lemma count_0_not_elem (test : Event → bool) (evs : list Event) (ev : Event) :
  count test evs = 0%nat → test ev = true → ev ∉ evs.
Proof.
  unfold count. intros Hc Ht Hin. apply list_elem_of_In in Hin.
  assert (Hf : List.In ev (List.filter test evs)) by (apply List.filter_In; done).
  destruct (List.filter test evs); [done|discriminate].
Qed.

Lemma Forall_false_not_elem (test : Event → bool) (evs : list Event) (ev : Event) :
  Forall (λ x, test x = true) evs → test ev = false → ev ∉ evs.
Proof.
  intros HF Ht Hin. rewrite Forall_forall in HF. specialize (HF _ Hin). congruence.
Qed.

Lemma logging_events_counts (p : Pact) :
  Forall (λ ev, from_Setup ev = true) (logging_events p) ∧
  count is_StartServer (logging_events p) = 0%nat ∧
  count is_probe (logging_events p) = 0%nat.
Proof.
  unfold logging_events. destruct (logFilter p); simpl; repeat constructor.
Qed.

Lemma probing_events_counts (p p1 : Pact) (r : Z * option error) :
  Forall (λ ev, from_Setup ev = true) (probing_events p p1 r) ∧
  count is_StartServer (probing_events p p1 r) = 0%nat ∧
  count is_probe (probing_events p p1 r) = 1%nat ∧
  probe_event p1 r ∈ probing_events p p1 r ∧
  (is_Some r.2 →
   EvLog "[ERROR] unable to find free port, mockserver will fail to start"
     ∈ probing_events p p1 r).
Proof.
  destruct (logging_events_counts p) as (HF & HS & HP).
  unfold probing_events.
  change (EvLog "[DEBUG] pact setup1" :: logging_events p ++ ?l)
    with ([EvLog "[DEBUG] pact setup1"] ++ logging_events p ++ l).
  generalize dependent (logging_events p). intros evl HF HS HP.
  assert (Hpe : from_Setup (probe_event p1 r) = true ∧
                is_StartServer (probe_event p1 r) = false ∧
                is_probe (probe_event p1 r) = true).
  { unfold probe_event. by destruct (decide _). }
  destruct Hpe as (H1 & H2 & H3). generalize dependent (probe_event p1 r).
  intros pe H1 H2 H3.
  split; [|split; [|split; [|split]]].
  - rewrite !Forall_app. split; [by repeat constructor|]. split; [done|].
    split; [by repeat constructor|]. destruct r.2; by repeat constructor.
  - rewrite !count_app, HS. unfold count. simpl. rewrite H2. by destruct r.2.
  - rewrite !count_app, HP. unfold count. simpl. rewrite H3. by destruct r.2.
  - rewrite !elem_of_app, !elem_of_cons. tauto.
  - intros [x Hx]. rewrite Hx, !elem_of_app, !elem_of_cons. tauto.
Qed.

(** What the claims about [Setup] need of [Setup_run]. *)
Lemma Setup_summary (startMockServer : bool) (s : Session) :
  let r := probe (pact s) (world s) in
  ∃ s' pre client args,
    Setup startMockServer s =
      (Returned (pact s'), s',
       pre ++ if launches startMockServer (pact s)
              then [EvLog ("[DEBUG] starting mock service on port: " +:+ pretty r.1.1);
                    EvStartServer client args r.1.1]
              else []) ∧
    Forall (λ ev, from_Setup ev = true) pre ∧
    count is_StartServer pre = 0%nat ∧
    count is_probe pre = 1%nat ∧
    probe_event (pact s) r.1 ∈ pre ∧
    (is_Some r.1.2 →
     EvLog "[ERROR] unable to find free port, mockserver will fail to start" ∈ pre) ∧
    Interactions (pact s') = Interactions (pact s) ∧
    (launches startMockServer (pact s) = false → Server (pact s') = Server (pact s)).
Proof.
  cbv zeta.
  destruct (Setup_run startMockServer s) as (client & Hc & Hrun). cbv zeta in Hrun.
  destruct (configured_kept (os_Getwd (world s)) (pact s)) as (HS & HI & HA).
  set (p1 := with_defaults (os_Getwd (world s)) (after_logging (pact s))) in *.
  assert (Hprobe : probe p1 (world s) = probe (pact s) (world s)).
  { unfold probe. by rewrite HA. }
  assert (Hev : ∀ r, probe_event p1 r = probe_event (pact s) r).
  { intros r. unfold probe_event. by rewrite HA. }
  assert (Hl : launches startMockServer p1 = launches startMockServer (pact s)).
  { unfold launches. by rewrite HS. }
  rewrite Hprobe, Hl in Hrun.
  destruct (probing_events_counts (pact s) p1 (probe (pact s) (world s)).1)
    as (H1 & H2 & H3 & H4 & H5).
  rewrite Hev in H4.
  destruct (launches startMockServer (pact s)) eqn:Hlaunch.
  - eexists {| pact := _; world := _ |}, _, client, (launch_args p1).
    split; [exact Hrun|]. by repeat split.
  - eexists {| pact := _; world := _ |}, _, client, (launch_args p1).
    rewrite app_nil_r. split; [exact Hrun|]. by repeat split.
Qed.

(** C6. A [Setup] on a session whose server reference is not nil leaves the
    reference as it is and makes no [StartServer] call; [StartServer] is
    called only by [Setup(true)] on a session whose reference is nil, there
    once; so no call of [Setup] launches a second mock service for a
    session that holds one. *)
Theorem Setup_reuses_server (startMockServer : bool) (s : Session) :
  ∃ s' evs,
    Setup startMockServer s = (Returned (pact s'), s', evs) ∧
    (is_Some (Server (pact s)) →
     Server (pact s') = Server (pact s) ∧
     ∀ client args port, EvStartServer client args port ∉ evs) ∧
    (∀ client args port, EvStartServer client args port ∈ evs →
     startMockServer = true ∧ Server (pact s) = None) ∧
    (startMockServer = true → Server (pact s) = None →
     count is_StartServer evs = 1%nat) ∧
    (count is_StartServer evs ≤ 1)%nat.
Proof.
  destruct (Setup_summary startMockServer s)
    as (s' & pre & client & args & Hrun & HF & HS & _ & _ & _ & _ & Hkeep).
  cbv zeta in Hrun. eexists s', _. split; [exact Hrun|].
  unfold launches in *.
  destruct (Server (pact s)) as [srv|] eqn:Hsrv; [|destruct startMockServer].
  - rewrite app_nil_r. split; [|split; [|split]].
    + intros _. split; [by apply Hkeep|].
      intros c a p. by apply (count_0_not_elem is_StartServer).
    + intros c a p Hin. by apply (count_0_not_elem is_StartServer) in Hin.
    + done.
    + rewrite HS. lia.
  - split; [by intros [? ?]|]. split; [done|].
    rewrite count_app, HS. split; [done|]. unfold count. simpl. lia.
  - rewrite app_nil_r. split; [by intros [? ?]|]. split; [|split; [done|]].
    + intros c a p Hin. by apply (count_0_not_elem is_StartServer) in Hin.
    + rewrite HS. lia.
Qed.

(** C10. [Setup] returns its receiver whatever happens: it never panics and
    has no error to return. Every call probes for a port exactly once, with
    [FindPortInRange] when ports are allowed and [GetFreePort] otherwise,
    also when the session holds a server. When the probe fails, the error
    is logged and nothing else; a launch that is due still calls
    [StartServer], with the port value the failed probe returned. *)
Theorem Setup_never_fails (startMockServer : bool) (s : Session) :
  let r := probe (pact s) (world s) in
  ∃ s' evs,
    Setup startMockServer s = (Returned (pact s'), s', evs) ∧
    probe_event (pact s) r.1 ∈ evs ∧
    count is_probe evs = 1%nat ∧
    (is_Some r.1.2 →
     EvLog "[ERROR] unable to find free port, mockserver will fail to start" ∈ evs ∧
     (startMockServer = true → Server (pact s) = None →
      ∃ client args, EvStartServer client args r.1.1 ∈ evs)).
Proof.
  cbv zeta.
  destruct (Setup_summary startMockServer s)
    as (s' & pre & client & args & Hrun & HF & _ & HP & Hin & Hlog & _ & _).
  cbv zeta in Hrun. eexists s', _. split; [exact Hrun|].
  split; [apply elem_of_app; by left|].
  split.
  { rewrite count_app, HP. by destruct (launches _ _). }
  intros Hfail. split; [apply elem_of_app; left; by apply Hlog|].
  intros -> Hnil. exists client, args. unfold launches. rewrite Hnil.
  apply elem_of_app. right. apply list_elem_of_further, list_elem_of_here.
Qed.

(** *** [Verify] *)

Lemma registered_app (l1 l2 : list Event) :
  registered (l1 ++ l2) = registered l1 ++ registered l2.
Proof. apply omap_app. Qed.

Lemma registered_from_Setup (evs : list Event) :
  Forall (λ ev, from_Setup ev = true) evs → registered evs = [].
Proof.
  induction 1 as [|ev evs Hev _ IH]; [done|].
  destruct ev; try discriminate Hev; exact IH.
Qed.

Lemma panic_step {A B} (msg : string) (k : A → G B) (s : Session) :
  (panic msg ≫= k) s = (Panicked msg, s, []).
Proof. reflexivity. Qed.

Lemma call_test_step {B} (integrationTest : TestFn) (k : option error → G B)
    (s : Session) :
  (call_test integrationTest ≫= k) s =
  prepend [EvTestFn (integrationTest (pact s) (world s)).1.1]
    (k (integrationTest (pact s) (world s)).1.1
       {| pact := (integrationTest (pact s) (world s)).1.2;
          world := (integrationTest (pact s) (world s)).2 |}).
Proof.
  apply bind_Returned. unfold call_test.
  by destruct (integrationTest (pact s) (world s)) as [[err p] e].
Qed.

(** The loop of [Verify]: it registers the interactions in order, up to and
    including the first that fails, and returns that failure. *)
Lemma Verify_range_run (mockServer : MockService) (interactions : list Interaction)
    (s : Session) :
  ∃ r e' evs,
    Verify_range mockServer interactions s =
      (Returned r, {| pact := pact s; world := e' |}, evs) ∧
    Forall (λ ev, is_AddInteraction ev = true) evs ∧
    (∀ m i e, EvAddInteraction m i (Some e) ∈ evs → r = Some e) ∧
    (r = None → registered evs = interactions).
Proof.
  revert s. induction interactions as [|i rest IH]; intros s.
  - exists None, (world s), []. destruct s. repeat split; try done. intros m i e Hin. by apply elem_of_nil in Hin.
  - cbn [Verify_range]. rewrite call_world_step.
    destruct (MockService_AddInteraction mockServer i (world s)) as [[e|] e1];
      cbn [fst snd pact world].
    + exists (Some e), e1, [EvAddInteraction mockServer i (Some e)].
      split; [done|]. split; [by repeat constructor|]. split; [|done].
      intros m j e' Hin. apply list_elem_of_singleton in Hin. by injection Hin as _ _ ->.
    + destruct (IH {| pact := pact s; world := e1 |}) as (r & e' & evs & Hrun & HF & He & Hr).
      exists r, e', (EvAddInteraction mockServer i None :: evs).
      rewrite Hrun. split; [done|]. split; [by constructor|]. split.
      * intros m j e Hin. apply elem_of_cons in Hin as [Hin|Hin]; [discriminate|].
        by apply (He m j e).
      * intros ->. change (i :: registered evs = i :: rest). by rewrite Hr.
Qed.

Lemma Setup_events (startMockServer : bool) (s : Session) :
  ∃ s1 evs1,
    Setup startMockServer s = (Returned (pact s1), s1, evs1) ∧
    Forall (λ ev, from_Setup ev = true) evs1 ∧
    Interactions (pact s1) = Interactions (pact s).
Proof.
  destruct (Setup_summary startMockServer s)
    as (s' & pre & client & args & Hrun & HF & _ & _ & _ & _ & HI & _).
  cbv zeta in Hrun. eexists s', _. split; [exact Hrun|]. split; [|done].
  apply Forall_app. split; [done|].
  destruct (launches _ _); by repeat constructor.
Qed.

(** The runs of [Verify], case by case. *)
Lemma Verify_cases (integrationTest : TestFn) (s : Session) :
  ∃ s1 evs1,
    Forall (λ ev, from_Setup ev = true) evs1 ∧
    Interactions (pact s1) = Interactions (pact s) ∧
    match Server (pact s1) with
    | None => ∃ msg,
        Verify integrationTest s =
          (Panicked msg, s1, evs1 ++ [EvLog "[DEBUG] pact verify"])
    | Some _ =>
        ∃ ms r e2 evs2,
          Forall (λ ev, is_AddInteraction ev = true) evs2 ∧
          (∀ m i e, EvAddInteraction m i (Some e) ∈ evs2 → r = Some e) ∧
          (r = None → registered evs2 = Interactions (pact s)) ∧
          let pre := evs1 ++ EvLog "[DEBUG] pact verify" :: evs2 in
          let t := integrationTest (pact s1) e2 in
          let v := MockService_Verify ms t.2 in
          let d := MockService_DeleteInteractions ms v.2 in
          Verify integrationTest s =
            match r, t.1.1, v.1 with
            | Some e, _, _ =>
                (Returned (Some e), {| pact := pact s1; world := e2 |}, pre)
            | None, Some e, _ =>
                (Returned (Some e), {| pact := t.1.2; world := t.2 |},
                 pre ++ [EvTestFn (Some e)])
            | None, None, Some e =>
                (Returned (Some e), {| pact := t.1.2; world := v.2 |},
                 pre ++ [EvTestFn None; EvVerify ms (Some e)])
            | None, None, None =>
                (Returned d.1, {| pact := set_Interactions [] t.1.2; world := d.2 |},
                 pre ++ [EvTestFn None; EvVerify ms None; EvDeleteInteractions ms d.1])
            end
    end.
Proof.
  destruct (Setup_events true s) as (s1 & evs1 & Hsetup & HF1 & HI).
  exists s1, evs1. split; [done|]. split; [done|].
  unfold Verify, log_Println.
  rewrite (bind_Returned _ _ _ _ _ _ Hsetup), emit_step, get_pact_step.
  destruct (Server (pact s1)) as [server|] eqn:Hsrv; cbn [deref].
  2:{ eexists. rewrite panic_step. unfold prepend. cbn [fst snd]. by rewrite app_nil_r. }
  rewrite mret_step.
  set (ms := {| BaseURL := _ |}).
  destruct (Verify_range_run ms (Interactions (pact s1)) s1)
    as (r & e2 & evs2 & Hrange & HF2 & He & Hr).
  rewrite HI in Hr.
  exists ms, r, e2, evs2. split; [done|]. split; [done|]. split; [done|].
  cbv zeta. rewrite (bind_Returned _ _ _ _ _ _ Hrange).
  destruct r as [e|].
  { unfold prepend, mret, Go_ret, go_ret. cbn [fst snd]. by rewrite app_nil_r. }
  rewrite call_test_step. cbn [pact world].
  destruct (integrationTest (pact s1) e2) as [[[e|] p2] e3]; cbn [fst snd].
  { unfold prepend, mret, Go_ret, go_ret. cbn [fst snd].
    by rewrite app_nil_r, <- app_assoc. }
  rewrite call_world_step. cbn [pact world].
  destruct (MockService_Verify ms e3) as [[e|] e4]; cbn [fst snd].
  { unfold prepend, mret, Go_ret, go_ret. cbn [fst snd].
    by rewrite app_nil_r, <- app_assoc. }
  rewrite modify_pact_step. cbn [pact world].
  unfold call_world, prepend. cbn [pact world].
  destruct (MockService_DeleteInteractions ms e4) as [err e5]; cbn [fst snd].
  by rewrite <- app_assoc.
Qed.

(** Splits a membership in a trace into its cases. *)
Ltac trace_in H :=
  repeat first
    [ apply elem_of_app in H as [H|H]
    | apply elem_of_cons in H as [H|H]
    | apply elem_of_nil in H; destruct H ].

(** Splits a membership in a trace and closes the cases that cannot be:
    an event of another kind than those of the two lists. *)
Ltac absurd_in H HF1 HF2 :=
  trace_in H; try discriminate H;
  try (by apply (Forall_false_not_elem _ _ _ HF1) in H);
  try (by apply (Forall_false_not_elem _ _ _ HF2) in H).

(** What the events of a [Verify] say of its order. *)
Lemma Verify_trace (integrationTest : TestFn) (s : Session) :
  let '(r, s', evs) := Verify integrationTest s in
  (∀ m i e, EvAddInteraction m i (Some e) ∈ evs →
     r = Returned (Some e) ∧ ∀ err, EvTestFn err ∉ evs) ∧
  (∀ err, EvTestFn err ∈ evs → registered evs = Interactions (pact s)) ∧
  (∀ e, EvTestFn (Some e) ∈ evs →
     r = Returned (Some e) ∧ ∀ m err, EvVerify m err ∉ evs) ∧
  (∀ m e, EvVerify m (Some e) ∈ evs →
     r = Returned (Some e) ∧ ∀ m' err, EvDeleteInteractions m' err ∉ evs) ∧
  (∀ m err, EvDeleteInteractions m err ∈ evs →
     r = Returned err ∧ Interactions (pact s') = [] ∧
     ∃ pre, evs = pre ++ [EvVerify m None; EvDeleteInteractions m err]) ∧
  (r = Returned None →
     Interactions (pact s') = [] ∧ ∃ m, EvDeleteInteractions m None ∈ evs) ∧
  ((∀ p e, Interactions (integrationTest p e).1.2 = Interactions p) →
   (∀ m, EvVerify m None ∉ evs) →
   Interactions (pact s') = Interactions (pact s)).
Proof.
  destruct (Verify_cases integrationTest s) as (s1 & evs1 & HF1 & HI & Hcase).
  destruct (Server (pact s1)) as [server|].
  2:{ destruct Hcase as [msg ->].
      repeat split; try done; intros; exfalso;
      match goal with H : _ ∈ _ |- _ =>
        trace_in H; try discriminate H;
        by apply (Forall_false_not_elem _ _ _ HF1) in H end. }
  destruct Hcase as (ms & r & e2 & evs2 & HF2 & He & Hr & Hrun). cbv zeta in Hrun.
  rewrite Hrun. clear Hrun.
  assert (Hreg : ∀ tail, registered tail = [] → r = None →
            registered ((evs1 ++ EvLog "[DEBUG] pact verify" :: evs2) ++ tail) =
            Interactions (pact s)).
  { intros tail Htail Hnone. rewrite !registered_app, (registered_from_Setup _ HF1), Htail.
    change (registered (EvLog "[DEBUG] pact verify" :: evs2)) with (registered evs2).
    rewrite (Hr Hnone). by rewrite app_nil_r. }
  destruct r as [e|].
  { (* a registration failed *)
    split; [|split; [|split; [|split; [|split; [|split]]]]].
    - intros m i e' Hin. trace_in Hin.
      + by apply (Forall_false_not_elem _ _ _ HF1) in Hin.
      + discriminate.
      + injection (He _ _ _ Hin) as ->. split; [done|].
        intros err Hin'. absurd_in Hin' HF1 HF2.
    - intros err Hin. absurd_in Hin HF1 HF2.
    - intros e' Hin. absurd_in Hin HF1 HF2.
    - intros m e' Hin. absurd_in Hin HF1 HF2.
    - intros m err Hin. absurd_in Hin HF1 HF2.
    - discriminate.
    - done. }
  destruct (integrationTest (pact s1) e2) as [[t p2] e3] eqn:Ht. cbn [fst snd].
  assert (Hp2 : (∀ p e, Interactions (integrationTest p e).1.2 = Interactions p) →
                Interactions p2 = Interactions (pact s)).
  { intros Hkeep. specialize (Hkeep (pact s1) e2). rewrite Ht in Hkeep. by rewrite <- HI. }
  destruct t as [e|].
  { (* the test function failed *)
    split; [|split; [|split; [|split; [|split; [|split]]]]].
    - intros m i e' Hin. absurd_in Hin HF1 HF2. by discriminate (He _ _ _ Hin).
    - intros err _. by apply Hreg.
    - intros e' Hin. absurd_in Hin HF1 HF2. injection Hin as ->. split; [done|].
      intros m err Hin. absurd_in Hin HF1 HF2.
    - intros m e' Hin. absurd_in Hin HF1 HF2.
    - intros m err Hin. absurd_in Hin HF1 HF2.
    - discriminate.
    - intros Hkeep _. by apply Hp2. }
  destruct (MockService_Verify ms e3) as [[e|] e4]; cbn [fst snd].
  { (* the verification failed *)
    split; [|split; [|split; [|split; [|split; [|split]]]]].
    - intros m i e' Hin. absurd_in Hin HF1 HF2. by discriminate (He _ _ _ Hin).
    - intros err _. by apply Hreg.
    - intros e' Hin. absurd_in Hin HF1 HF2.
    - intros m e' Hin. absurd_in Hin HF1 HF2. injection Hin as -> ->. split; [done|].
      intros m' err Hin. absurd_in Hin HF1 HF2.
    - intros m err Hin. absurd_in Hin HF1 HF2.
    - discriminate.
    - intros Hkeep _. by apply Hp2. }
  destruct (MockService_DeleteInteractions ms e4) as [err e5]; cbn [fst snd].
  split; [|split; [|split; [|split; [|split; [|split]]]]].
  - intros m i e' Hin. absurd_in Hin HF1 HF2. by discriminate (He _ _ _ Hin).
  - intros err' _. by apply Hreg.
  - intros e' Hin. absurd_in Hin HF1 HF2.
  - intros m e' Hin. absurd_in Hin HF1 HF2.
  - intros m err' Hin. absurd_in Hin HF1 HF2. injection Hin as -> ->.
    split; [done|]. split; [done|].
    exists (evs1 ++ EvLog "[DEBUG] pact verify" :: evs2 ++ [EvTestFn None]).
    rewrite <- !app_assoc. f_equal. simpl. f_equal. by rewrite <- app_assoc.
  - intros [= ->]. split; [done|]. exists ms.
    rewrite !elem_of_app, !elem_of_cons. tauto.
  - intros _ Hnot. exfalso. apply (Hnot ms).
    rewrite !elem_of_app, !elem_of_cons. tauto.
Qed.

(** The loop of [Verify] asks the mock service what [registration] says,
    and returns its refusal. *)
Lemma Verify_range_registration (mockServer : MockService)
    (interactions : list Interaction) (s : Session) :
  let reg := registration mockServer interactions (world s) in
  ∃ evs,
    Verify_range mockServer interactions s =
      (Returned reg.1.2, {| pact := pact s; world := reg.2 |}, evs) ∧
    registered evs = reg.1.1.
Proof.
  revert s. induction interactions as [|i rest IH]; intros s; cbv zeta.
  - exists []. by destruct s.
  - cbn [Verify_range registration]. rewrite call_world_step.
    destruct (MockService_AddInteraction mockServer i (world s)) as [[e|] e1];
      cbn [fst snd pact world].
    + by exists [EvAddInteraction mockServer i (Some e)].
    + destruct (IH {| pact := pact s; world := e1 |}) as (evs & Hrun & Hreg).
      cbn [pact world] in Hrun, Hreg.
      exists (EvAddInteraction mockServer i None :: evs). rewrite Hrun.
      split; [done|]. change (i :: registered evs = i :: (registration mockServer rest e1).1.1).
      by rewrite Hreg.
Qed.

(** The result of [Verify], from the answers it is given. *)
Lemma Verify_result (integrationTest : TestFn) (s : Session) :
  let run := Verify integrationTest s in
  let s1 := (Setup true s).1.2 in
  match Server (pact s1) with
  | None => ∃ msg, run.1.1 = Panicked msg ∧ run.1.2 = s1
  | Some server =>
      let mockServer :=
        {| BaseURL := "http://" +:+ Host (pact s1) +:+ ":" +:+ pretty (types.Port server);
           MockService_Consumer := Consumer (pact s1);
           MockService_Provider := Provider (pact s1);
           MockService_PactFileWriteMode := "" |} in
      let reg := registration mockServer (Interactions (pact s)) (world s1) in
      registered run.2 = reg.1.1 ∧
      match reg.1.2 with
      | Some e =>
          run.1.1 = Returned (Some e) ∧
          run.1.2 = {| pact := pact s1; world := reg.2 |}
      | None =>
          let t := integrationTest (pact s1) reg.2 in
          EvTestFn t.1.1 ∈ run.2 ∧
          match t.1.1 with
          | Some e =>
              run.1.1 = Returned (Some e) ∧
              run.1.2 = {| pact := t.1.2; world := t.2 |}
          | None =>
              let v := MockService_Verify mockServer t.2 in
              EvVerify mockServer v.1 ∈ run.2 ∧
              match v.1 with
              | Some e =>
                  run.1.1 = Returned (Some e) ∧
                  run.1.2 = {| pact := t.1.2; world := v.2 |}
              | None =>
                  let d := MockService_DeleteInteractions mockServer v.2 in
                  EvDeleteInteractions mockServer d.1 ∈ run.2 ∧
                  run.1.1 = Returned d.1 ∧
                  run.1.2 = {| pact := set_Interactions [] t.1.2; world := d.2 |}
              end
          end
      end
  end.
Proof.
  destruct (Setup_events true s) as (s1 & evs1 & Hsetup & HF1 & HI).
  cbv zeta. rewrite Hsetup. cbn [fst snd].
  unfold Verify, log_Println.
  rewrite (bind_Returned _ _ _ _ _ _ Hsetup), emit_step, get_pact_step.
  destruct (Server (pact s1)) as [server|] eqn:Hsrv; cbn [deref].
  2:{ eexists. rewrite panic_step. unfold prepend. cbn [fst snd]. done. }
  rewrite mret_step.
  set (ms := {| BaseURL := _ |}).
  destruct (Verify_range_registration ms (Interactions (pact s1)) s1)
    as (evs2 & Hrange & Hreg).
  cbv zeta in Hrange. rewrite <- HI.
  rewrite (bind_Returned _ _ _ _ _ _ Hrange).
  destruct (registration ms (Interactions (pact s1)) (world s1)) as [[accepted r] e2].
  cbn [fst snd] in *.
  assert (Hpre : ∀ tail, registered tail = [] →
            registered (evs1 ++ [EvLog "[DEBUG] pact verify"] ++ evs2 ++ tail) = accepted).
  { intros tail Htail. rewrite !registered_app, (registered_from_Setup _ HF1), Htail, Hreg.
    cbn. by rewrite app_nil_r. }
  destruct r as [e|].
  { unfold prepend, mret, Go_ret, go_ret. cbn [fst snd]. split; [by apply Hpre|done]. }
  rewrite call_test_step. cbn [pact world].
  destruct (integrationTest (pact s1) e2) as [[[e|] p2] e3]; cbn [fst snd].
  { unfold prepend, mret, Go_ret, go_ret. cbn [fst snd].
    split; [by apply Hpre|].
    split; [rewrite !elem_of_app, !elem_of_cons; tauto|done]. }
  rewrite call_world_step. cbn [pact world].
  destruct (MockService_Verify ms e3) as [[e|] e4]; cbn [fst snd].
  { unfold prepend, mret, Go_ret, go_ret. cbn [fst snd].
    split; [by apply Hpre|].
    split; [rewrite !elem_of_app, !elem_of_cons; tauto|].
    split; [rewrite !elem_of_app, !elem_of_cons; tauto|done]. }
  rewrite modify_pact_step. cbn [pact world].
  unfold call_world, prepend. cbn [pact world].
  destruct (MockService_DeleteInteractions ms e4) as [err e5]; cbn [fst snd].
  split; [by apply Hpre|].
  split; [rewrite !elem_of_app, !elem_of_cons; tauto|].
  split; [rewrite !elem_of_app, !elem_of_cons; tauto|].
  split; [rewrite !elem_of_app, !elem_of_cons; tauto|done].
Qed.

(** C5. In every [Verify]: a registration that fails makes [Verify] return
    that error with the test function not run; the test function runs only
    once every pending interaction is registered, and when it returns an
    error [Verify] returns it with no verification asked of the mock
    service; a failed verification is returned with no deletion asked; the
    deletion is asked only right after a successful verification, with the
    interaction list already empty, and its result is the result of
    [Verify]; so the list is empty after every [Verify] that returns nil,
    and, when the test function leaves the list alone, it is as it was after
    every [Verify] in which the verification did not succeed. And the
    result is the one the answers of the outside call for. With [s1] the
    session as [Setup(true)] leaves it, which has a server or [Verify]
    panics: the pending interactions are registered with the mock service
    of that server, in order, up to the first it refuses, and its refusal
    is the result; when it refuses none, the test function is run on the
    session and the outside so reached, and its error is the result; when
    it gives none, the mock service is asked to verify, and its error is
    the result; when it gives none, the list is emptied and the answer of
    the mock service to the deletion is the result. *)
Theorem Verify_sequencing (integrationTest : TestFn) (s : Session) :
  let '(r, s', evs) := Verify integrationTest s in
  (∀ m i e, EvAddInteraction m i (Some e) ∈ evs →
     r = Returned (Some e) ∧ ∀ err, EvTestFn err ∉ evs) ∧
  (∀ err, EvTestFn err ∈ evs → registered evs = Interactions (pact s)) ∧
  (∀ e, EvTestFn (Some e) ∈ evs →
     r = Returned (Some e) ∧ ∀ m err, EvVerify m err ∉ evs) ∧
  (∀ m e, EvVerify m (Some e) ∈ evs →
     r = Returned (Some e) ∧ ∀ m' err, EvDeleteInteractions m' err ∉ evs) ∧
  (∀ m err, EvDeleteInteractions m err ∈ evs →
     r = Returned err ∧ Interactions (pact s') = [] ∧
     ∃ pre, evs = pre ++ [EvVerify m None; EvDeleteInteractions m err]) ∧
  (r = Returned None →
     Interactions (pact s') = [] ∧ ∃ m, EvDeleteInteractions m None ∈ evs) ∧
  ((∀ p e, Interactions (integrationTest p e).1.2 = Interactions p) →
   (∀ m, EvVerify m None ∉ evs) →
   Interactions (pact s') = Interactions (pact s)) ∧
  let s1 := (Setup true s).1.2 in
  match Server (pact s1) with
  | None => ∃ msg, r = Panicked msg ∧ s' = s1
  | Some server =>
      let mockServer :=
        {| BaseURL := "http://" +:+ Host (pact s1) +:+ ":" +:+ pretty (types.Port server);
           MockService_Consumer := Consumer (pact s1);
           MockService_Provider := Provider (pact s1);
           MockService_PactFileWriteMode := "" |} in
      let reg := registration mockServer (Interactions (pact s)) (world s1) in
      registered evs = reg.1.1 ∧
      match reg.1.2 with
      | Some e =>
          r = Returned (Some e) ∧ s' = {| pact := pact s1; world := reg.2 |}
      | None =>
          let t := integrationTest (pact s1) reg.2 in
          EvTestFn t.1.1 ∈ evs ∧
          match t.1.1 with
          | Some e =>
              r = Returned (Some e) ∧ s' = {| pact := t.1.2; world := t.2 |}
          | None =>
              let v := MockService_Verify mockServer t.2 in
              EvVerify mockServer v.1 ∈ evs ∧
              match v.1 with
              | Some e =>
                  r = Returned (Some e) ∧ s' = {| pact := t.1.2; world := v.2 |}
              | None =>
                  let d := MockService_DeleteInteractions mockServer v.2 in
                  EvDeleteInteractions mockServer d.1 ∈ evs ∧
                  r = Returned d.1 ∧
                  s' = {| pact := set_Interactions [] t.1.2; world := d.2 |}
              end
          end
      end
  end.
Proof.
  pose proof (Verify_trace integrationTest s) as HT.
  pose proof (Verify_result integrationTest s) as HR.
  destruct (Verify integrationTest s) as [[r s'] evs]. cbn [fst snd] in HR.
  destruct HT as (H1 & H2 & H3 & H4 & H5 & H6 & H7).
  exact (conj H1 (conj H2 (conj H3 (conj H4 (conj H5 (conj H6 (conj H7 HR))))))).
Qed.

End Properties.
End dsl_spec.


Module bridge_spec.
Import dsl.

Section Properties.
Set Default Proof Using "Type".
Context {Obj Rest : Type}.
Variable Rest_zero : Rest.
Variable json_Unmarshal :
  string → types.Message Rest → types.Message Rest * option error.
Variable json_Marshal : Obj → string * option error.
Variable fmt_v_Obj : Obj → string.
Variable fmt_v_bytes : string → string.

(** [json.Valid], and what [json.Unmarshal] does with data that is not
    valid JSON: it checks the syntax of all of the data before it stores
    anything, so the destination is left as it was. *)
Variable json_Valid : string → bool.
Hypothesis json_Unmarshal_invalid :
  ∀ data m, json_Valid data = false → (json_Unmarshal data m).1 = m.

Abbreviation Handler := (@Handler Obj).
Abbreviation bridge :=
  (bridge Rest_zero json_Unmarshal json_Marshal fmt_v_Obj fmt_v_bytes).
Abbreviation respond :=
  (respond Rest_zero json_Unmarshal json_Marshal fmt_v_Obj fmt_v_bytes).
Abbreviation parsed_description := (parsed_description Rest_zero json_Unmarshal).

Ltac run_bridge :=
  unfold dsl.respond, dsl.bridge, on_w, fmt_Print, emit,
    mbind, Go_bind, go_bind, mret, Go_ret, go_ret; simpl.

(** The response to a request whose body was read. *)
Lemma respond_run (handlers : gmap string Handler) (r : http.Request) (body : string) :
  http.Body_ReadAll r = (body, None) →
  respond handlers r =
    match handlers !! parsed_description body with
    | None => written http.StatusNotFound ""
    | Some f =>
        match (f tt).2 with
        | Some _ => written http.StatusServiceUnavailable ""
        | None =>
            match (json_Marshal (f tt).1).2 with
            | Some _ => written http.StatusServiceUnavailable ""
            | None => written http.StatusOK (json_Marshal (f tt).1).1
            end
        end
    end.
Proof.
  intros Hread. unfold parsed_description. run_bridge. rewrite Hread.
  destruct (json_Unmarshal body (Message_zero Rest_zero)) as [message err]. simpl.
  destruct (handlers !! types.Message_Description message) as [f|]; [|done].
  destruct (f tt) as [res [e|]]; simpl; [done|].
  by destruct (json_Marshal res) as [out [e|]].
Qed.

(** C8. For a request whose body was read, with [d] the description of
    the message as [json.Unmarshal] left it: no handler under [d] gives
    status 404 and no body; a handler that returns an error gives 503 and
    no body; a result that does not marshal gives 503 and no body;
    otherwise the status is 200 and the body is the marshalled result. *)
Theorem bridge_status (handlers : gmap string Handler) (r : http.Request)
    (body : string) :
  http.Body_ReadAll r = (body, None) →
  let w := respond handlers r in
  (handlers !! parsed_description body = None →
   http.Status w = Some http.StatusNotFound ∧ http.Body w = "") ∧
  (∀ f res e,
     handlers !! parsed_description body = Some f → f tt = (res, Some e) →
     http.Status w = Some http.StatusServiceUnavailable ∧ http.Body w = "") ∧
  (∀ f res out e,
     handlers !! parsed_description body = Some f → f tt = (res, None) →
     json_Marshal res = (out, Some e) →
     http.Status w = Some http.StatusServiceUnavailable ∧ http.Body w = "") ∧
  (∀ f res out,
     handlers !! parsed_description body = Some f → f tt = (res, None) →
     json_Marshal res = (out, None) →
     http.Status w = Some http.StatusOK ∧ http.Body w = out).
Proof.
  intros Hread. cbv zeta. rewrite (respond_run _ _ _ Hread).
  split; [|split; [|split]].
  - intros Hl. by destruct (handlers !! _).
  - intros f res e Hl Hf. destruct (handlers !! _) as [f'|]; [|done].
    injection Hl as ->. by rewrite Hf.
  - intros f res out e Hl Hf Hm. destruct (handlers !! _) as [f'|]; [|done].
    injection Hl as ->. rewrite Hf. cbn [fst snd]. by rewrite Hm.
  - intros f res out Hl Hf Hm. destruct (handlers !! _) as [f'|]; [|done].
    injection Hl as ->. rewrite Hf. cbn [fst snd]. by rewrite Hm.
Qed.

(** C9. A body that was read but is not valid JSON leaves the message at
    its zero value, so the bridge looks up the empty description: the
    request is answered as every request whose message has the empty
    description is, with 404 when no handler is mapped to it, and never
    with 400; status 400 is the answer to a request whose body could not be
    read, and to no other. *)
Theorem bridge_invalid_json (handlers : gmap string Handler) (r : http.Request)
    (body : string) :
  http.Body_ReadAll r = (body, None) →
  json_Valid body = false →
  parsed_description body = "" ∧
  (∀ r' body',
     http.Body_ReadAll r' = (body', None) → parsed_description body' = "" →
     bridge handlers r http.NewRecorder = bridge handlers r' http.NewRecorder) ∧
  (handlers !! "" = None →
   http.Status (respond handlers r) = Some http.StatusNotFound ∧
   http.Body (respond handlers r) = "") ∧
  http.Status (respond handlers r) ≠ Some http.StatusBadRequest ∧
  (∀ r0, http.Status (respond handlers r0) = Some http.StatusBadRequest ↔
         is_Some (http.Body_ReadAll r0).2).
Proof using json_Unmarshal_invalid.
  intros Hread Hinvalid.
  assert (Hd : parsed_description body = "").
  { unfold parsed_description. by rewrite json_Unmarshal_invalid. }
  assert (H400 : ∀ r0 body0, http.Body_ReadAll r0 = (body0, None) →
                 http.Status (respond handlers r0) ≠ Some http.StatusBadRequest).
  { intros r0 body0 Hr0. rewrite (respond_run _ _ _ Hr0).
    destruct (handlers !! _) as [f|]; [|done].
    destruct (f tt).2; [done|]. by destruct (json_Marshal _).2. }
  split; [done|]. split; [|split; [|split]].
  - intros r' body' Hread' Hd'. unfold parsed_description in Hd, Hd'.
    unfold dsl.bridge. rewrite Hread, Hread'.
    destruct (json_Unmarshal body _) as [m e], (json_Unmarshal body' _) as [m' e'].
    cbn [fst] in Hd, Hd'. by rewrite Hd, Hd'.
  - intros Hnone. rewrite (respond_run _ _ _ Hread), Hd.
    by destruct (handlers !! "").
  - by apply (H400 r body).
  - intros r0. destruct (http.Body_ReadAll r0) as [body0 [e|]] eqn:Hr0.
    + split; [by eauto|]. intros _. run_bridge. by rewrite Hr0.
    + split; [|by intros [? ?]]. intros H. by apply (H400 r0 body0) in H.
Qed.

End Properties.
End bridge_spec.


(** ** The properties on the concrete daemon, session and bridge *)

Module daemon_witness.
Import daemon daemon_spec daemon_example.

(** A request with no contract location and no broker URL is rejected with
    nothing done but the log line. *)
Lemma VerifyProvider_validation_error_witness :
  VerifyProvider (Service0 := registry_Service) Validate json_Decode os_run
    request_empty reply0 d0 =
  (Returned (reply0, Some "PactURLs is mandatory"), d0,
   [EvLog "[DEBUG] daemon - verifying provider"]).
Proof.
  apply (VerifyProvider_validation_error (Service0 := registry_Service)
           Validate json_Decode os_run request_empty request_empty).
  reflexivity.
Defined.

(** A verifier that exits with status 1 and prints no JSON: the error names
    the exit status, stderr and stdout. *)
Lemma VerifyProvider_decoding_witness :
  ∃ text d' evs,
    VerifyProvider (Service0 := registry_Service) Validate json_Decode os_run
      request_ok reply0 d0 = (Returned (reply0, Some text), d', evs) ∧
    strings_Contains text "exit status 1" = true ∧
    strings_Contains text "connection refused" = true ∧
    strings_Contains text "Verifying a pact" = true.
Proof.
  refine (proj2 (VerifyProvider_decoding (Service0 := registry_Service)
                   Validate json_Decode os_run request_ok request_ok reply0 d0
                   "Verifying a pact" "connection refused" _ _ _ _ _ _)
            reply0 "invalid character" _); reflexivity.
Defined.

(** The same run makes all the calls, in order. *)
Lemma VerifyProvider_order_witness :
  (VerifyProvider (Service0 := registry_Service) Validate json_Decode os_run
     request_ok reply0 d0).2 =
  verifier_sequence ["billy-bobby.json"].
Proof.
  refine (proj2 (proj2 (VerifyProvider_order (Service0 := registry_Service)
                          Validate json_Decode os_run request_ok reply0 d0)) _ _ _ _);
    [|reflexivity..].
  apply list_elem_of_In. vm_compute. do 5 right. by left.
Defined.


(** Stopping process 7 twice: the first call reports status 0, the second
    status 1, and neither returns an error. *)
Example StopServer_twice :
  let request := {| types.Pid := 7; types.Port := 8080; types.Status := -1;
                    types.Args := [] |} in
  let first := StopServer (Service0 := registry_Service) request request d0 in
  let second := StopServer (Service0 := registry_Service) request request first.1.2 in
  first.1.1 = Returned (types.set_Status 0 request, None) ∧
  second.1.1 = Returned (types.set_Status 1 request, None).
Proof. by vm_compute. Qed.

End daemon_witness.


Module dsl_witness.
Import dsl dsl_spec bridge_spec dsl_example.

(** A [Verify] that succeeds leaves no interaction in the session; a refused
    interaction and a failing test are each the result of theirs. *)
Lemma Verify_sequencing_witness :
  ((Verify (World0 := world_example) passing_test s0).1.1 = Returned None ∧
   Interactions (pact (Verify (World0 := world_example) passing_test s0).1.2) = []) ∧
  (Verify (World0 := world_example) passing_test s_refused).1.1 =
    Returned (Some "500 Internal Server Error") ∧
  (Verify (World0 := world_example) failing_test s0).1.1 =
    Returned (Some "expected 200, got 500").
Proof.
  split; [|split].
  - assert (Hr : (Verify (World0 := world_example) passing_test s0).1.1 = Returned None)
      by (vm_compute; reflexivity).
    split; [exact Hr|].
    pose proof (Verify_sequencing (World0 := world_example) passing_test s0) as H.
    destruct (Verify (World0 := world_example) passing_test s0) as [[r s'] evs].
    destruct H as (_ & _ & _ & _ & _ & H & _). by apply H.
  - pose proof (Verify_sequencing (World0 := world_example) passing_test s_refused) as H.
    destruct (Verify (World0 := world_example) passing_test s_refused) as [[r s'] evs].
    destruct H as (_ & _ & _ & _ & _ & _ & _ & H). vm_compute in H.
    exact (proj1 (proj2 H)).
  - pose proof (Verify_sequencing (World0 := world_example) failing_test s0) as H.
    destruct (Verify (World0 := world_example) failing_test s0) as [[r s'] evs].
    destruct H as (_ & _ & _ & _ & _ & _ & _ & H). vm_compute in H.
    exact (proj1 (proj2 (proj2 H))).
Defined.

(** [Setup(true)] on a session with a running mock service keeps it. *)
Lemma Setup_reuses_server_witness :
  ∃ s' evs,
    Setup (World0 := world_example) true s_running = (Returned (pact s'), s', evs) ∧
    Server (pact s') = Some running ∧
    ∀ client args port, EvStartServer client args port ∉ evs.
Proof.
  destruct (Setup_reuses_server (World0 := world_example) true s_running)
    as (s' & evs & Hrun & Hkeep & _).
  exists s', evs. split; [exact Hrun|]. apply Hkeep. by exists running.
Defined.

(** With no port left in the range, [Setup(true)] still returns, and still
    asks for a mock service, on port 0. *)
Lemma Setup_never_fails_witness :
  ∃ s' evs,
    Setup (World0 := world_example) true s_range = (Returned (pact s'), s', evs) ∧
    ∃ client args, EvStartServer client args 0 ∈ evs.
Proof.
  destruct (Setup_never_fails (World0 := world_example) true s_range)
    as (s' & evs & Hrun & _ & _ & Hfail).
  exists s', evs. split; [exact Hrun|].
  apply Hfail; [by eexists|reflexivity..].
Defined.

(** The mapped description is answered with 200 and the payload of its
    handler. *)
Lemma bridge_status_witness :
  let w := respond tt json_Unmarshal json_Marshal id id functionMappings request_message in
  http.Status w = Some http.StatusOK ∧
  http.Body w = "{content: {text: Hello world!!}}".
Proof.
  refine (proj2 (proj2 (proj2
            (bridge_status tt json_Unmarshal json_Marshal id id functionMappings
               request_message "{description: a test message}" _)))
            (λ _, ("{content: {text: Hello world!!}}", None))
            "{content: {text: Hello world!!}}" "{content: {text: Hello world!!}}" _ _ _);
    reflexivity.
Defined.

(** A body that is no JSON is answered with 404. *)
Lemma bridge_invalid_json_witness :
  http.Status
    (respond tt json_Unmarshal json_Marshal id id functionMappings request_garbage) =
  Some http.StatusNotFound.
Proof.
  refine (proj1 (proj1 (proj2 (proj2
            (bridge_invalid_json tt json_Unmarshal json_Marshal id id json_Valid _
               functionMappings request_garbage "<html>" _ _))) _)).
  - intros data m H. unfold json_Unmarshal. by rewrite H.
  - reflexivity.
  - reflexivity.
  - reflexivity.
Defined.

(** A session whose only interaction is refused: [Verify] returns the error
    of the registration, and neither runs the test function nor asks for a
    verification. *)
Example Verify_registration_refused :
  let s := {| pact := set_Interactions ["bad"] createPact; world := 0%nat |} in
  let run := Verify (World0 := world_example) passing_test s in
  run.1.1 = Returned (Some "500 Internal Server Error") ∧
  Interactions (pact run.1.2) = ["bad"] ∧
  count (λ ev, match ev with
               | EvTestFn _ | EvVerify _ _ | EvDeleteInteractions _ _ => true
               | _ => false
               end) run.2 = 0%nat.
Proof. by vm_compute. Qed.

(** A body that cannot be read is answered with 400. *)
Example bridge_unreadable_body :
  http.Status
    (respond tt json_Unmarshal json_Marshal id id functionMappings
       {| http.Body_ReadAll := ("", Some "unexpected EOF") |}) =
  Some http.StatusBadRequest.
Proof. reflexivity. Qed.

End dsl_witness.

(** ** The daemon: the other operations, and the failures of the ones above *)

Module daemon_more_spec.
Import daemon daemon_more.

Section Properties.
Set Default Proof Using "Type".
Context {M Svc : Type} `{!Service M Svc} `{!ServiceRun M Svc}.
Variable Validate : types.VerifyRequest → types.VerifyRequest * option error.
Variable json_Decode :
  string → types.ProviderVerifierResponse → types.ProviderVerifierResponse * option error.
Variable os_run : exec.Cmd → exec.Run.
Variable net_Listen : string → string → option error.
Variable range_order : gmap Z (option exec.Cmd) → list (Z * option exec.Cmd).
Hypothesis range_order_perm : ∀ m, range_order m ≡ₚ map_to_list m.

Abbreviation Daemon := (@Daemon M).
Abbreviation VerifyProvider := (VerifyProvider Validate json_Decode os_run).
Abbreviation Shutdown := (Shutdown range_order).
Abbreviation StartDaemon := (StartDaemon net_Listen range_order).
Abbreviation ListServers := (ListServers range_order).
Abbreviation verifier_run := (verifier_run os_run).

Ltac run_go :=
  unfold go_lift, call_Start, call_Run,
    log_Println, call_NewService, call_Command, call_List, call_Stop,
    signalChan_send, signalChan_recv, emit, panic, deref,
    mbind, Go_bind, go_bind, mret, Go_ret, go_ret; simpl.

(** Closes a goal [e ∉ evs], or [e ∈ evs → _], when [e] is no element of
    the explicit list [evs]. *)
Ltac absent :=
  let H := fresh in
  intros H;
  repeat (apply elem_of_cons in H as [H|H]; [discriminate H|]);
  by apply elem_of_nil in H.

Lemma others_kept_set_manager (m : Manager) (v : M) (d : Daemon) :
  others_kept m d (set_manager m v d).
Proof. split; [|by destruct m]. intros m' Hne. by destruct m, m'. Qed.


(** X1. When the command [Start] gives is a started one, [StartServer]
    replies with its process id, status -1, port 0 and no arguments, and a
    nil error: of the request only [Args] is used, and the port is not
    reported. Only the mock-service manager is dealt with. *)
Theorem StartServer_reply (request reply : types.MockServer) (d : Daemon)
    (c : exec.Cmd) (p : os.Process) :
  let created := NewService (types.Args request) (pactMockSvcManager d) in
  (Start created.1 created.2).1 = Some c →
  exec.Process c = Some p →
  ∃ d' evs,
    StartServer request reply d =
      (Returned ({| types.Pid := os.Pid p; types.Port := 0; types.Status := -1;
                    types.Args := [] |}, None), d', evs) ∧
    others_kept MockSvc d d'.
Proof.
  clear dependent range_order. clear Validate json_Decode os_run net_Listen.
  cbv zeta. unfold StartServer. run_go.
  destruct (NewService _ _) as [svc v1]. simpl.
  destruct (Start svc v1) as [cmd v2]. simpl. intros -> Hp. simpl. rewrite Hp. simpl.
  do 2 eexists. split; [reflexivity|]. by split; [intros [] ?|].
Qed.

(** X2. [StartServer] has no error to return: it returns, with a nil error,
    exactly when [Start] gives a started command, and panics otherwise, with
    the service already made and [Start] already called. *)
Theorem StartServer_never_errors (request reply : types.MockServer) (d : Daemon) :
  let created := NewService (types.Args request) (pactMockSvcManager d) in
  let cmd := (Start created.1 created.2).1 in
  match (StartServer request reply d).1.1 with
  | Returned (_, err) => err = None ∧ running cmd = true
  | Panicked _ =>
      running cmd = false ∧
      EvSvcStart MockSvc ∈ (StartServer request reply d).2
  | Blocked => False
  end.
Proof.
  clear dependent range_order. clear Validate json_Decode os_run net_Listen.
  cbv zeta. unfold StartServer. run_go.
  destruct (NewService _ _) as [svc v1]. simpl.
  destruct (Start svc v1) as [[[path args [p|]]|] v2]; simpl.
  - done.
  - split; [done|]. rewrite !elem_of_cons. tauto.
  - split; [done|]. rewrite !elem_of_cons. tauto.
Qed.

(** X3. [CreateMessage] does not look at its request: the service is made
    with no arguments, whatever the message. The error of [Run] is returned
    as the error of the RPC and its text is the [Error] of the reply, which
    is empty when [Run] succeeds. Only the message manager is dealt with. *)
Theorem CreateMessage_ignores_request {Rest : Type}
    (request : types_rpc.PactMessageRequest Rest) (reply : types_rpc.CommandResponse)
    (d : Daemon) :
  let created := NewService [] (messageSvcManager d) in
  let err := (Run created.1 created.2).1 in
  (∃ d' evs,
     CreateMessage request reply d =
       (Returned ({| types_rpc.Error := default "" err |}, err), d', evs) ∧
     others_kept MessageSvc d d' ∧
     Ev (EvNewService MessageSvc []) ∈ evs) ∧
  (∀ (request' : types_rpc.PactMessageRequest Rest) reply',
     CreateMessage request' reply' d = CreateMessage request reply d).
Proof.
  clear dependent range_order. clear Validate json_Decode os_run net_Listen.
  cbv zeta. unfold CreateMessage. run_go.
  destruct (NewService _ _) as [svc v1]. simpl.
  destruct (Run svc v1) as [[e|] v2]; simpl.
  all: split; [|done]; do 2 eexists; split; [reflexivity|].
  all: split; [by split; [intros [] ?|]|]; rewrite !elem_of_cons; tauto.
Qed.

(** The loop of [ListServers]: it gives the servers of the entries, in
    order, when every entry holds a started command, and panics otherwise;
    it does nothing to the daemon. *)
Lemma ListServers_range_run (entries : list (Z * option exec.Cmd))
    (servers : list types.MockServer) (d : Daemon) :
  ListServers_range entries servers d =
    if forallb (λ e, running e.2) entries
    then (Returned (servers ++ omap listed_server entries), d, [])
    else (Panicked "invalid memory address or nil pointer dereference", d, []).
Proof.
  revert servers. induction entries as [|[port s] entries IH]; intros servers.
  - simpl. by rewrite app_nil_r.
  - destruct s as [[path args [p|]]|]; [|done..].
    cbn [ListServers_range forallb running snd exec.Process].
    run_go. rewrite IH.
    destruct (forallb _ entries); [|done].
    rewrite ?bool_decide_true by eauto. simpl. by rewrite <- app_assoc.
Qed.

Lemma running_servers (entries : list (Z * option exec.Cmd)) :
  forallb (λ e, running e.2) entries = true →
  types.Port <$> omap listed_server entries = entries.*1.
Proof.
  induction entries as [|[port s] entries IH]; [done|].
  destruct s as [[path args [p|]]|]; [|done..].
  cbn [forallb running snd exec.Process]. rewrite ?bool_decide_true by eauto.
  intros Hrest. specialize (IH Hrest).
  change (port :: (types.Port <$> omap listed_server entries) = port :: entries.*1).
  by rewrite IH.
Qed.

Lemma forallb_running (m : gmap Z (option exec.Cmd)) :
  forallb (λ e, running e.2) (range_order m) = true ↔
  map_Forall (λ _ s, running s = true) m.
Proof using range_order_perm.
  rewrite forallb_forall. split.
  - intros Hall port s Hm. apply (Hall (port, s)).
    apply list_elem_of_In. rewrite range_order_perm. by apply elem_of_map_to_list.
  - intros Hall [port s] Hin. apply list_elem_of_In in Hin.
    rewrite range_order_perm in Hin. apply elem_of_map_to_list in Hin.
    by apply (Hall port s).
Qed.

(** X4. When every entry of the mock-service manager's listing holds a
    started command, [ListServers] returns a nil error and one server for
    each entry and no other: the port is the key of the entry, the process
    id that of its command; no port is reported twice; the daemon is left as
    it was. *)
Theorem ListServers_lists_all (request : types.MockServer)
    (reply : types_rpc.PactListResponse) (d : Daemon) :
  map_Forall (λ _ s, running s = true) (List (pactMockSvcManager d)) →
  ∃ servers evs,
    ListServers request reply d =
      (Returned ({| types_rpc.Servers := servers |}, None), d, evs) ∧
    length servers = size (List (pactMockSvcManager d)) ∧
    NoDup (types.Port <$> servers) ∧
    (∀ srv, srv ∈ servers ↔
       ∃ port c p,
         List (pactMockSvcManager d) !! port = Some (Some c) ∧
         exec.Process c = Some p ∧
         srv = {| types.Pid := os.Pid p; types.Port := port; types.Status := 0;
                  types.Args := [] |}).
Proof using range_order_perm.
  intros Hall. apply forallb_running in Hall.
  unfold daemon_more.ListServers. run_go. rewrite ListServers_range_run, Hall. simpl.
  do 2 eexists. split; [reflexivity|].
  pose proof (running_servers _ Hall) as Hports.
  split; [|split].
  - rewrite <- (length_fmap types.Port), Hports, length_fmap, range_order_perm.
    apply length_map_to_list.
  - rewrite Hports, range_order_perm. apply NoDup_fst_map_to_list.
  - intros srv. rewrite list_elem_of_omap. split.
    + intros ([port s] & Hin & Hsrv).
      rewrite range_order_perm in Hin. apply elem_of_map_to_list in Hin.
      unfold listed_server in Hsrv. simpl in Hsrv.
      destruct s as [c|]; [|done]. simpl in Hsrv.
      destruct (exec.Process c) as [p|] eqn:Hp; [|done]. simpl in Hsrv.
      injection Hsrv as <-. by exists port, c, p.
    + intros (port & c & p & Hm & Hp & ->). exists (port, Some c). split.
      * rewrite range_order_perm. by apply elem_of_map_to_list.
      * unfold listed_server. simpl. by rewrite Hp.
Qed.

(** X5. An entry of the mock-service manager's listing that holds no
    command, or a command that was not started, makes [ListServers] panic:
    no reply is given, not even for the other entries. *)
Theorem ListServers_panics (request : types.MockServer)
    (reply : types_rpc.PactListResponse) (d : Daemon) (port : Z)
    (s : option exec.Cmd) :
  List (pactMockSvcManager d) !! port = Some s →
  running s = false →
  ∃ msg,
    ListServers request reply d =
      (Panicked msg, d,
       [EvLog "[DEBUG] daemon - listing mock servers"; EvList MockSvc]).
Proof using range_order_perm.
  intros Hm Hs.
  assert (Hall : forallb (λ e, running e.2)
                   (range_order (List (pactMockSvcManager d))) = false).
  { apply not_true_is_false. intros Hall. apply forallb_running in Hall.
    rewrite (Hall port s Hm) in Hs. done. }
  unfold daemon_more.ListServers. run_go. rewrite ListServers_range_run, Hall.
  by eexists.
Qed.

(** The loop of [Shutdown] on any listing: it stops the commands of the
    entries before the first that holds a command not started, where it
    panics. *)
Lemma Shutdown_range_any (entries : list (Z * option exec.Cmd)) (d : Daemon) :
  ∃ v,
    Shutdown_range entries d =
      (if forallb (λ e, started e.2) entries
       then Returned tt
       else Panicked "invalid memory address or nil pointer dereference",
       set_manager MockSvc v d,
       EvStop MockSvc <$> listed_pids (until_unstarted entries)).
Proof.
  revert d. induction entries as [|[port s] entries IH]; intros d.
  - exists (pactMockSvcManager d). by destruct d.
  - destruct s as [[path args [[pid]|]]|].
    + cbn [Shutdown_range until_unstarted forallb started snd exec.Process].
      rewrite ?bool_decide_true by eauto. run_go.
      destruct (Stop pid (pactMockSvcManager d)) as [r v].
      destruct (IH (set_manager MockSvc v d)) as [w Hw].
      exists w. simpl in Hw. rewrite Hw. by destruct (forallb _ entries).
    + exists (pactMockSvcManager d). by destruct d.
    + destruct (IH d) as [w Hw]. exists w. exact Hw.
Qed.

(** X6. On every listing of the verification manager, [Shutdown] deals
    with the mock-service manager only: the other two managers and the
    signal channel are left as they were. It returns exactly when every
    command listed was started; at the first one that was not, it panics,
    having stopped only the commands visited before it. *)
Theorem Shutdown_any_listing (d : Daemon) :
  let entries := range_order (List (verificationSvcManager d)) in
  others_kept MockSvc d (Shutdown d).1.2 ∧
  (Shutdown d).2 =
    EvLog "[DEBUG] daemon - shutdown" :: EvList VerificationSvc ::
    (EvStop MockSvc <$> listed_pids (until_unstarted entries)) ∧
  ((Shutdown d).1.1 = Returned tt ↔ Forall (λ e, started e.2 = true) entries) ∧
  ((Shutdown d).1.1 ≠ Returned tt → ∃ msg, (Shutdown d).1.1 = Panicked msg).
Proof.
  clear Validate json_Decode os_run net_Listen.
  cbv zeta. unfold daemon.Shutdown. run_go.
  destruct (Shutdown_range_any (range_order (List (verificationSvcManager d))) d)
    as [v Hv].
  rewrite Hv. simpl.
  split; [by split; [intros [] ?|]|]. split; [done|].
  assert (Hiff : ∀ entries : list (Z * option exec.Cmd),
            forallb (λ e, started e.2) entries = true ↔
            Forall (λ e, started e.2 = true) entries).
  { intros entries. rewrite forallb_forall, Forall_forall.
    split; intros H x Hx; apply H; by apply list_elem_of_In. }
  rewrite <- Hiff.
  destruct (forallb _ _); split; try done. intros _. by eexists.
Qed.

(** X7. A validated request whose process cannot be launched: the first of
    attaching stdout, attaching stderr and starting that fails gives its
    error as the error of [VerifyProvider], as it is; the reply is
    untouched, no stream is read, and a failure to attach a pipe means the
    process is never started. *)
Theorem VerifyProvider_launch_error (request request' : types.VerifyRequest)
    (reply : types.ProviderVerifierResponse) (d : Daemon) (e : error) :
  Validate request = (request', None) →
  let run := verifier_run request' d in
  let result := VerifyProvider request reply d in
  ((exec.StdoutPipe_err run = Some e ∨
    exec.StdoutPipe_err run = None ∧ exec.StderrPipe_err run = Some e) →
   result.1.1 = Returned (reply, Some e) ∧ EvStart ∉ result.2) ∧
  (exec.StdoutPipe_err run = None → exec.StderrPipe_err run = None →
   exec.Start_err run = Some e →
   result.1.1 = Returned (reply, Some e) ∧
   ∀ stream, EvReadAll stream ∉ result.2).
Proof.
  clear net_Listen range_order range_order_perm.
  intros HV. cbv zeta. unfold daemon.verifier_run, daemon.VerifyProvider.
  rewrite HV. run_go. destruct (NewService _ _) as [svc v]. simpl. split.
  - intros [H1|[H1 H2]]; rewrite H1; simpl; [|rewrite H2; simpl].
    all: split; [done|]; absent.
  - intros -> -> ->. simpl. split; [done|].
    intros stream. absent.
Qed.

(** X8. A validated request whose process started, but one of whose streams
    cannot be read to its end: the read error is the error of
    [VerifyProvider], as it is and with no output in it; the reply is
    untouched; and the process is not waited on. This is so for stderr even
    when stdout, already read, holds a result that decodes. *)
Theorem VerifyProvider_read_error (request request' : types.VerifyRequest)
    (reply : types.ProviderVerifierResponse) (d : Daemon) (e : error) :
  Validate request = (request', None) →
  let run := verifier_run request' d in
  let result := VerifyProvider request reply d in
  exec.StdoutPipe_err run = None → exec.StderrPipe_err run = None →
  exec.Start_err run = None →
  ((exec.Stdout_ReadAll run).2 = Some e ∨
   (exec.Stdout_ReadAll run).2 = None ∧ (exec.Stderr_ReadAll run).2 = Some e) →
  result.1.1 = Returned (reply, Some e) ∧
  (EvStart ∈ result.2) ∧ (EvWait ∉ result.2) ∧ (EvDecode ∉ result.2).
Proof.
  clear net_Listen range_order range_order_perm.
  intros HV. cbv zeta. unfold daemon.verifier_run, daemon.VerifyProvider.
  rewrite HV. run_go. destruct (NewService _ _) as [svc v]. simpl.
  intros -> -> ->. simpl.
  destruct (exec.Stdout_ReadAll _) as [stdOut err1],
    (exec.Stderr_ReadAll _) as [stdErr err2]. simpl.
  intros [->|[-> ->]]; simpl.
  all: split; [done|]; split; [rewrite !elem_of_cons; tauto|]; split; absent.
Qed.



(** X10. [StartDaemon] stops services only once it has taken a signal: when
    it cannot listen it panics with the listen error, and while no signal is
    in the channel it waits; in both cases no manager is asked to stop
    anything and the daemon is left as it was. *)
Theorem StartDaemon_needs_signal (port : Z) (network address : string) (d : Daemon) :
  let result := StartDaemon port network address d in
  (∀ err, net_Listen network (address +:+ ":" +:+ pretty port) = Some err →
     result.1.1 = Panicked err ∧ result.1.2 = d ∧ EvServe ∉ result.2) ∧
  (net_Listen network (address +:+ ":" +:+ pretty port) = None →
   signalChan d = [] →
     result.1.1 = Blocked ∧ result.1.2 = d ∧ EvNotify ∈ result.2) ∧
  (∀ m pid, EvStop m pid ∈ result.2 →
     net_Listen network (address +:+ ":" +:+ pretty port) = None ∧
     signalChan d ≠ []).
Proof.
  clear Validate json_Decode os_run range_order_perm.
  cbv zeta. unfold daemon.StartDaemon. run_go.
  destruct (net_Listen _ _) as [err|]; simpl.
  { split; [|split].
    - intros ? [= <-]. split; [done|]. split; [done|].
      absent.
    - done.
    - intros m pid. absent. }
  destruct (signalChan d) as [|sig rest] eqn:Hchan; simpl.
  { split; [done|]. split.
    - intros _ _. split; [done|]. split; [done|]. rewrite !elem_of_cons. tauto.
    - intros m pid. absent. }
  split; [done|]. split; [done|]. done.
Qed.

(** X11. On a new daemon, the first [StopDaemon] returns at once with a nil
    error and leaves an interrupt in the channel; a second one, before
    [StartDaemon] has taken the first, does not return; and [StartDaemon],
    once it listens, takes that interrupt and goes on to shut down, leaving
    the channel empty. *)
Theorem StopDaemon_then_StartDaemon (mock verification message : M)
    (request reply : string) (port : Z) (network address : string) :
  let d := NewDaemon mock verification message in
  let d1 := set_signalChan [os.Interrupt] d in
  StopDaemon request reply d =
    (Returned (reply, None), d1,
     [EvLog "[DEBUG] daemon - stop daemon"; EvSend os.Interrupt]) ∧
  StopDaemon request reply d1 =
    (Blocked, d1, [EvLog "[DEBUG] daemon - stop daemon"]) ∧
  (net_Listen network (address +:+ ":" +:+ pretty port) = None →
   EvRecv os.Interrupt ∈ (StartDaemon port network address d1).2 ∧
   EvList VerificationSvc ∈ (StartDaemon port network address d1).2 ∧
   signalChan (StartDaemon port network address d1).1.2 = []).
Proof.
  clear Validate json_Decode os_run range_order_perm.
  cbv zeta. split; [done|]. split; [done|].
  intros HL. unfold daemon.StartDaemon, daemon.Shutdown. rewrite HL. run_go.
  match goal with |- context [Shutdown_range ?es ?d0] =>
    destruct (Shutdown_range_any es d0) as [v Hv] end.
  rewrite Hv.
  simpl. split; [|split; [|done]]; rewrite !elem_of_cons; tauto.
Qed.

End Properties.
End daemon_more_spec.

(** ** The session: the other methods *)

Module dsl_more_spec.
Import dsl dsl_spec dsl_more.

Section Properties.
Set Default Proof Using "Type".
Context {Interaction E Rest : Type} `{!World (Interaction := Interaction) E}
  `{!Outside (Interaction := Interaction) (E := E) (Rest := Rest)}.

Abbreviation Pact := (@Pact Interaction).
Abbreviation Session := (@Session Interaction E).
Abbreviation Event := (@Event Interaction).
Abbreviation Event2 := (@Event2 Interaction Rest).
Abbreviation G2 := (@G2 Interaction E Rest).

#[local] Arguments pretty : simpl never.

Ltac run2 :=
  unfold log2, get_pact2, modify_pact2, call_outside, call_handler, go_lift, go_defer,
    log_Println, get_pact, modify_pact, emit, panic, deref,
    mbind, Go_bind, go_bind, mret, Go_ret, go_ret; simpl.

Lemma bind2_Returned {A B} (m : G2 A) (k : A → G2 B) (s s1 : Session) (a : A)
    (evs : list Event2) :
  m s = (Returned a, s1, evs) →
  (m ≫= k) s = match k a s1 with (r, s2, e2) => (r, s2, evs ++ e2) end.
Proof. unfold mbind, Go_bind, go_bind. by intros ->. Qed.

Lemma count2_app (test : Event2 → bool) (l1 l2 : list Event2) :
  count2 test (l1 ++ l2) = (count2 test l1 + count2 test l2)%nat.
Proof. unfold count2. by rewrite List.filter_app, length_app. Qed.

Lemma count2_Base (test : Event2 → bool) (evs : list Event) :
  count2 test (Base <$> evs) = count (λ ev, test (Base ev)) evs.
Proof.
  unfold count2, count. induction evs as [|ev evs IH]; [done|].
  rewrite fmap_cons. cbn [List.filter].
  destruct (test (Base ev)); cbn [length]; by rewrite IH.
Qed.

Lemma count2_0_not_elem (test : Event2 → bool) (evs : list Event2) (ev : Event2) :
  count2 test evs = 0%nat → test ev = true → ev ∉ evs.
Proof.
  unfold count2. intros Hc Ht Hin. apply list_elem_of_In in Hin.
  assert (Hf : List.In ev (List.filter test evs)) by (apply List.filter_In; done).
  destruct (List.filter test evs); [done|discriminate].
Qed.

Lemma count_false (test : Event → bool) (evs : list Event) :
  (∀ ev, ev ∈ evs → test ev = false) → count test evs = 0%nat.
Proof.
  unfold count. induction evs as [|ev evs IH]; [done|]. intros Hall. simpl.
  rewrite (Hall ev) by apply list_elem_of_here.
  apply IH. intros ev' Hin. apply Hall. by apply list_elem_of_further.
Qed.

Lemma after_logging_names (p : Pact) : names (after_logging p) = names p.
Proof.
  unfold after_logging. destruct (logFilter p); [done|].
  by destruct (decide (LogLevel p = "")).
Qed.

Lemma with_defaults_names (dir : string) (p : Pact) : names (with_defaults dir p) = names p.
Proof.
  unfold with_defaults.
  transitivity (names (default_Network p));
    [|by unfold default_Network; destruct (decide _)].
  generalize (default_Network p). clear p. intros p.
  transitivity (names (default_Host p));
    [|by unfold default_Host; destruct (decide _)].
  generalize (default_Host p). clear p. intros p.
  transitivity (names (default_LogDir dir p));
    [|by unfold default_LogDir; destruct (decide _)].
  generalize (default_LogDir dir p). clear p. intros p.
  transitivity (names (default_PactDir dir p));
    [|by unfold default_PactDir; destruct (decide _)].
  generalize (default_PactDir dir p). clear p. intros p.
  transitivity (names (default_SpecificationVersion p));
    [|by unfold default_SpecificationVersion; destruct (decide _)].
  generalize (default_SpecificationVersion p). clear p. intros p.
  unfold default_pactClient. by destruct (pactClient p).
Qed.

(** What the methods below need of a [Setup]. *)
Lemma Setup_kept (startMockServer : bool) (s : Session) :
  ∃ s1 evs1,
    Setup startMockServer s = (Returned (pact s1), s1, evs1) ∧
    (count is_StartServer evs1 ≤ 1)%nat ∧
    (launches startMockServer (pact s) = false →
     count is_StartServer evs1 = 0%nat ∧ Server (pact s1) = Server (pact s)) ∧
    Interactions (pact s1) = Interactions (pact s) ∧
    names (pact s1) = names (pact s) ∧
    is_Some (pactClient (pact s1)).
Proof.
  destruct (Setup_run startMockServer s) as (client & Hc & Hrun). cbv zeta in Hrun.
  destruct (configured_kept (os_Getwd (world s)) (pact s)) as (HS & HI & HA).
  pose proof (with_defaults_names (os_Getwd (world s)) (after_logging (pact s))) as HN.
  rewrite after_logging_names in HN.
  set (p1 := with_defaults (os_Getwd (world s)) (after_logging (pact s))) in *.
  assert (Hl : launches startMockServer p1 = launches startMockServer (pact s)).
  { unfold launches. by rewrite HS. }
  destruct (probing_events_counts (pact s) p1 (probe p1 (world s)).1)
    as (_ & H0 & _).
  rewrite Hl in Hrun.
  destruct (launches startMockServer (pact s)) eqn:Hlaunch.
  - eexists {| pact := _; world := _ |}, _. split; [exact Hrun|].
    cbn [pact]. split; [|split; [done|]].
    + rewrite count_app, H0. unfold count. simpl. lia.
    + split; [done|]. split; [done|]. simpl. by eauto.
  - eexists {| pact := _; world := _ |}, _. split; [exact Hrun|].
    cbn [pact]. rewrite H0. split; [lia|]. split; [done|]. split; [done|].
    split; [done|]. by eauto.
Qed.

Lemma Setup_facts (startMockServer : bool) (s : Session) :
  ∃ s1 evs1,
    Setup startMockServer s = (Returned (pact s1), s1, evs1) ∧
    (count is_StartServer evs1 ≤ 1)%nat ∧
    (launches startMockServer (pact s) = false →
     count is_StartServer evs1 = 0%nat ∧ Server (pact s1) = Server (pact s)) ∧
    Interactions (pact s1) = Interactions (pact s) ∧
    names (pact s1) = names (pact s) ∧
    is_Some (pactClient (pact s1)) ∧
    Forall (λ ev, from_Setup ev = true) evs1.
Proof.
  destruct (Setup_kept startMockServer s) as (s1 & evs1 & HS & H1 & H2 & H3 & H4 & H5).
  destruct (Setup_events startMockServer s) as (s1' & evs1' & HS' & HF & _).
  assert (evs1' = evs1) as -> by congruence.
  by exists s1, evs1.
Qed.

Lemma lift_Setup (startMockServer : bool) (s s1 : Session) (evs1 : list Event) :
  Setup startMockServer s = (Returned (pact s1), s1, evs1) →
  (go_lift Base (Setup startMockServer) : G2 Pact) s =
    (Returned (pact s1), s1, Base <$> evs1).
Proof. unfold go_lift. by intros ->. Qed.

Lemma launches_Some (startMockServer : bool) (p : Pact) :
  is_Some (Server p) → launches startMockServer p = false.
Proof. intros [srv Hsrv]. unfold launches. by rewrite Hsrv. Qed.

Lemma launches_false (p : Pact) : launches false p = false.
Proof. unfold launches. by destruct (Server p). Qed.


Ltac trace_in H :=
  repeat first
    [ apply elem_of_app in H as [H|H]
    | apply elem_of_cons in H as [H|H]
    | apply elem_of_nil in H; destruct H ].

Ltac absurd_in H HF1 HF2 :=
  trace_in H; try discriminate H;
  try (by apply (Forall_false_not_elem _ _ _ HF1) in H);
  try (by apply (Forall_false_not_elem _ _ _ HF2) in H).

(** A [Verify] that runs the test has registered the interactions of the
    session. *)
Lemma Verify_registers (integrationTest : TestFn) (s : Session) (err : option error) :
  EvTestFn err ∈ (Verify integrationTest s).2 →
  registered (Verify integrationTest s).2 = Interactions (pact s).
Proof.
  destruct (Verify_cases integrationTest s) as (s1 & evs1 & HF1 & HI & Hcase).
  destruct (Server (pact s1)) as [server|].
  2:{ destruct Hcase as [msg ->]. cbn [snd]. intros Hin. exfalso.
      trace_in Hin; try discriminate Hin.
      by apply (Forall_false_not_elem _ _ _ HF1) in Hin. }
  destruct Hcase as (ms & r & e2 & evs2 & HF2 & He & Hr & Hrun). cbv zeta in Hrun.
  rewrite Hrun. clear Hrun.
  assert (Hreg : ∀ tail, registered tail = [] → r = None →
            registered ((evs1 ++ EvLog "[DEBUG] pact verify" :: evs2) ++ tail) =
            Interactions (pact s)).
  { intros tail Htail Hnone. rewrite !registered_app, (registered_from_Setup _ HF1), Htail.
    change (registered (EvLog "[DEBUG] pact verify" :: evs2)) with (registered evs2).
    rewrite (Hr Hnone). by rewrite app_nil_r. }
  destruct r as [e|].
  { cbn [snd]. intros Hin. exfalso. absurd_in Hin HF1 HF2. }
  destruct (integrationTest (pact s1) e2) as [[[e|] p2] e3]; cbn [fst snd].
  { intros _. by apply Hreg. }
  destruct (MockService_Verify ms e3) as [[e|] e4]; cbn [fst snd]; intros _; by apply Hreg.
Qed.

Lemma launch_count (evs1 : list Event) :
  count2 is_launch ((Base <$> evs1) : list Event2) = count is_StartServer evs1.
Proof. by rewrite count2_Base. Qed.

(** What [AddInteraction] does, given what its [Setup] did. *)
Lemma AddInteraction_run (s s1 : Session) (evs1 : list Event) :
  Setup true s = (Returned (pact s1), s1, evs1) →
  let r := new_Interaction (world s1) in
  AddInteraction s =
    (Returned r.1,
     {| pact := set_Interactions (Interactions (pact s1) ++ [r.1]) (pact s1);
        world := r.2 |},
     (Base <$> evs1) ++ [Base (EvLog "[DEBUG] pact add interaction"); EvNew r.1]).
Proof.
  intros HS. cbv zeta. unfold AddInteraction.
  rewrite (bind2_Returned _ _ _ _ _ _ (lift_Setup _ _ _ _ HS)).
  run2. by destruct (new_Interaction (world s1)) as [i e].
Qed.

(** X12. [AddInteraction] returns: its result is a new interaction, which
    it has put at the end of the session's list, behind those that were
    there, in their order. It launches at most one mock service, and none
    where the session has one, which it keeps. *)
Theorem AddInteraction_appends (s : Session) :
  ∃ i s' evs,
    AddInteraction s = (Returned i, s', evs) ∧
    Interactions (pact s') = Interactions (pact s) ++ [i] ∧
    EvNew i ∈ evs ∧
    (count2 is_launch evs ≤ 1)%nat ∧
    (is_Some (Server (pact s)) →
     Server (pact s') = Server (pact s) ∧ count2 is_launch evs = 0%nat).
Proof.
  destruct (Setup_facts true s) as (s1 & evs1 & HS & Hle & Hno & HI & _).
  eexists _, _, _. split; [exact (AddInteraction_run _ _ _ HS)|].
  cbn [pact]. rewrite count2_app, launch_count.
  split; [by rewrite <- HI; destruct (pact s1)|].
  split; [rewrite elem_of_app, !elem_of_cons; tauto|].
  split; [unfold count2; simpl; lia|].
  intros Hsrv. destruct (Hno (launches_Some _ _ Hsrv)) as [H0 Hkeep].
  split; [by rewrite <- Hkeep; destruct (pact s1)|].
  rewrite H0. by unfold count2.
Qed.

(** X13. An interaction added to a session is registered by the next
    [Verify]: where that [Verify] runs the test, it has registered the
    interactions the session had, in their order, and then the added
    one. *)
Theorem AddInteraction_then_Verify (integrationTest : TestFn) (s : Session) :
  ∃ i s' evs,
    AddInteraction s = (Returned i, s', evs) ∧
    ∀ err, EvTestFn err ∈ (Verify integrationTest s').2 →
      registered (Verify integrationTest s').2 = Interactions (pact s) ++ [i].
Proof.
  destruct (Setup_facts true s) as (s1 & evs1 & HS & Hle & Hno & HI & _).
  eexists _, _, _. split; [exact (AddInteraction_run _ _ _ HS)|].
  intros err Hin.
  match goal with |- registered (Verify _ ?s').2 = _ => set (s2 := s') in * end.
  assert (HI2 : Interactions (pact s2) = Interactions (pact s) ++ [(new_Interaction (world s1)).1]).
  { subst s2. cbn [pact]. rewrite <- HI. by destruct (pact s1). }
  rewrite <- HI2. clearbody s2.
  exact (Verify_registers integrationTest s2 err Hin).
Qed.


(** What [Teardown] does. *)
Lemma Teardown_run (s : Session) :
  Teardown s =
    match Server (pact s) with
    | None => (Returned (pact s), s, [Base (EvLog "[DEBUG] teardown")])
    | Some server =>
        let r := PactClient_StopServer (pactClient (pact s)) server (world s) in
        (Returned (set_Server r.1 (pact s)),
         {| pact := set_Server r.1 (pact s); world := r.2 |},
         [Base (EvLog "[DEBUG] teardown");
          EvStopServer (pactClient (pact s)) server r.1])
    end.
Proof.
  unfold Teardown. destruct s as [p e]. run2.
  destruct (Server p) as [server|]; run2; [|done].
  by destruct (PactClient_StopServer (pactClient p) server e) as [res e1].
Qed.

(** X14. [Teardown] on a session without a mock service asks nothing of the
    daemon and leaves the session as it is. On a session with one it asks
    the daemon to stop that service, and nothing else, and makes the
    daemon's answer the service of the session, whatever it is; the rest
    of the session is kept. *)
Theorem Teardown_replaces_server (s : Session) :
  ∃ s' evs,
    Teardown s = (Returned (pact s'), s', evs) ∧
    Interactions (pact s') = Interactions (pact s) ∧
    names (pact s') = names (pact s) ∧
    match Server (pact s) with
    | None => s' = s ∧ ∀ c srv res, EvStopServer c srv res ∉ evs
    | Some server =>
        let r := PactClient_StopServer (pactClient (pact s)) server (world s) in
        Server (pact s') = r.1 ∧ world s' = r.2 ∧
        EvStopServer (pactClient (pact s)) server r.1 ∈ evs ∧
        ∀ c srv res, EvStopServer c srv res ∈ evs →
          c = pactClient (pact s) ∧ srv = server ∧ res = r.1
    end.
Proof.
  rewrite Teardown_run. destruct (Server (pact s)) as [server|] eqn:Hsrv.
  - eexists {| pact := _; world := _ |}, _. split; [reflexivity|]. cbn [pact world].
    split; [by destruct (pact s)|]. split; [by destruct (pact s)|].
    split; [by destruct (pact s)|]. split; [done|].
    split; [rewrite !elem_of_cons; tauto|].
    intros c srv res Hin. trace_in Hin; try discriminate Hin. by injection Hin as -> -> ->.
  - exists s, [Base (EvLog "[DEBUG] teardown")]. split; [done|]. split; [done|].
    split; [done|]. split; [done|].
    intros c srv res Hin. trace_in Hin. discriminate Hin.
Qed.

(** X15. The session after a [Teardown] and the next call that sets it up
    for a mock service ([AddInteraction], [Verify] and [WritePact] do):
    where the daemon's answer to the stop request was a server, no new
    mock service is launched and that server stays the session's; where
    it was nil, one mock service is launched. *)
Theorem Teardown_then_Setup (s : Session) (server : types.MockServer) :
  Server (pact s) = Some server →
  let r := PactClient_StopServer (pactClient (pact s)) server (world s) in
  ∃ s1 evs1 s2 evs2,
    Teardown s = (Returned (pact s1), s1, evs1) ∧
    Setup true s1 = (Returned (pact s2), s2, evs2) ∧
    match r.1 with
    | Some stopped =>
        count is_StartServer evs2 = 0%nat ∧ Server (pact s2) = Some stopped
    | None => count is_StartServer evs2 = 1%nat
    end.
Proof.
  intros Hsrv r. pose proof (Teardown_run s) as HT. rewrite Hsrv in HT.
  cbv zeta in HT. fold r in HT.
  eexists {| pact := _; world := _ |}, _. 
  destruct (Setup_summary true {| pact := set_Server r.1 (pact s); world := r.2 |})
    as (s2 & pre & client & args & HS & _ & H0 & _ & _ & _ & HI & Hkeep).
  exists s2. eexists. split; [exact HT|]. split; [exact HS|].
  cbn [pact world] in *.
  rewrite count_app, H0. unfold launches in *.
  replace (Server (set_Server r.1 (pact s))) with r.1 in * by (by destruct (pact s)).
  destruct r.1 as [stopped|]; [|done].
  split; [done|]. by apply Hkeep.
Qed.



Lemma elem_of_Base (ev : Event2) (evs1 : list Event) :
  ev ∈ ((Base <$> evs1) : list Event2) → ∃ e, ev = Base e.
Proof. intros Hin. apply list_elem_of_fmap in Hin as (e & -> & _). by exists e. Qed.



(** What [VerifyProviderRaw] does, given what its [Setup] did. *)
Lemma VerifyProviderRaw_run (request : types.VerifyRequest) (s s1 : Session)
    (evs1 : list Event) :
  Setup false s = (Returned (pact s1), s1, evs1) →
  let client := pactClient (pact s1) in
  let asked (request' : types.VerifyRequest) (e : E) (pre : list Event2) :=
    let v := PactClient_VerifyProvider client request' e in
    (Returned v.1, {| pact := pact s1; world := v.2 |},
     (Base <$> evs1) ++ pre ++
       [Base (EvLog "[DEBUG] pact provider verification");
        EvClientVerifyProvider client request' v.1.2]) in
  VerifyProviderRaw request s =
    if decide (types.BrokerURL request ≠ "") then
      let f := findConsumers (Provider (pact s1)) request (world s1) in
      let pre :=
        [Base (EvLog ("[DEBUG] pact provider verification - finding all consumers from broker: "
                      +:+ types.BrokerURL request));
         EvFindConsumers (Provider (pact s1)) request f.1.2] in
      match f.1.2 with
      | Some e =>
          (Returned (ProviderVerifierResponse_zero, Some e),
           {| pact := pact s1; world := f.2 |}, (Base <$> evs1) ++ pre)
      | None => asked f.1.1 f.2 pre
      end
    else asked request (world s1) [].
Proof.
  intros HS. cbv zeta. unfold VerifyProviderRaw.
  rewrite (bind2_Returned _ _ _ _ _ _ (lift_Setup _ _ _ _ HS)).
  destruct s1 as [p1 e1]. cbn [pact world].
  destruct (decide (types.BrokerURL request ≠ "")) as [Hb|Hb]; run2.
  - destruct (findConsumers (Provider p1) request e1) as [[request' [e|]] e2];
      simpl; [done|].
    by destruct (PactClient_VerifyProvider (pactClient p1) request' e2) as [[res err] e3].
  - by destruct (PactClient_VerifyProvider (pactClient p1) request e1) as [[res err] e3].
Qed.

(** X17. [VerifyProviderRaw] returns. It launches no mock service, also on
    a session that has none, and leaves the session as its [Setup(false)]
    does, with the server and interactions it had. With no broker in the
    request nothing is looked up and the daemon is asked once, with the
    request as given, through the session's client, which is not nil: the
    response and the error the daemon answers are the result. With a
    broker the consumers are looked up first for the session's provider:
    where that fails, the result is the empty response with that error and
    the daemon is not asked; where it succeeds, the daemon is asked with
    the request as the lookup left it, and its answer is the result. *)
Theorem VerifyProviderRaw_contract (request : types.VerifyRequest) (s : Session) :
  let s1 := (Setup false s).1.2 in
  let client := pactClient (pact s1) in
  ∃ res err s' evs,
    VerifyProviderRaw request s = (Returned (res, err), s', evs) ∧
    count2 is_launch evs = 0%nat ∧
    pact s' = pact s1 ∧
    Server (pact s') = Server (pact s) ∧
    Interactions (pact s') = Interactions (pact s) ∧
    (count2 is_daemon_call evs ≤ 1)%nat ∧
    is_Some client ∧
    (types.BrokerURL request = "" →
     let v := PactClient_VerifyProvider client request (world s1) in
     (∀ p r e, EvFindConsumers p r e ∉ evs) ∧
     (res, err) = v.1 ∧ world s' = v.2 ∧
     EvClientVerifyProvider client request err ∈ evs) ∧
    (types.BrokerURL request ≠ "" →
     let f := findConsumers (Provider (pact s)) request (world s1) in
     EvFindConsumers (Provider (pact s)) request f.1.2 ∈ evs ∧
     match f.1.2 with
     | Some e =>
         res = ProviderVerifierResponse_zero ∧ err = Some e ∧ world s' = f.2 ∧
         count2 is_daemon_call evs = 0%nat
     | None =>
         let v := PactClient_VerifyProvider client f.1.1 f.2 in
         (res, err) = v.1 ∧ world s' = v.2 ∧
         EvClientVerifyProvider client f.1.1 err ∈ evs
     end).
Proof.
  destruct (Setup_facts false s) as (s1 & evs1 & HS & _ & Hno & HI & HN & Hc & HF).
  destruct (Hno (launches_false _)) as [H0 Hkeep].
  pose proof (VerifyProviderRaw_run request _ _ _ HS) as HV. cbv zeta in HV.
  cbv zeta. rewrite HS. cbn [fst snd].
  unfold names in HN. injection HN as _ HP _ _. rewrite HP in HV.
  assert (Hl : ∀ tail : list Event2, count2 is_launch tail = 0%nat →
            count2 is_launch ((Base <$> evs1) ++ tail) = 0%nat).
  { intros tail Ht. by rewrite count2_app, launch_count, H0, Ht. }
  assert (Hd : ∀ tail : list Event2, count2 is_daemon_call ((Base <$> evs1) ++ tail)
                       = count2 is_daemon_call tail).
  { intros tail. rewrite count2_app, count2_Base, count_false; done. }
  destruct (decide (types.BrokerURL request ≠ "")) as [Hb|Hb].
  - destruct (findConsumers (Provider (pact s)) request (world s1))
      as [[request' [e|]] e2] eqn:Hf; cbn [fst snd] in HV |- *.
    + eexists _, _, {| pact := _; world := _ |}, _. split; [exact HV|]. cbn [pact world].
      split; [by apply Hl|]. split; [done|]. split; [done|]. split; [done|].
      rewrite Hd. split; [unfold count2; simpl; lia|]. split; [done|]. split; [done|].
      intros _. split; [rewrite elem_of_app, !elem_of_cons; tauto|done].
    + destruct (PactClient_VerifyProvider (pactClient (pact s1)) request' e2)
        as [[res err] e3] eqn:Hv; cbn [fst snd] in HV.
      eexists _, _, {| pact := _; world := _ |}, _. split; [exact HV|]. cbn [pact world].
      split; [by apply Hl|]. split; [done|]. split; [done|]. split; [done|].
      rewrite Hd. split; [unfold count2; simpl; lia|]. split; [done|]. split; [done|].
      intros _. split; [rewrite !elem_of_app, !elem_of_cons; tauto|].
      split; [done|]. split; [done|]. rewrite !elem_of_app, !elem_of_cons. tauto.
  - destruct (PactClient_VerifyProvider (pactClient (pact s1)) request (world s1))
      as [[res err] e3] eqn:Hv; cbn [fst snd] in HV.
    eexists _, _, {| pact := _; world := _ |}, _. split; [exact HV|]. cbn [pact world].
    split; [by apply Hl|]. split; [done|]. split; [done|]. split; [done|].
    rewrite Hd. split; [unfold count2; simpl; lia|]. split; [done|]. split; [|done].
    intros _. cbn [fst snd]. split; [|split; [done|split; [done|]]].
    + intros p r e Hin. trace_in Hin; try discriminate Hin.
      apply elem_of_Base in Hin as [e' He]. discriminate He.
    + rewrite !elem_of_app, !elem_of_cons. tauto.
Qed.

Lemma run_examples_run (examples : list types.Example) (s : Session) :
  (run_examples examples : G2 unit) s = (Returned tt, s, subtest_of <$> examples).
Proof.
  induction examples as [|example examples IH]; [done|].
  cbn [run_examples]. unfold mbind, Go_bind, go_bind, emit. by rewrite IH.
Qed.

Lemma count2_class (class test : Event2 → bool) (evs : list Event2) :
  Forall (λ ev, class ev = true) evs →
  (∀ ev, class ev = true → test ev = false) →
  count2 test evs = 0%nat.
Proof.
  intros HF Hno. unfold count2. induction HF as [|ev evs Hev _ IH]; [done|].
  simpl. by rewrite (Hno _ Hev).
Qed.

Lemma class_not_elem (class : Event2 → bool) (evs : list Event2) (ev : Event2) :
  Forall (λ ev, class ev = true) evs → class ev = false → ev ∉ evs.
Proof.
  intros HF Ht Hin. rewrite Forall_forall in HF. specialize (HF _ Hin). congruence.
Qed.

(** [VerifyProviderRaw] returns, and its events are of its own kinds. *)
Lemma VerifyProviderRaw_events (request : types.VerifyRequest) (s : Session) :
  ∃ res err s' evs,
    VerifyProviderRaw request s = (Returned (res, err), s', evs) ∧
    Forall (λ ev, from_VerifyProviderRaw ev = true) evs.
Proof.
  destruct (Setup_facts false s) as (s1 & evs1 & HS & _ & _ & _ & _ & _ & HF).
  pose proof (VerifyProviderRaw_run request _ _ _ HS) as HV. cbv zeta in HV.
  assert (HB : Forall (λ ev : Event2, from_VerifyProviderRaw ev = true) (Base <$> evs1)).
  { apply Forall_fmap. eapply Forall_impl; [exact HF|]. by intros ev Hev. }
  destruct (decide (types.BrokerURL request ≠ "")) as [Hb|Hb].
  - destruct (findConsumers _ request (world s1)) as [[request' [e|]] e2];
      cbn [fst snd] in HV.
    + eexists _, _, _, _. split; [exact HV|]. apply Forall_app. split; [done|].
      by repeat constructor.
    + destruct (PactClient_VerifyProvider _ request' e2) as [[res err] e3];
        cbn [fst snd] in HV.
      eexists _, _, _, _. split; [exact HV|]. rewrite !Forall_app. split; [done|].
      split; by repeat constructor.
  - destruct (PactClient_VerifyProvider _ request (world s1)) as [[res err] e3];
      cbn [fst snd] in HV.
    eexists _, _, _, _. split; [exact HV|]. rewrite !Forall_app. split; [done|].
    split; by repeat constructor.
Qed.

(** X18. [VerifyProvider] runs [VerifyProviderRaw] once. Where that gives
    an error, the test is failed at once with the text [Error: ] and the
    error, and no sub-test is run. Where it gives none, one sub-test is
    run for each example of the response, in their order and named by
    their descriptions, each logging the full description and failing,
    with the message of the exception, exactly when the status is not
    [passed]; the response is returned with a nil error, also when
    sub-tests have failed. *)
Theorem VerifyProvider_reports (request : types.VerifyRequest) (s : Session) :
  ∃ res err s' evs,
    VerifyProviderRaw request s = (Returned (res, err), s', evs) ∧
    count2 is_Subtest evs = 0%nat ∧
    VerifyProvider request s =
      match err with
      | Some e => (Returned FailNow, s', evs ++ [EvFatal ("Error: " +:+ e +:+ LF)])
      | None =>
          (Returned (Return (res, None)), s', evs ++ (subtest_of <$> types.Examples res))
      end.
Proof.
  destruct (VerifyProviderRaw_events request s) as (res & err & s' & evs & HV & HF).
  exists res, err, s', evs. split; [done|].
  split; [apply (count2_class _ _ _ HF); by intros []|].
  unfold VerifyProvider. rewrite (bind2_Returned _ _ _ _ _ _ HV).
  destruct err as [e|]; [done|].
  unfold mbind, Go_bind, go_bind. rewrite run_examples_run. simpl.
  by rewrite app_nil_r.
Qed.


#[local] Arguments VerifyProviderRaw : simpl never.
#[local] Arguments Setup : simpl never.

(** X19. [VerifyProducer] listens on port 9393 of all addresses, whatever
    the request. Where that fails the process is ended with status 1:
    nothing is served, waited for, verified or closed. Where it succeeds
    the listener is served, and closed last on every path. Where the wait
    for the port then fails, the test is failed with the text
    [Error: <nil>], which is the nil listen error and not the error of the
    wait, and nothing is verified. Otherwise [VerifyProviderRaw] runs on
    the request and is reported as by [VerifyProvider]. *)
Theorem VerifyProducer_listener (request : types.VerifyRequest) (s : Session) :
  let l := net_Listen "tcp" ":9393" (world s) in
  match l.1.2 with
  | Some e =>
      VerifyProducer request s =
        (Returned (Exit 1), {| pact := pact s; world := l.2 |},
         [EvListen "tcp" ":9393" (Some e); EvLogFatal e])
  | None =>
      let w := waitForPort 9393 "tcp" "localhost"
                 ("Timed out waiting for Daemon on port 9393 - are you" +:+ LF +:+
                  TAB +:+ TAB +:+ "sure it's running?") l.2 in
      ∃ r s' rest,
        VerifyProducer request s =
          (Returned r, s',
           [EvListen "tcp" ":9393" None;
            Base (EvLog ("[DEBUG] API handler starting: port 9393 (" +:+ l.1.1 +:+ ")"));
            EvServe; EvWaitForPort 9393 w.1] ++ rest ++ [EvClose]) ∧
        (EvClose ∉ rest) ∧
        match w.1 with
        | Some _ =>
            r = FailNow ∧ rest = [EvFatal ("Error: <nil>" +:+ LF)] ∧
            s' = {| pact := pact s; world := w.2 |}
        | None =>
            ∃ res err evs1,
              VerifyProviderRaw request {| pact := pact s; world := w.2 |} =
                (Returned (res, err), s', evs1) ∧
              match err with
              | Some e =>
                  r = FailNow ∧ rest = evs1 ++ [EvFatal ("Error: " +:+ e +:+ LF)]
              | None =>
                  r = Return (res, None) ∧
                  rest = evs1 ++ (subtest_of <$> types.Examples res)
              end
        end
  end.
Proof.
  cbv zeta. unfold VerifyProducer.
  change (pretty 9393) with "9393".
  change (":" +:+ "9393") with ":9393".
  change ("Timed out waiting for Daemon on port " +:+ "9393" +:+ " - are you" +:+ LF +:+
          TAB +:+ TAB +:+ "sure it's running?")
    with ("Timed out waiting for Daemon on port 9393 - are you" +:+ LF +:+
          TAB +:+ TAB +:+ "sure it's running?").
  destruct s as [p e]. run2.
  destruct (net_Listen "tcp" ":9393" e) as [[addr [err|]] e1]; simpl; [done|].
  destruct (waitForPort _ _ _ _ e1) as [[we|] e2]; simpl.
  { exists FailNow, {| pact := p; world := e2 |}, [EvFatal ("Error: <nil>" +:+ LF)].
    split; [reflexivity|]. split; [|done].
    intros Hin. trace_in Hin. discriminate Hin. }
  destruct (VerifyProviderRaw_events request {| pact := p; world := e2 |})
    as (res & err & s' & evs1 & HV & HF).
  rewrite HV. destruct err as [e'|]; simpl.
  - exists FailNow, s', (evs1 ++ [EvFatal ("Error: " +:+ e' +:+ LF)]).
    split; [by rewrite <- ?app_assoc|]. split.
    + intros Hin. trace_in Hin; [|discriminate Hin].
      by apply (class_not_elem _ _ _ HF) in Hin.
    + by exists res, (Some e'), evs1.
  - rewrite run_examples_run. simpl. rewrite app_nil_r.
    exists (Return (res, None)), s', (evs1 ++ (subtest_of <$> types.Examples res)).
    split; [by rewrite <- ?app_assoc|]. split.
    + intros Hin. trace_in Hin.
      * by apply (class_not_elem _ _ _ HF) in Hin.
      * apply list_elem_of_fmap in Hin as (example & Hex & _). discriminate Hex.
    + by exists res, None, evs1.
Qed.


(** What [VerifyMessage] does, given what its [Setup] did. *)
Lemma VerifyMessage_run (message : Message Rest)
    (handler : MessageHandler (Interaction := Interaction)) (s s1 : Session)
    (evs1 : list Event) :
  Setup false s = (Returned (pact s1), s1, evs1) →
  let h := handler (dsl_more.message message) (pact s1) (world s1) in
  let pre := Base (EvLog "[DEBUG] pact add message") :: (Base <$> evs1) in
  VerifyMessage message handler s =
    match h.1.1 with
    | Some e =>
        (Returned ({| types_rpc.Error := "" |}, Some e),
         {| pact := h.1.2; world := h.2 |}, pre ++ [EvHandler (Some e)])
    | None =>
        let request :=
          {| types_rpc.Message := dsl_more.message message;
             types_rpc.Consumer := Consumer h.1.2;
             types_rpc.Provider := Provider h.1.2;
             types_rpc.PactWriteMode := PactFileWriteMode h.1.2;
             types_rpc.PactDir := PactDir h.1.2 |} in
        let u := PactClient_UpdateMessagePact (pactClient h.1.2) request h.2 in
        (Returned u.1, {| pact := h.1.2; world := u.2 |},
         pre ++ [EvHandler None; EvUpdateMessagePact (pactClient h.1.2) request u.1.2])
    end.
Proof.
  intros HS. cbv zeta. unfold VerifyMessage.
  assert (Hlog : (log2 "[DEBUG] pact add message" : G2 unit) s =
                 (Returned tt, s, [Base (EvLog "[DEBUG] pact add message")])) by done.
  rewrite (bind2_Returned _ _ _ _ _ _ Hlog).
  rewrite (bind2_Returned _ _ _ _ _ _ (lift_Setup _ _ _ _ HS)).
  destruct s1 as [p1 e1]. run2.
  destruct (handler (dsl_more.message message) p1 e1) as [[[e|] p2] e2]; simpl; [done|].
  by destruct (PactClient_UpdateMessagePact _ _ e2) as [[res err] e3].
Qed.

(** X20. [VerifyMessage], for a message and a handler that are not nil,
    returns. It launches no mock service, and calls the handler once, on
    the message, with the session and the outside as [Setup(false)] left
    them. Where the handler gives an error, the result is the empty
    response with that error and the daemon is not asked. Where it gives
    none, the daemon is asked once to update the message pact, with that
    message and the consumer, provider, write mode and pact directory of
    the session as the handler left it, and the response and the error
    the daemon answers are the result. *)
Theorem VerifyMessage_contract (message : Message Rest)
    (handler : MessageHandler (Interaction := Interaction)) (s : Session) :
  let s1 := (Setup false s).1.2 in
  let h := handler (dsl_more.message message) (pact s1) (world s1) in
  ∃ res err s' evs,
    VerifyMessage message handler s = (Returned (res, err), s', evs) ∧
    count2 is_launch evs = 0%nat ∧
    pact s' = h.1.2 ∧
    EvHandler h.1.1 ∈ evs ∧ count2 is_Handler evs = 1%nat ∧
    match h.1.1 with
    | Some e =>
        res = {| types_rpc.Error := "" |} ∧ err = Some e ∧ world s' = h.2 ∧
        count2 is_daemon_call evs = 0%nat
    | None =>
        let request :=
          {| types_rpc.Message := dsl_more.message message;
             types_rpc.Consumer := Consumer h.1.2;
             types_rpc.Provider := Provider h.1.2;
             types_rpc.PactWriteMode := PactFileWriteMode h.1.2;
             types_rpc.PactDir := PactDir h.1.2 |} in
        let u := PactClient_UpdateMessagePact (pactClient h.1.2) request h.2 in
        (res, err) = u.1 ∧ world s' = u.2 ∧
        count2 is_daemon_call evs = 1%nat ∧
        EvUpdateMessagePact (pactClient h.1.2) request err ∈ evs
    end.
Proof.
  destruct (Setup_facts false s) as (s1 & evs1 & HS & _ & Hno & _ & _ & _ & HF).
  destruct (Hno (launches_false _)) as [H0 _].
  pose proof (VerifyMessage_run message handler _ _ _ HS) as HV. cbv zeta in HV.
  cbv zeta. rewrite HS. cbn [fst snd].
  assert (Hc : ∀ (test : Event2 → bool) (tail : list Event2),
            (∀ ev, from_Setup ev = true → test (Base ev) = false) →
            count2 test ((Base (EvLog "[DEBUG] pact add message") :: (Base <$> evs1)) ++ tail)
            = count2 test tail).
  { intros test tail Ht.
    change (Base (EvLog "[DEBUG] pact add message") :: (Base <$> evs1))
      with ((Base <$> (EvLog "[DEBUG] pact add message" :: evs1)) : list Event2).
    rewrite count2_app, count2_Base, count_false; [done|].
    intros ev Hin. apply Ht. apply elem_of_cons in Hin as [->|Hin]; [done|].
    rewrite Forall_forall in HF. by apply HF. }
  assert (Hl : ∀ tail : list Event2, count2 is_launch tail = 0%nat →
            count2 is_launch ((Base (EvLog "[DEBUG] pact add message") :: (Base <$> evs1))
                              ++ tail) = 0%nat).
  { intros tail Ht. rewrite count2_app, Ht.
    change (Base (EvLog "[DEBUG] pact add message") :: (Base <$> evs1))
      with ((Base <$> (EvLog "[DEBUG] pact add message" :: evs1)) : list Event2).
    rewrite launch_count. unfold count. simpl. exact (eq_trans (Nat.add_0_r _) H0). }
  destruct (handler (dsl_more.message message) (pact s1) (world s1))
    as [[[e|] p2] e2]; cbn [fst snd] in HV |- *.
  - eexists _, _, {| pact := _; world := _ |}, _. split; [exact HV|]. cbn [pact world].
    split; [by apply Hl|]. split; [done|].
    split; [rewrite elem_of_app, !elem_of_cons; tauto|].
    rewrite !Hc by (by intros []). done.
  - destruct (PactClient_UpdateMessagePact _ _ e2) as [[res err] e3] eqn:Hu;
      cbn [fst snd] in HV.
    eexists _, _, {| pact := _; world := _ |}, _. split; [exact HV|]. cbn [pact world].
    split; [by apply Hl|]. split; [done|].
    split; [rewrite elem_of_app, !elem_of_cons; tauto|].
    rewrite !Hc by (by intros []). split; [done|]. split; [done|]. split; [done|].
    split; [done|]. rewrite elem_of_app, !elem_of_cons. tauto.
Qed.

(** The configuration once [Setup] has filled it in. *)
Lemma configured_fields (dir : string) (p : Pact) :
  let p1 := with_defaults dir (after_logging p) in
  Network p1 = (if decide (Network p = "") then "tcp" else Network p) ∧
  Host p1 = (if decide (Host p = "") then "localhost" else Host p) ∧
  LogDir p1 = (if decide (LogDir p = "")
               then fmt_Sprintf (filepath_Join dir "logs") else LogDir p) ∧
  PactDir p1 = (if decide (PactDir p = "")
                then fmt_Sprintf (filepath_Join dir "pacts") else PactDir p) ∧
  SpecificationVersion p1 = (if decide (SpecificationVersion p = 0) then 2
                             else SpecificationVersion p) ∧
  LogLevel p1 = match logFilter p with
                | None => if decide (LogLevel p = "") then "INFO" else LogLevel p
                | Some _ => LogLevel p
                end ∧
  logFilter p1 = match logFilter p with
                 | None => Some {| logutils.Levels := ["DEBUG"; "WARN"; "ERROR"];
                                   logutils.MinLevel := LogLevel p1 |}
                 | Some f => Some f
                 end ∧
  pactClient p1 = match pactClient p with
                  | None => Some {| PactClient_Port := Port p;
                                    PactClient_Network := Network p1;
                                    PactClient_Address := Host p1 |}
                  | Some client => Some client
                  end.
Proof.
  destruct p as [srv port client cons prov ints lvl filter ldir pdir mode ver host net allowed].
  cbv zeta. unfold with_defaults, after_logging. cbn [logFilter LogLevel].
  destruct filter as [f|]; [|destruct (decide (lvl = ""))];
    unfold default_Network; cbn; destruct (decide (net = ""));
    unfold default_Host; cbn; destruct (decide (host = ""));
    unfold default_LogDir; cbn; destruct (decide (ldir = ""));
    unfold default_PactDir; cbn; destruct (decide (pdir = ""));
    unfold default_SpecificationVersion; cbn; destruct (decide (ver = 0));
    unfold default_pactClient; cbn; destruct client; cbn; done.
Qed.


(** The session [Setup] leaves is the configured one, up to its server. *)
Lemma Setup_pact (startMockServer : bool) (s : Session) :
  ∃ s1 evs1 srv,
    Setup startMockServer s = (Returned (pact s1), s1, evs1) ∧
    pact s1 = set_Server srv (with_defaults (os_Getwd (world s)) (after_logging (pact s))).
Proof.
  destruct (Setup_run startMockServer s) as (client & Hc & Hrun). cbv zeta in Hrun.
  destruct (launches startMockServer _).
  - eexists {| pact := _; world := _ |}, _, _. split; [exact Hrun|]. reflexivity.
  - eexists {| pact := _; world := _ |}, _,
      (Server (with_defaults (os_Getwd (world s)) (after_logging (pact s)))).
    split; [exact Hrun|].
    cbn [pact]. by destruct (with_defaults _ _).
Qed.

(** A session with nothing left to fill in is as [Setup] configures it. *)
Lemma settled (dir : string) (p : Pact) :
  Network p ≠ "" → Host p ≠ "" → LogDir p ≠ "" → PactDir p ≠ "" →
  SpecificationVersion p ≠ 0 → is_Some (logFilter p) → is_Some (pactClient p) →
  with_defaults dir (after_logging p) = p.
Proof.
  destruct p as [srv port client cons prov ints lvl filter ldir pdir mode ver host net allowed].
  cbn. intros Hn Hh Hl Hp Hv [f ->] [c ->].
  unfold with_defaults, after_logging. cbn [logFilter].
  unfold default_Network; cbn; destruct (decide (net = "")); [done|].
  unfold default_Host; cbn; destruct (decide (host = "")); [done|].
  unfold default_LogDir; cbn; destruct (decide (ldir = "")); [done|].
  unfold default_PactDir; cbn; destruct (decide (pdir = "")); [done|].
  unfold default_SpecificationVersion; cbn; destruct (decide (ver = 0)); [done|].
  done.
Qed.

(** X21. [Setup] fills in what the session leaves empty and nothing else:
    the network becomes [tcp], the host [localhost], the log and pact
    directories [logs] and [pacts] under the working directory, the
    specification version 2; on a session without a log filter the log
    level becomes [INFO] and a filter with that session's level as its
    minimum is installed; on a session without a client one is made from
    the daemon port and the network and host just settled. A value that
    is set is kept, and so are the names, the write mode and the daemon
    port. *)
Theorem Setup_defaults (startMockServer : bool) (s : Session) :
  ∃ s' evs,
    Setup startMockServer s = (Returned (pact s'), s', evs) ∧
    let p := pact s in
    let p' := pact s' in
    Network p' = (if decide (Network p = "") then "tcp" else Network p) ∧
    Host p' = (if decide (Host p = "") then "localhost" else Host p) ∧
    LogDir p' = (if decide (LogDir p = "")
                 then fmt_Sprintf (filepath_Join (os_Getwd (world s)) "logs")
                 else LogDir p) ∧
    PactDir p' = (if decide (PactDir p = "")
                  then fmt_Sprintf (filepath_Join (os_Getwd (world s)) "pacts")
                  else PactDir p) ∧
    SpecificationVersion p' = (if decide (SpecificationVersion p = 0) then 2
                               else SpecificationVersion p) ∧
    LogLevel p' = match logFilter p with
                  | None => if decide (LogLevel p = "") then "INFO" else LogLevel p
                  | Some _ => LogLevel p
                  end ∧
    logFilter p' = match logFilter p with
                   | None => Some {| logutils.Levels := ["DEBUG"; "WARN"; "ERROR"];
                                     logutils.MinLevel := LogLevel p' |}
                   | Some f => Some f
                   end ∧
    pactClient p' = match pactClient p with
                    | None => Some {| PactClient_Port := Port p;
                                      PactClient_Network := Network p';
                                      PactClient_Address := Host p' |}
                    | Some client => Some client
                    end ∧
    names p' = names p.
Proof.
  destruct (Setup_pact startMockServer s) as (s1 & evs1 & srv & HS & Hp).
  exists s1, evs1. split; [exact HS|]. cbv zeta. rewrite Hp.
  pose proof (configured_fields (os_Getwd (world s)) (pact s)) as HF. cbv zeta in HF.
  pose proof (with_defaults_names (os_Getwd (world s)) (after_logging (pact s))) as HN.
  rewrite after_logging_names in HN.
  destruct (with_defaults _ _). cbn in *. rewrite <- HN.
  destruct HF as (H1 & H2 & H3 & H4 & H5 & H6 & H7 & H8). done.
Qed.

(** X22. A session that [Setup] has configured is settled: a further
    [Setup] that has no mock service to launch leaves the session exactly
    as it is, given that its log and pact directories are not empty. The
    methods that set the session up again, each on its own call, so do
    not change what the first one has decided. *)
Theorem Setup_settled (first again : bool) (s s1 : Session) (evs1 : list Event) :
  Setup first s = (Returned (pact s1), s1, evs1) →
  LogDir (pact s1) ≠ "" → PactDir (pact s1) ≠ "" →
  launches again (pact s1) = false →
  ∃ s2 evs2,
    Setup again s1 = (Returned (pact s1), s2, evs2) ∧ pact s2 = pact s1 ∧
    count is_StartServer evs2 = 0%nat.
Proof.
  intros HS Hl Hp Hno.
  destruct (Setup_pact first s) as (s1' & evs1' & srv & HS' & Hpact).
  assert (s1' = s1) as -> by congruence. clear HS'.
  pose proof (configured_fields (os_Getwd (world s)) (pact s)) as HF. cbv zeta in HF.
  assert (Hset : with_defaults (os_Getwd (world s1)) (after_logging (pact s1)) = pact s1).
  { apply settled; try done; rewrite Hpact;
      destruct HF as (H1 & H2 & H3 & H4 & H5 & H6 & H7 & H8);
      destruct (with_defaults _ _); cbn in *;
      first [rewrite H8; destruct (pactClient (pact s)); by eexists
            |rewrite H7; destruct (logFilter (pact s)); by eexists
            |rewrite H5; destruct (decide (SpecificationVersion (pact s) = 0));
               [discriminate|assumption]
            |rewrite H2; destruct (decide (Host (pact s) = ""));
               [discriminate|assumption]
            |rewrite H1; destruct (decide (Network (pact s) = ""));
               [discriminate|assumption]]. }
  destruct (Setup_run again s1) as (client & Hc & Hrun). cbv zeta in Hrun.
  rewrite Hset, Hno in Hrun.
  eexists {| pact := _; world := _ |}, _. split; [exact Hrun|]. split; [done|].
  by destruct (probing_events_counts (pact s1) (pact s1) (probe (pact s1) (world s1)).1)
    as (_ & H0 & _).
Qed.

End Properties.
End dsl_more_spec.


(** ** The other operations on the concrete daemon and session *)

Module daemon_more_witness.
Import daemon daemon_more daemon_more_spec daemon_example daemon_more_example.

(** Started on [d0], whose manager tracks one command, the new mock
    service is reported under process id 101, with port 0. *)
Lemma StartServer_reply_witness :
  ∃ d' evs,
    StartServer (Service0 := registry_Service) (ServiceRun0 := registry_ServiceRun)
      request_start reply_zero d0 =
      (Returned ({| types.Pid := 101; types.Port := 0; types.Status := -1;
                    types.Args := [] |}, None), d', evs) ∧
    others_kept MockSvc d0 d'.
Proof.
  apply (StartServer_reply (Service0 := registry_Service)
           (ServiceRun0 := registry_ServiceRun) request_start reply_zero d0
           {| exec.Path := "pact-mock-service"; exec.Args := ["--port"; "8080"];
              exec.Process := Some {| os.Pid := 101 |} |} {| os.Pid := 101 |});
    reflexivity.
Defined.

(** [d0] lists its one mock service. *)
Lemma ListServers_lists_all_witness :
  ∃ servers evs,
    ListServers (Service0 := registry_Service) map_to_list reply_zero
      {| types_rpc.Servers := [] |} d0 =
      (Returned ({| types_rpc.Servers := servers |}, None), d0, evs) ∧
    length servers = 1%nat.
Proof.
  destruct (ListServers_lists_all (Service0 := registry_Service) map_to_list
              (λ m, reflexivity _) reply_zero {| types_rpc.Servers := [] |} d0)
    as (servers & evs & Hrun & Hlen & _).
  - apply (bool_decide_unpack _). vm_compute. exact I.
  - exists servers, evs. split; [exact Hrun|exact Hlen].
Defined.

(** The command under port 9090 was not started: no listing. *)
Lemma ListServers_panics_witness :
  ∃ msg,
    ListServers (Service0 := registry_Service) map_to_list reply_zero
      {| types_rpc.Servers := [] |} d_unstarted =
      (Panicked msg, d_unstarted,
       [EvLog "[DEBUG] daemon - listing mock servers"; EvList MockSvc]).
Proof.
  apply (ListServers_panics (Service0 := registry_Service) map_to_list
           (λ m, reflexivity _) reply_zero {| types_rpc.Servers := [] |} d_unstarted
           9090 (Some {| exec.Path := "pact-mock-service"; exec.Args := [];
                         exec.Process := None |})); reflexivity.
Defined.

(** Every command the verification manager of [d0] lists was started:
    [Shutdown] returns. *)
Lemma Shutdown_any_listing_witness :
  (Shutdown (Service0 := registry_Service) map_to_list d0).1.1 = Returned tt.
Proof.
  apply (proj1 (proj2 (proj2 (Shutdown_any_listing (Service0 := registry_Service)
                                map_to_list d0)))).
  apply (bool_decide_unpack _). vm_compute. exact I.
Defined.

(** A verifier whose stdout cannot be attached is not started. *)
Lemma VerifyProvider_launch_error_witness :
  (VerifyProvider (Service0 := registry_Service) Validate json_Decode os_run_no_pipe
     request_ok reply0 d0).1.1 = Returned (reply0, Some "exec: Stdout already set") ∧
  EvStart ∉ (VerifyProvider (Service0 := registry_Service) Validate json_Decode
               os_run_no_pipe request_ok reply0 d0).2.
Proof.
  apply (proj1 (VerifyProvider_launch_error (Service0 := registry_Service) Validate
                  json_Decode os_run_no_pipe request_ok request_ok reply0 d0
                  "exec: Stdout already set" (reflexivity _))).
  left. reflexivity.
Defined.

(** A result that decodes is lost when stderr cannot be read. *)
Lemma VerifyProvider_read_error_witness :
  (VerifyProvider (Service0 := registry_Service) Validate json_Decode os_run_unread
     request_ok reply0 d0).1.1 =
  Returned (reply0, Some "read |0: file already closed").
Proof.
  apply (VerifyProvider_read_error (Service0 := registry_Service) Validate
           json_Decode os_run_unread request_ok request_ok reply0 d0
           "read |0: file already closed"); try reflexivity.
  right. split; reflexivity.
Defined.


(** With no signal in the channel of [d0], the daemon waits. *)
Lemma StartDaemon_needs_signal_witness :
  (StartDaemon (Service0 := registry_Service) net_Listen map_to_list 6666 "tcp"
     "localhost" d0).1.1 = Blocked.
Proof.
  apply (proj1 (proj2 (StartDaemon_needs_signal (Service0 := registry_Service)
                         net_Listen map_to_list 6666 "tcp" "localhost" d0)));
    reflexivity.
Defined.

(** A daemon that was asked to stop before it listens shuts down as soon
    as it does. *)
Lemma StopDaemon_then_StartDaemon_witness :
  signalChan
    (StartDaemon (Service0 := registry_Service) net_Listen map_to_list 6666 "tcp"
       "localhost"
       (set_signalChan [os.Interrupt]
          (NewDaemon (Service0 := registry_Service) ∅ ∅ ∅))).1.2 = [].
Proof.
  apply (proj2 (proj2 (StopDaemon_then_StartDaemon (Service0 := registry_Service)
                         net_Listen map_to_list ∅ ∅ ∅ "" "" 6666 "tcp" "localhost"))).
  reflexivity.
Defined.

End daemon_more_witness.

Module dsl_more_witness.
Import dsl dsl_more dsl_more_spec dsl_example dsl_more_example.

(** An interaction added to a session with a running mock service: the
    service is kept and none is launched. *)
Lemma AddInteraction_appends_witness :
  ∃ i s' evs,
    AddInteraction (World0 := world_example) (Outside0 := outside_example) s_running =
      (Returned i, s', evs) ∧
    Server (pact s') = Some running ∧ count2 is_launch evs = 0%nat.
Proof.
  destruct (AddInteraction_appends (World0 := world_example)
              (Outside0 := outside_example) s_running)
    as (i & s' & evs & Hrun & _ & _ & _ & Hkeep).
  exists i, s', evs. split; [exact Hrun|]. apply Hkeep. by exists running.
Defined.

(** The consumer example: the interaction added is registered after the
    one the session had. *)
Lemma AddInteraction_then_Verify_witness :
  ∃ i s' evs,
    AddInteraction (World0 := world_example) (Outside0 := outside_example) s0 =
      (Returned i, s', evs) ∧
    registered (Verify (World0 := world_example) passing_test s').2 =
      ["A request to login with user 'billy'"; i].
Proof.
  destruct (AddInteraction_then_Verify (World0 := world_example)
              (Outside0 := outside_example) passing_test s0)
    as (i & s' & evs & Hrun & Hreg).
  exists i, s', evs. split; [exact Hrun|].
  apply (Hreg None).
  assert (Hs : s' = (AddInteraction (World0 := world_example)
                       (Outside0 := outside_example) s0).1.2) by (by rewrite Hrun).
  rewrite Hs. apply list_elem_of_In. vm_compute. tauto.
Defined.

(** The daemon answers the stop request with the stopped server, which
    stays the server of the session. *)
Lemma Teardown_replaces_server_witness :
  ∃ s' evs,
    Teardown (E := nat) (Outside0 := outside_example) s_running =
      (Returned (pact s'), s', evs) ∧
    Server (pact s') = Some (types.set_Status 0 running).
Proof.
  destruct (Teardown_replaces_server (Outside0 := outside_example) s_running)
    as (s' & evs & Hrun & _ & _ & Hsrv & _).
  exists s', evs. split; [exact Hrun|exact Hsrv].
Defined.

(** So the next [Setup] launches nothing. *)
Lemma Teardown_then_Setup_witness :
  ∃ s1 evs1 s2 evs2,
    Teardown (E := nat) (Outside0 := outside_example) s_running =
      (Returned (pact s1), s1, evs1) ∧
    Setup (World0 := world_example) true s1 = (Returned (pact s2), s2, evs2) ∧
    count is_StartServer evs2 = 0%nat ∧
    Server (pact s2) = Some (types.set_Status 0 running).
Proof.
  exact (Teardown_then_Setup (World0 := world_example) (Outside0 := outside_example)
           s_running running (reflexivity _)).
Defined.


(** A request with no broker goes to the daemon as it is, and the two
    examples of the daemon's answer are the result. *)
Lemma VerifyProviderRaw_contract_witness :
  ∃ res err s' evs,
    VerifyProviderRaw (World0 := world_example) (Outside0 := outside_example)
      daemon_example.request_ok s0 = (Returned (res, err), s', evs) ∧
    length (types.Examples res) = 2%nat ∧ err = None.
Proof.
  destruct (VerifyProviderRaw_contract (World0 := world_example)
              (Outside0 := outside_example) daemon_example.request_ok s0)
    as (res & err & s' & evs & Hrun & _ & _ & _ & _ & _ & _ & Hplain & _).
  destruct (Hplain (reflexivity _)) as (_ & Hres & _).
  vm_compute in Hres. injection Hres as -> ->.
  eexists _, _, s', evs. split; [exact Hrun|]. split; reflexivity.
Defined.

(** The session of the consumer example is settled by its first
    [Setup]. *)
Lemma Setup_settled_witness :
  let s1 := (Setup (World0 := world_example) true s0).1.2 in
  ∃ s2 evs2,
    Setup (World0 := world_example) true s1 = (Returned (pact s1), s2, evs2) ∧
    pact s2 = pact s1 ∧ count is_StartServer evs2 = 0%nat.
Proof.
  apply (Setup_settled (World0 := world_example) true true s0 _
           (Setup (World0 := world_example) true s0).2).
  - vm_compute. reflexivity.
  - vm_compute. discriminate.
  - vm_compute. discriminate.
  - vm_compute. reflexivity.
Defined.

End dsl_more_witness.
